(** * A shallow embedding of the AWS CLI helper scripts

    The two scripts [aws_check.py] and [aws_metrics.py] shell out to the
    [aws] binary, branch on the result and print a report.  Everything they
    obtain from outside their own source (the binary, the clock, the
    environment, the file system and the Python standard library functions
    [json.loads], [json.dumps] and [str]) is gathered in a [World]; the
    scripts themselves are functions in a small state-and-exception monad
    that logs every subprocess invocation and every printed line. *)

From Stdlib Require Import ZArith String Ascii List Lia SpecFloat DecimalString.
From stdpp Require Import base tactics option list strings gmap.

Open Scope string_scope.
Open Scope Z_scope.

(** ** Python [str] operations used by the scripts

    A [str] is modelled by the list of its code points; the model covers
    code points below 256, one [ascii] each. *)
Module PyStr.

(** [str.isspace] on one character, for the code points below 256. *)
Definition isspace (c : ascii) : bool :=
  let n := nat_of_ascii c in
  ((9 <=? n)%nat && (n <=? 13)%nat) || ((28 <=? n)%nat && (n <=? 32)%nat)
  || (n =? 133)%nat || (n =? 160)%nat.

Fixpoint lstrip (s : string) : string :=
  match s with
  | EmptyString => EmptyString
  | String c s' => if isspace c then lstrip s' else s
  end.

Fixpoint rstrip (s : string) : string :=
  match s with
  | EmptyString => EmptyString
  | String c s' =>
      match rstrip s' with
      | EmptyString => if isspace c then EmptyString else String c EmptyString
      | r => String c r
      end
  end.

(** [s.strip()] *)
Definition strip (s : string) : string := rstrip (lstrip s).

(** [s.startswith(p)] *)
Definition startswith (s p : string) : bool := String.prefix p s.

(** Left-to-right replacement of the non-overlapping occurrences of a
    non-empty [old]; [skip] counts the characters of an occurrence that
    was just replaced and are still to be passed over. *)
Fixpoint replace_from (old new : string) (skip : nat) (s : string) : string :=
  match s with
  | EmptyString => EmptyString
  | String c s' =>
      match skip with
      | S k => replace_from old new k s'
      | O =>
          if String.prefix old s
          then new +:+ replace_from old new (String.length old - 1) s'
          else String c (replace_from old new O s')
      end
  end.

Fixpoint intersperse (new s : string) : string :=
  match s with
  | EmptyString => new
  | String c s' => new +:+ String c (intersperse new s')
  end.

(** [s.replace(old, new)]; with an empty [old] Python inserts [new]
    before every character and at the end. *)
Definition replace (s old new : string) : string :=
  match old with
  | EmptyString => intersperse new s
  | _ => replace_from old new O s
  end.

(** [s.split(sep)] for a one-character separator: the non-empty list of
    the fields between the separators. *)
Fixpoint split (sep : ascii) (s : string) : list string :=
  match s with
  | EmptyString => [EmptyString]
  | String c s' =>
      if Ascii.eqb c sep then EmptyString :: split sep s'
      else match split sep s' with
           | [] => [String c EmptyString]
           | f :: fs => String c f :: fs
           end
  end.

(** [s.split(sep, 1)] for a one-character separator: one field when
    [sep] does not occur, else the text before and after its first
    occurrence. *)
Fixpoint split1 (sep : ascii) (s : string) : list string :=
  match s with
  | EmptyString => [EmptyString]
  | String c s' =>
      if Ascii.eqb c sep then [EmptyString; s']
      else match split1 sep s' with
           | f :: fs => String c f :: fs
           | [] => [String c EmptyString]
           end
  end.

(** [s.split()]: the maximal runs of characters that are not whitespace;
    [cur] is the run being read. *)
Fixpoint split_ws_from (cur : string) (s : string) : list string :=
  match s with
  | EmptyString => match cur with EmptyString => [] | _ => [cur] end
  | String c s' =>
      if isspace c
      then match cur with
           | EmptyString => split_ws_from EmptyString s'
           | _ => cur :: split_ws_from EmptyString s'
           end
      else split_ws_from (cur +:+ String c EmptyString) s'
  end.

Definition split_ws (s : string) : list string := split_ws_from EmptyString s.

(** [l[-1]] on a list of strings known to be non-empty. *)
Definition last_field (l : list string) : string := List.last l EmptyString.

(** [str(n)] for an [int]. *)
Definition of_Z (n : Z) : string := NilZero.string_of_int (Z.to_int n).

(** [f"{s:25}"]: left-justify in a field of [n] characters. *)
Fixpoint spaces (n : nat) : string :=
  match n with O => EmptyString | S k => String " " (spaces k) end.

Definition ljust (n : nat) (s : string) : string :=
  s +:+ spaces (n - String.length s).

(** Number of bytes of the UTF-8 encoding, for code points below 256. *)
Fixpoint utf8_size (s : string) : Z :=
  match s with
  | EmptyString => 0
  | String c s' => (if (nat_of_ascii c <? 128)%nat then 1 else 2) + utf8_size s'
  end.

(** Does the character [c] occur in [s]? *)
Fixpoint occurs (c : ascii) (s : string) : bool :=
  match s with
  | EmptyString => false
  | String c' s' => Ascii.eqb c' c || occurs c s'
  end.

End PyStr.

(** ** Exceptions

    The exception classes that can travel through the scripts.  The first
    two are the ones [run_aws_command] handles; [JSONDecodeError] is the one
    the report sections handle; the others are never caught. *)
Inductive exn : Type :=
  | TimeoutExpired
  | FileNotFoundError
  | JSONDecodeError
  | OverflowError
  | TypeError
  | ValueError
  | AttributeError
  | OtherError (name : string).

(** ** The [datetime] values the metrics script computes with

    Model of the Python standard library ([datetime], [timedelta],
    [strftime]), which is not part of the repository.  An aware UTC
    [datetime] is the number of microseconds since 1970-01-01T00:00:00Z; the
    calendar is the proleptic Gregorian one, as in Python. *)
Module PyDatetime.

Definition US_PER_SECOND : Z := 1000000.
Definition SECONDS_PER_DAY : Z := 86400.

(** Day number (days since 1970-01-01) of a calendar date. *)
Definition days_from_civil (y m d : Z) : Z :=
  let y := if m <=? 2 then y - 1 else y in
  let era := y / 400 in
  let yoe := y - era * 400 in
  let doy := (153 * (if 2 <? m then m - 3 else m + 9) + 2) / 5 + d - 1 in
  let doe := yoe * 365 + yoe / 4 - yoe / 100 + doy in
  era * 146097 + doe - 719468.

(** Calendar date (year, month, day) of a day number. *)
Definition civil_from_days (z : Z) : Z * Z * Z :=
  let z := z + 719468 in
  let era := z / 146097 in
  let doe := z - era * 146097 in
  let yoe := (doe - doe / 1460 + doe / 36524 - doe / 146096) / 365 in
  let y := yoe + era * 400 in
  let doy := doe - (365 * yoe + yoe / 4 - yoe / 100) in
  let mp := (5 * doy + 2) / 153 in
  let d := doy - (153 * mp + 2) / 5 + 1 in
  let m := if mp <? 10 then mp + 3 else mp - 9 in
  (if m <=? 2 then y + 1 else y, m, d).

(** [datetime.min] and [datetime.max] (years 1 to 9999). *)
Definition datetime_min : Z :=
  days_from_civil 1 1 1 * SECONDS_PER_DAY * US_PER_SECOND.
Definition datetime_max : Z :=
  (days_from_civil 9999 12 31 + 1) * SECONDS_PER_DAY * US_PER_SECOND - 1.

Definition in_range (t : Z) : bool :=
  (datetime_min <=? t) && (t <=? datetime_max).

(** [timedelta(hours=h)], in microseconds: the normalised number of days
    must have magnitude at most 999999999. *)
Definition timedelta_hours (h : Z) : exn + Z :=
  if Z.abs (h / 24) <=? 999999999
  then inr (h * 3600 * US_PER_SECOND)
  else inl OverflowError.

(** [t - delta] on a [datetime]: the result must be a [datetime]. *)
Definition sub (t delta : Z) : exn + Z :=
  let r := t - delta in
  if in_range r then inr r else inl OverflowError.

Definition digit (d : Z) : ascii := ascii_of_nat (48 + Z.to_nat (d mod 10)).

(** Zero-padded decimal fields of width two and four. *)
Definition pad2 (n : Z) : string :=
  String (digit (n / 10)) (String (digit n) EmptyString).
Definition pad4 (n : Z) : string :=
  String (digit (n / 1000)) (String (digit (n / 100))
    (String (digit (n / 10)) (String (digit n) EmptyString))).

(** [%Y] as the C library renders the year of a [datetime] (1 to 9999):
    its decimal digits, without padding, so that a year below 1000 takes
    fewer than four characters. *)
Definition year_text (y : Z) : string :=
  if y <? 10 then String (digit y) EmptyString
  else if y <? 100 then pad2 y
  else if y <? 1000 then String (digit (y / 100)) (pad2 y)
  else pad4 y.

(** [t.strftime("%Y-%m-%dT%H:%M:%SZ")]: the microseconds are dropped. *)
Definition strftime (t : Z) : string :=
  let secs := t / US_PER_SECOND in
  let days := secs / SECONDS_PER_DAY in
  let sod := secs mod SECONDS_PER_DAY in
  let '(y, m, d) := civil_from_days days in
  year_text y +:+ "-" +:+ pad2 m +:+ "-" +:+ pad2 d +:+ "T" +:+
  pad2 (sod / 3600) +:+ ":" +:+ pad2 (sod mod 3600 / 60) +:+ ":" +:+
  pad2 (sod mod 60) +:+ "Z".

(** Reading a timestamp back, the way the receiver of the two strings
    does: the instant, in seconds since 1970-01-01T00:00:00Z, denoted by a
    string in the format [%Y-%m-%dT%H:%M:%SZ]. *)
Definition digit_value (c : ascii) : option Z :=
  let n := nat_of_ascii c in
  if ((48 <=? n)%nat && (n <=? 57)%nat)%bool then Some (Z.of_nat n - 48) else None.

Fixpoint number (ds : list ascii) (acc : Z) : option Z :=
  match ds with
  | [] => Some acc
  | c :: ds' =>
      match digit_value c with
      | Some v => number ds' (10 * acc + v)
      | None => None
      end
  end.

(** The year of a timestamp: the digits before its first ["-"], and
    what follows that ["-"]. *)
Fixpoint read_year (s : string) (acc : Z) : option (Z * string) :=
  match s with
  | EmptyString => None
  | String c rest =>
      if Ascii.eqb c "-" then Some (acc, rest)
      else match digit_value c with
           | Some v => read_year rest (10 * acc + v)
           | None => None
           end
  end.

Definition read_timestamp (s : string) : option Z :=
  match read_year s 0 with
  | Some (y,
          String m1 (String m2 (String "-" (String d1 (String d2 (String "T"
          (String h1 (String h2 (String ":" (String i1 (String i2 (String ":"
          (String s1 (String s2 (String "Z" EmptyString))))))))))))))) =>
      match number [m1; m2] 0, number [d1; d2] 0,
            number [h1; h2] 0, number [i1; i2] 0, number [s1; s2] 0 with
      | Some m, Some d, Some h, Some i, Some sec =>
          Some (days_from_civil y m d * SECONDS_PER_DAY + h * 3600 + i * 60 + sec)
      | _, _, _, _, _ => None
      end
  | _ => None
  end.

End PyDatetime.

(** ** The values [json.loads] returns, and the Python operations the
    scripts apply to them

    The scripts never inspect the type of a parsed value: an operation on a
    value of the wrong shape raises, which is modelled here. *)
Module PyJson.

#[local] Unset Elimination Schemes.
Inductive json : Type :=
  | JNull
  | JBool (b : bool)
  | JInt (n : Z)
  | JFloat (f : spec_float)
  | JStr (s : string)
  | JArr (items : list json)
  | JObj (fields : list (string * json)).
#[local] Set Elimination Schemes.

(** Truth value of a parsed value ([if v:], [v or d]). *)
Definition truthy (v : json) : bool :=
  match v with
  | JNull => false
  | JBool b => b
  | JInt n => negb (n =? 0)
  | JFloat (S754_zero _) => false
  | JFloat _ => true
  | JStr s => negb (String.eqb s EmptyString)
  | JArr items => match items with [] => false | _ => true end
  | JObj fields => match fields with [] => false | _ => true end
  end.

(** [for x in v]: a list yields its items, a string its characters, a
    dict its keys; nothing else is iterable. *)
Definition iterate (v : json) : exn + list json :=
  match v with
  | JArr items => inr items
  | JStr s => inr (map (fun c => JStr (String c EmptyString)) (list_ascii_of_string s))
  | JObj fields => inr (map (fun kv => JStr (fst kv)) fields)
  | _ => inl TypeError
  end.

(** [v.split("/")[-1]]: only a string has [split]. *)
Definition split_last (v : json) : exn + string :=
  match v with
  | JStr s => inr (PyStr.last_field (PyStr.split "/" s))
  | _ => inl AttributeError
  end.

(** [x1, ..., xn = v] *)
Definition unpack (n : nat) (v : json) : exn + list json :=
  match iterate v with
  | inl e => inl e
  | inr items => if (length items =? n)%nat then inr items else inl ValueError
  end.

Fixpoint assoc (key : string) (fields : list (string * json)) : option json :=
  match fields with
  | [] => None
  | (k, v) :: rest => if String.eqb k key then Some v else assoc key rest
  end.

(** [v.get(key, default)]: only a dict has [get]. *)
Definition get (v : json) (key : string) (default : json) : exn + json :=
  match v with
  | JObj fields => inr (match assoc key fields with Some x => x | None => default end)
  | _ => inl AttributeError
  end.

(** [v[:n]]: a list or a string can be sliced.  (On a dict Python 3.10
    and 3.11 raise [TypeError]; later versions raise [KeyError], which no
    handler of the scripts catches either.) *)
Definition slice_to (n : nat) (v : json) : exn + json :=
  match v with
  | JArr items => inr (JArr (firstn n items))
  | JStr s => inr (JStr (substring 0 n s))
  | _ => inl TypeError
  end.

(** [len(v)] *)
Definition len (v : json) : exn + Z :=
  match v with
  | JArr items => inr (Z.of_nat (length items))
  | JStr s => inr (Z.of_nat (String.length s))
  | JObj fields => inr (Z.of_nat (length fields))
  | _ => inl TypeError
  end.

End PyJson.
Export PyJson.

(** ** The world outside the scripts, and the effects of a run *)

(** What [subprocess.run] returns when the child process ends in time. *)
Record CompletedProcess : Type := {
  cp_returncode : Z;
  cp_stdout : string;
  cp_stderr : string;
}.

(** One subprocess invocation: the argument vector and the timeout. *)
Abbreviation call := (list string * Z)%type.

Record World : Type := {
  (** [shutil.which("aws")] *)
  which_aws : option string;
  (** [subprocess.run(argv, capture_output=True, text=True, timeout=t)],
      given the invocations made before it: a completed process, or the
      exception it raises. *)
  subprocess_run : list call -> list string -> Z -> exn + CompletedProcess;
  (** [json.loads]; [None] stands for [JSONDecodeError]. *)
  json_loads : string -> option json;
  (** [json.dumps], as [json.dump] writes it. *)
  json_dumps : json -> string;
  (** [repr] of the parsed values that are not strings, integers, booleans
      or [None]. *)
  py_repr : json -> string;
  (** [os.environ.get] *)
  environ : string -> option string;
  (** The lines of [~/.aws/config] and [~/.aws/credentials], as iterating
      over the open file yields them; [None] when the file does not exist. *)
  aws_config : option (list string);
  aws_credentials : option (list string);
  (** [datetime.now(timezone.utc)], in microseconds since the epoch. *)
  utcnow : Z;
  (** The name [tempfile.NamedTemporaryFile] gives its file. *)
  tempfile_name : string;
  (** The exception [open(path, "w")] raises for a path that is not
      empty, if it raises one (a missing directory, a directory, no
      permission). *)
  open_error : string -> option exn;
  (** What [parser.print_help()] prints. *)
  help_text : string;
}.

(** A printed line.  The five helpers [print_header] ... [print_info]
    decorate their text with a colour and a glyph; the constructor records
    which helper printed the text. *)
Inductive line : Type :=
  | Header (text : string)
  | Success (text : string)
  | Error (text : string)
  | Warning (text : string)
  | Info (text : string)
  | Plain (text : string).

Record State : Type := {
  (** subprocess invocations so far, oldest first *)
  calls : list call;
  (** lines printed so far, oldest first *)
  printed : list line;
  (** the files the run can write: path to contents *)
  files : gmap string string;
}.

Definition add_call (c : call) (s : State) : State :=
  {| calls := (calls s ++ [c])%list; printed := printed s; files := files s |}.

Definition add_line (l : line) (s : State) : State :=
  {| calls := calls s; printed := (printed s ++ [l])%list; files := files s |}.

Definition set_files (f : gmap string string) (s : State) : State :=
  {| calls := calls s; printed := printed s; files := f |}.

(** Computations: read the world, update the state, and either return a
    value or raise. *)
Definition M (A : Type) : Type := World -> State -> (exn + A) * State.

Definition ret {A} (a : A) : M A := fun _ s => (inr a, s).

Definition bind {A B} (c : M A) (k : A -> M B) : M B :=
  fun w s =>
    match c w s with
    | (inr a, s') => k a w s'
    | (inl e, s') => (inl e, s')
    end.

Definition raise {A} (e : exn) : M A := fun _ s => (inl e, s).

(** A pure operation that can raise. *)
Definition lift {A} (r : exn + A) : M A := fun _ s => (r, s).

(** [try: body except <classes>: handler]; [handler e] is [None] for an
    exception no [except] clause matches. *)
Definition try_except {A} (body : M A) (handler : exn -> option (M A)) : M A :=
  fun w s =>
    match body w s with
    | (inr a, s') => (inr a, s')
    | (inl e, s') =>
        match handler e with
        | Some h => h w s'
        | None => (inl e, s')
        end
    end.

(** [try: body finally: cleanup] *)
Definition try_finally {A} (body : M A) (cleanup : M unit) : M A :=
  fun w s =>
    let '(r, s') := body w s in
    match cleanup w s' with
    | (inr _, s'') => (r, s'')
    | (inl e, s'') => (inl e, s'')
    end.

Definition ask {A} (f : World -> A) : M A := fun w s => (inr (f w), s).

Declare Scope py_scope.
Delimit Scope py_scope with py.
Notation "x <- c ;; k" := (bind c (fun x => k))
  (at level 100, c at next level, right associativity) : py_scope.
Notation "c ;; k" := (bind c (fun _ => k))
  (at level 100, right associativity) : py_scope.
Open Scope py_scope.

Definition emit (l : line) : M unit :=
  fun _ s => (inr tt, add_line l s).

Definition print (text : string) : M unit := emit (Plain text).
Definition print_header (text : string) : M unit := emit (Header text).
Definition print_success (text : string) : M unit := emit (Success text).
Definition print_error (text : string) : M unit := emit (Error text).
Definition print_warning (text : string) : M unit := emit (Warning text).
Definition print_info (text : string) : M unit := emit (Info text).

(** [subprocess.run(argv, ..., timeout=t)]: the invocation is logged, and
    the world decides how it ends. *)
Definition subprocess (argv : list string) (t : Z) : M CompletedProcess :=
  fun w s => (subprocess_run w (calls s) argv t, add_call (argv, t) s).

(** [json.loads(text)] *)
Definition loads (text : string) : M json :=
  fun w s =>
    (match json_loads w text with Some v => inr v | None => inl JSONDecodeError end, s).

(** [str(v)] as an f-string interpolates a parsed value. *)
Definition fmt (v : json) : M string :=
  fun w s =>
    (inr (match v with
          | JStr x => x
          | JInt n => PyStr.of_Z n
          | JBool true => "True"
          | JBool false => "False"
          | JNull => "None"
          | _ => py_repr w v
          end), s).

(** What [open(path, "w")] raises, if anything: the empty path names no
    file; for another path the world decides. *)
Definition open_failure (w : World) (path : string) : option exn :=
  match path with
  | EmptyString => Some FileNotFoundError
  | _ => open_error w path
  end.

(** [with open(path, "w") as f: f.write(contents)] *)
Definition write_file (path contents : string) : M unit :=
  fun w s =>
    match open_failure w path with
    | Some e => (inl e, s)
    | None => (inr tt, set_files (<[path := contents]> (files s)) s)
    end.

(** What is written to the file that [tempfile.NamedTemporaryFile] has
    created under the name [path]. *)
Definition write_temporary (path contents : string) : M unit :=
  fun _ s => (inr tt, set_files (<[path := contents]> (files s)) s).

Definition unlink (path : string) : M unit :=
  fun _ s => (inr tt, set_files (delete path (files s)) s).

(** [for x in xs: body x] *)
Fixpoint for_each {A} (xs : list A) (body : A -> M unit) : M unit :=
  match xs with
  | [] => ret tt
  | x :: rest => body x ;; for_each rest body
  end.

(** A loop that updates local variables [acc]. *)
Fixpoint for_fold {A B} (xs : list A) (acc : B) (body : B -> A -> M B) : M B :=
  match xs with
  | [] => ret acc
  | x :: rest => acc' <- body acc x ;; for_fold rest acc' body
  end.

Definition nl : string := String (ascii_of_nat 10) EmptyString.

(** ** [aws_check.py] *)
Module AwsCheck.

Record CommandResult : Type := {
  success : bool;
  stdout : string;
  stderr : string;
  returncode : Z;
}.

Definition DEFAULT_TIMEOUT : Z := 30.

Definition run_aws_command (args : list string) (timeout : Z) : M CommandResult :=
  try_except
    (result <- subprocess ("aws" :: args) timeout ;;
     ret {| success := cp_returncode result =? 0;
            stdout := cp_stdout result;
            stderr := cp_stderr result;
            returncode := cp_returncode result |})
    (fun e =>
       match e with
       | TimeoutExpired =>
           Some (ret {| success := false; stdout := "";
                        stderr := "Command timed out"; returncode := -1 |})
       | FileNotFoundError =>
           Some (ret {| success := false; stdout := "";
                        stderr := "AWS CLI not found"; returncode := -1 |})
       | _ => None
       end).

(** The result [run_aws_command] makes of the way the subprocess ended;
    an exception other than the two it handles travels on. *)
Definition classify (o : exn + CompletedProcess) : exn + CommandResult :=
  match o with
  | inr p =>
      inr {| success := cp_returncode p =? 0;
             stdout := cp_stdout p;
             stderr := cp_stderr p;
             returncode := cp_returncode p |}
  | inl TimeoutExpired =>
      inr {| success := false; stdout := "";
             stderr := "Command timed out"; returncode := -1 |}
  | inl FileNotFoundError =>
      inr {| success := false; stdout := "";
             stderr := "AWS CLI not found"; returncode := -1 |}
  | inl e => inl e
  end.

Definition check_cli_installed : M bool :=
  print_header "AWS CLI Installation" ;;
  aws_path <- ask which_aws ;;
  match aws_path with
  | None | Some EmptyString =>
      print_error "AWS CLI not found in PATH" ;;
      print (nl +:+ "Install with:") ;;
      print "  macOS:  brew install awscli" ;;
      print "  Linux:  curl 'https://awscli.amazonaws.com/awscli-exe-linux-x86_64.zip' -o 'awscliv2.zip'" ;;
      ret false
  | Some path =>
      result <- run_aws_command ["--version"] DEFAULT_TIMEOUT ;;
      if success result then
        let version := PyStr.strip (stdout result) in
        print_success ("AWS CLI installed: " +:+ version) ;;
        print_info ("Path: " +:+ path) ;;
        ret true
      else
        print_error ("Failed to get AWS CLI version: " +:+ stderr result) ;;
        ret false
  end.

Definition check_identity : M bool :=
  print_header "AWS Identity" ;;
  result <- run_aws_command ["sts"; "get-caller-identity"; "--output"; "json"] DEFAULT_TIMEOUT ;;
  if negb (success result) then
    print_error "Failed to get caller identity" ;;
    print (stderr result) ;;
    print (nl +:+ "Check your credentials:") ;;
    print "  aws configure" ;;
    print "  aws configure --profile <profile-name>" ;;
    ret false
  else
    try_except
      (identity <- loads (stdout result) ;;
       print_success "Authenticated successfully" ;;
       account <- lift (get identity "Account" (JStr "N/A")) ;;
       account <- fmt account ;;
       print_info ("Account:  " +:+ account) ;;
       arn <- lift (get identity "Arn" (JStr "N/A")) ;;
       arn <- fmt arn ;;
       print_info ("ARN:      " +:+ arn) ;;
       user_id <- lift (get identity "UserId" (JStr "N/A")) ;;
       user_id <- fmt user_id ;;
       print_info ("User ID:  " +:+ user_id) ;;
       profile <- ask (fun w => environ w "AWS_PROFILE") ;;
       match profile with
       | None | Some EmptyString => ret tt
       | Some p => print_info ("Profile:  " +:+ p)
       end ;;
       region_result <- run_aws_command ["configure"; "get"; "region"] DEFAULT_TIMEOUT ;;
       let region :=
         if success region_result then PyStr.strip (stdout region_result) else "not set" in
       print_info ("Region:   " +:+ region) ;;
       ret true)
      (fun e =>
         match e with
         | JSONDecodeError =>
             Some (print_error "Invalid JSON response from AWS CLI" ;; ret false)
         | _ => None
         end).

Definition required_tests : list (string * list string) :=
  [ ("ecs:ListClusters", ["ecs"; "list-clusters"; "--max-results"; "1"]);
    ("ec2:DescribeInstances", ["ec2"; "describe-instances"; "--max-results"; "1"]);
    ("ec2:DescribeRegions", ["ec2"; "describe-regions"; "--max-results"; "1"]);
    ("lambda:ListFunctions", ["lambda"; "list-functions"; "--max-items"; "1"]);
    ("cloudwatch:DescribeAlarms", ["cloudwatch"; "describe-alarms"; "--max-records"; "1"]);
    ("cloudwatch:ListMetrics", ["cloudwatch"; "list-metrics"; "--namespace"; "AWS/EC2"]);
    ("rds:DescribeDBInstances", ["rds"; "describe-db-instances"; "--max-records"; "1"]);
    ("elbv2:DescribeLoadBalancers", ["elbv2"; "describe-load-balancers"; "--page-size"; "1"]);
    ("s3:ListBuckets", ["s3api"; "list-buckets"]);
    ("sts:GetCallerIdentity", ["sts"; "get-caller-identity"]) ].

Definition optional_tests : list (string * list string) :=
  [ ("ce:GetCostAndUsage",
     ["ce"; "get-cost-and-usage";
      "--time-period"; "Start=2024-01-01,End=2024-01-02";
      "--granularity"; "DAILY";
      "--metrics"; "BlendedCost"]);
    ("securityhub:GetFindings", ["securityhub"; "get-findings"; "--max-results"; "1"]);
    ("guardduty:ListDetectors", ["guardduty"; "list-detectors"; "--max-results"; "1"]);
    ("elasticbeanstalk:DescribeEnvironments",
     ["elasticbeanstalk"; "describe-environments"; "--max-records"; "1"]) ].

(** Body of the loop over [required_tests]; the local variables are
    [(passed, failed)]. *)
Definition required_step (counts : Z * Z) (test : string * list string) : M (Z * Z) :=
  let '(passed, failed) := counts in
  let '(permission, cmd) := test in
  result <- run_aws_command cmd DEFAULT_TIMEOUT ;;
  if success result then
    print_success permission ;; ret (passed + 1, failed)
  else
    print_error permission ;; ret (passed, failed + 1).

(** Body of the loop over [optional_tests]. *)
Definition optional_step (test : string * list string) : M unit :=
  let '(permission, cmd) := test in
  result <- run_aws_command cmd DEFAULT_TIMEOUT ;;
  if success result then print_success permission
  else print_warning (permission +:+ " (not available or not enabled)").

Definition check_permissions : M bool :=
  print_header "Dash Monitoring Permissions" ;;
  counts <- for_fold required_tests (0, 0) required_step ;;
  let '(passed, failed) := counts in
  print "" ;;
  print_info "Optional permissions (may require service activation):" ;;
  for_each optional_tests optional_step ;;
  print "" ;;
  print ("Required permissions: " +:+ PyStr.of_Z passed +:+ " passed, "
         +:+ PyStr.of_Z failed +:+ " failed") ;;
  ret (failed =? 0).

(** [[x for xs in v for x in xs]] over the items of [v]. *)
Fixpoint flatten (vs : list json) : exn + list json :=
  match vs with
  | [] => inr []
  | v :: rest =>
      match iterate v with
      | inl e => inl e
      | inr xs =>
          match flatten rest with
          | inl e => inl e
          | inr ys => inr (xs ++ ys)%list
          end
      end
  end.

(** [except json.JSONDecodeError: print_error(message)] *)
Definition on_decode_error (message : string) (e : exn) : option (M unit) :=
  match e with
  | JSONDecodeError => Some (print_error message)
  | _ => None
  end.

(** A row [a, b, c = row] printed as [f"{a} ({b}) - {c}"]. *)
Definition print_row3 (row : json) : M unit :=
  fields <- lift (unpack 3 row) ;;
  match fields with
  | [a; b; c] =>
      a <- fmt a ;; b <- fmt b ;; c <- fmt c ;;
      print_info (a +:+ " (" +:+ b +:+ ") - " +:+ c)
  | _ => raise ValueError
  end.

Definition discover_services : M unit :=
  print_header "Service Discovery" ;;

  print "ECS Clusters:" ;;
  result <- run_aws_command
    ["ecs"; "list-clusters"; "--query"; "clusterArns[*]"; "--output"; "json"]
    DEFAULT_TIMEOUT ;;
  (if success result then
     try_except
       (clusters <- loads (stdout result) ;;
        if truthy clusters then
          cluster_arns <- lift (iterate clusters) ;;
          for_each cluster_arns (fun cluster_arn =>
            match cluster_arn with
            | JStr arn =>
                let cluster_name := PyStr.last_field (PyStr.split "/" arn) in
                print_info cluster_name ;;
                svc_result <- run_aws_command
                  ["ecs"; "list-services";
                   "--cluster"; arn;
                   "--query"; "serviceArns[*]";
                   "--output"; "json"]
                  DEFAULT_TIMEOUT ;;
                if success svc_result then
                  services <- loads (stdout svc_result) ;;
                  service_arns <- lift (iterate services) ;;
                  for_each service_arns (fun service_arn =>
                    service_name <- lift (split_last service_arn) ;;
                    print ("    - " +:+ service_name))
                else ret tt
            | _ => raise AttributeError
            end)
        else print_warning "No ECS clusters found")
       (on_decode_error "Failed to parse ECS clusters response")
   else print_error "Failed to list ECS clusters") ;;

  print "" ;;
  print "EC2 Instances (running):" ;;
  result <- run_aws_command
    ["ec2"; "describe-instances";
     "--filters"; "Name=instance-state-name,Values=running";
     "--query"; "Reservations[*].Instances[*].[InstanceId,Tags[?Key==`Name`].Value|[0],InstanceType]";
     "--output"; "json"]
    DEFAULT_TIMEOUT ;;
  (if success result then
     try_except
       (reservations <- loads (stdout result) ;;
        reservations <- lift (iterate reservations) ;;
        instances <- lift (flatten reservations) ;;
        match instances with
        | _ :: _ =>
            for_each instances (fun inst =>
              fields <- lift (unpack 3 inst) ;;
              match fields with
              | [instance_id; name; instance_type] =>
                  let name := if truthy name then name else JStr "unnamed" in
                  instance_id <- fmt instance_id ;;
                  name <- fmt name ;;
                  instance_type <- fmt instance_type ;;
                  print_info (instance_id +:+ " - " +:+ name +:+ " (" +:+ instance_type +:+ ")")
              | _ => raise ValueError
              end)
        | [] => print_warning "No running EC2 instances found"
        end)
       (on_decode_error "Failed to parse EC2 instances response")
   else print_error "Failed to describe EC2 instances") ;;

  print "" ;;
  print "Lambda Functions:" ;;
  result <- run_aws_command
    ["lambda"; "list-functions";
     "--query"; "Functions[*].[FunctionName,Runtime]";
     "--output"; "json"]
    DEFAULT_TIMEOUT ;;
  (if success result then
     try_except
       (functions <- loads (stdout result) ;;
        if truthy functions then
          first_ten <- lift (slice_to 10 functions) ;;
          first_ten <- lift (iterate first_ten) ;;
          for_each first_ten (fun func =>
            fields <- lift (unpack 2 func) ;;
            match fields with
            | [name; runtime] =>
                name <- fmt name ;;
                runtime <- fmt runtime ;;
                print_info (name +:+ " (" +:+ runtime +:+ ")")
            | _ => raise ValueError
            end) ;;
          n <- lift (len functions) ;;
          if 10 <? n then print ("    ... and " +:+ PyStr.of_Z (n - 10) +:+ " more")
          else ret tt
        else print_warning "No Lambda functions found")
       (on_decode_error "Failed to parse Lambda functions response")
   else print_error "Failed to list Lambda functions") ;;

  print "" ;;
  print "Load Balancers:" ;;
  result <- run_aws_command
    ["elbv2"; "describe-load-balancers";
     "--query"; "LoadBalancers[*].[LoadBalancerName,Type,State.Code]";
     "--output"; "json"]
    DEFAULT_TIMEOUT ;;
  (if success result then
     try_except
       (lbs <- loads (stdout result) ;;
        if truthy lbs then
          rows <- lift (iterate lbs) ;;
          for_each rows print_row3
        else print_warning "No load balancers found")
       (on_decode_error "Failed to parse load balancers response")
   else print_error "Failed to describe load balancers") ;;

  print "" ;;
  print "RDS Instances:" ;;
  result <- run_aws_command
    ["rds"; "describe-db-instances";
     "--query"; "DBInstances[*].[DBInstanceIdentifier,Engine,DBInstanceStatus]";
     "--output"; "json"]
    DEFAULT_TIMEOUT ;;
  (if success result then
     try_except
       (dbs <- loads (stdout result) ;;
        if truthy dbs then
          rows <- lift (iterate dbs) ;;
          for_each rows print_row3
        else print_warning "No RDS instances found")
       (on_decode_error "Failed to parse RDS instances response")
   else print_error "Failed to describe RDS instances").

(** The profile a line of [~/.aws/config] contributes, if any. *)
Definition config_profile (line : string) : option string :=
  let line := PyStr.strip line in
  if PyStr.startswith line "[" then
    Some (PyStr.replace (PyStr.replace (PyStr.replace line "[profile " "") "[" "") "]" "")
  else None.

(** The profile a line of [~/.aws/credentials] contributes, if any. *)
Definition credentials_profile (line : string) : option string :=
  let line := PyStr.strip line in
  if PyStr.startswith line "[" then
    Some (PyStr.replace (PyStr.replace line "[" "") "]" "")
  else None.

Definition print_profile (profile : option string) : M unit :=
  match profile with
  | Some p => print ("  - " +:+ p)
  | None => ret tt
  end.

(** [if value:] on an optional string. *)
Definition nonempty (v : option string) : bool :=
  match v with
  | None | Some EmptyString => false
  | Some _ => true
  end.

Definition show_config : M unit :=
  print_header "AWS Configuration" ;;
  print "Configuration files:" ;;
  config <- ask aws_config ;;
  match config with
  | Some lines =>
      print_success "~/.aws/config exists" ;;
      print "  Profiles:" ;;
      for_each lines (fun line => print_profile (config_profile line))
  | None => print_warning "~/.aws/config not found"
  end ;;
  print "" ;;
  credentials <- ask aws_credentials ;;
  match credentials with
  | Some lines =>
      print_success "~/.aws/credentials exists" ;;
      print "  Profiles:" ;;
      for_each lines (fun line => print_profile (credentials_profile line))
  | None => print_warning "~/.aws/credentials not found"
  end ;;
  print "" ;;
  print "Environment variables:" ;;
  aws_profile <- ask (fun w => environ w "AWS_PROFILE") ;;
  aws_default_region <- ask (fun w => environ w "AWS_DEFAULT_REGION") ;;
  aws_access_key_id <- ask (fun w => environ w "AWS_ACCESS_KEY_ID") ;;
  aws_secret_access_key <- ask (fun w => environ w "AWS_SECRET_ACCESS_KEY") ;;
  let env_vars :=
    [ ("AWS_PROFILE", aws_profile);
      ("AWS_DEFAULT_REGION", aws_default_region);
      ("AWS_ACCESS_KEY_ID", if nonempty aws_access_key_id then Some "***" else None);
      ("AWS_SECRET_ACCESS_KEY", if nonempty aws_secret_access_key then Some "***" else None) ] in
  for_each env_vars (fun '(var, value) =>
    match value with
    | None | Some EmptyString => print_warning (var +:+ " not set")
    | Some v => print_info (var +:+ "=" +:+ v)
    end).

(** The parsed command line: [args.command]. *)
Inductive command : Type := All | Identity | Permissions | Services | Config.

Definition main (cmd : command) : M Z :=
  match cmd with
  | All =>
      ok <- check_cli_installed ;;
      if negb ok then ret 1 else
      ok <- check_identity ;;
      if negb ok then ret 1 else
      show_config ;;
      check_permissions ;;
      discover_services ;;
      ret 0
  | Identity =>
      ok <- check_cli_installed ;;
      if negb ok then ret 1 else
      ok <- check_identity ;;
      if negb ok then ret 1 else
      ret 0
  | Permissions =>
      ok <- check_cli_installed ;;
      if negb ok then ret 1 else
      ok <- check_identity ;;
      if negb ok then ret 1 else
      ok <- check_permissions ;;
      if negb ok then ret 1 else
      ret 0
  | Services =>
      ok <- check_cli_installed ;;
      if negb ok then ret 1 else
      ok <- check_identity ;;
      if negb ok then ret 1 else
      discover_services ;;
      ret 0
  | Config =>
      ok <- check_cli_installed ;;
      if negb ok then ret 1 else
      show_config ;;
      ret 0
  end.

End AwsCheck.

(** ** [aws_metrics.py] *)
Module AwsMetrics.

Definition RED : string := String (ascii_of_nat 27) "[0;31m".
Definition NC : string := String (ascii_of_nat 27) "[0m".

Definition DEFAULT_PERIOD : Z := 300.
Definition DEFAULT_HOURS : Z := 1.
Definition DEFAULT_TIMEOUT : Z := 60.

Record CommandResult : Type := {
  success : bool;
  stdout : string;
  stderr : string;
  returncode : Z;
}.

Definition run_aws_command (args : list string) (timeout : Z) : M CommandResult :=
  try_except
    (result <- subprocess ("aws" :: args) timeout ;;
     ret {| success := cp_returncode result =? 0;
            stdout := cp_stdout result;
            stderr := cp_stderr result;
            returncode := cp_returncode result |})
    (fun e =>
       match e with
       | TimeoutExpired =>
           Some (ret {| success := false; stdout := "";
                        stderr := "Command timed out"; returncode := -1 |})
       | FileNotFoundError =>
           Some (ret {| success := false; stdout := "";
                        stderr := "AWS CLI not found"; returncode := -1 |})
       | _ => None
       end).

(** The result [run_aws_command] makes of the way the subprocess ended;
    an exception other than the two it handles travels on. *)
Definition classify (o : exn + CompletedProcess) : exn + CommandResult :=
  match o with
  | inr p =>
      inr {| success := cp_returncode p =? 0;
             stdout := cp_stdout p;
             stderr := cp_stderr p;
             returncode := cp_returncode p |}
  | inl TimeoutExpired =>
      inr {| success := false; stdout := "";
             stderr := "Command timed out"; returncode := -1 |}
  | inl FileNotFoundError =>
      inr {| success := false; stdout := "";
             stderr := "AWS CLI not found"; returncode := -1 |}
  | inl e => inl e
  end.

Definition get_time_range (hours : Z) : M (string * string) :=
  end_time <- ask utcnow ;;
  delta <- lift (PyDatetime.timedelta_hours hours) ;;
  start_time <- lift (PyDatetime.sub end_time delta) ;;
  ret (PyDatetime.strftime start_time, PyDatetime.strftime end_time).

(** [if s:] on an optional string argument. *)
Definition given (s : option string) : bool :=
  match s with
  | None | Some EmptyString => false
  | Some _ => true
  end.

Definition namespaces : list (string * string) :=
  [ ("AWS/EC2", "EC2 instances");
    ("AWS/ECS", "ECS services");
    ("AWS/Lambda", "Lambda functions");
    ("AWS/RDS", "RDS databases");
    ("AWS/ELB", "Classic Load Balancers");
    ("AWS/ApplicationELB", "Application Load Balancers");
    ("AWS/NetworkELB", "Network Load Balancers");
    ("AWS/S3", "S3 buckets");
    ("AWS/SQS", "SQS queues");
    ("AWS/SNS", "SNS topics");
    ("AWS/DynamoDB", "DynamoDB tables") ].

Definition list_metrics (namespace : option string) : M Z :=
  print_header "CloudWatch Metrics" ;;
  match namespace with
  | None | Some EmptyString =>
      print "Common namespaces:" ;;
      for_each namespaces (fun '(ns, desc) =>
        print ("  " +:+ PyStr.ljust 25 ns +:+ " - " +:+ desc)) ;;
      print "" ;;
      print "Usage: aws_metrics.py list <namespace>" ;;
      ret 0
  | Some namespace =>
      print_info ("Listing metrics in namespace: " +:+ namespace) ;;
      print "" ;;
      result <- run_aws_command
        ["cloudwatch"; "list-metrics";
         "--namespace"; namespace;
         "--query"; "Metrics[*].[MetricName,Dimensions[0].Name,Dimensions[0].Value]";
         "--output"; "table"]
        DEFAULT_TIMEOUT ;;
      if success result then
        print (stdout result) ;;
        ret 0
      else
        print_error ("Failed to list metrics: " +:+ stderr result) ;;
        ret 1
  end.

Definition get_metric (metric_name namespace : string)
    (dimension_name dimension_value : option string) (hours period : Z) : M Z :=
  print_header ("CloudWatch Metric: " +:+ metric_name) ;;
  range <- get_time_range hours ;;
  let '(start_time, end_time) := range in
  print_info ("Namespace: " +:+ namespace) ;;
  print_info ("Period: " +:+ PyStr.of_Z period +:+ "s") ;;
  print_info ("Time range: " +:+ start_time +:+ " to " +:+ end_time) ;;
  let cmd :=
    ["cloudwatch"; "get-metric-statistics";
     "--namespace"; namespace;
     "--metric-name"; metric_name;
     "--start-time"; start_time;
     "--end-time"; end_time;
     "--period"; PyStr.of_Z period;
     "--statistics"; "Average"; "Minimum"; "Maximum";
     "--query"; "sort_by(Datapoints, &Timestamp)[*].[Timestamp,Average,Minimum,Maximum]";
     "--output"; "table"] in
  cmd <-
    match dimension_name, dimension_value with
    | Some (String _ _ as name), Some (String _ _ as value) =>
        print_info ("Dimension: " +:+ name +:+ "=" +:+ value) ;;
        ret (cmd ++ ["--dimensions"; "Name=" +:+ name +:+ ",Value=" +:+ value])%list
    | _, _ => ret cmd
    end ;;
  print "" ;;
  result <- run_aws_command cmd DEFAULT_TIMEOUT ;;
  if success result then
    print (stdout result) ;;
    ret 0
  else
    print_error ("Failed to get metric: " +:+ stderr result) ;;
    ret 1.

Definition list_alarms (state : option string) : M Z :=
  print_header "CloudWatch Alarms" ;;
  (if given state then print_info ("Filtering by state: " +:+ default "" state)
   else ret tt) ;;
  let cmd :=
    ["cloudwatch"; "describe-alarms";
     "--query"; "MetricAlarms[*].[AlarmName,StateValue,MetricName,Namespace]";
     "--output"; "table"] in
  let cmd := if given state then (cmd ++ ["--state-value"; default "" state])%list else cmd in
  print "" ;;
  result <- run_aws_command cmd DEFAULT_TIMEOUT ;;
  if success result then
    print (stdout result) ;;
    print "" ;;
    counts <- for_fold ["ALARM"; "OK"; "INSUFFICIENT_DATA"] (∅ : gmap string string)
      (fun counts s =>
         count_result <- run_aws_command
           ["cloudwatch"; "describe-alarms";
            "--state-value"; s;
            "--query"; "length(MetricAlarms)";
            "--output"; "text"]
           DEFAULT_TIMEOUT ;;
         ret (<[s := if success count_result then PyStr.strip (stdout count_result) else "?"]>
                counts)) ;;
    print "Summary:" ;;
    let alarm_count := default "0" (counts !! "ALARM") in
    (if negb (String.eqb alarm_count "0")
     then print ("  " +:+ RED +:+ "ALARM: " +:+ alarm_count +:+ NC)
     else print "  ALARM: 0") ;;
    print ("  OK: " +:+ default "?" (counts !! "OK")) ;;
    print ("  INSUFFICIENT_DATA: " +:+ default "?" (counts !! "INSUFFICIENT_DATA")) ;;
    ret 0
  else
    print_error ("Failed to list alarms: " +:+ stderr result) ;;
    ret 1.

Definition get_ecs_metrics (cluster : string) (service : option string) (hours : Z) : M Z :=
  print_header ("ECS Metrics: " +:+ cluster) ;;
  range <- get_time_range hours ;;
  let '(start_time, end_time) := range in
  match service with
  | None | Some EmptyString =>
      print "Services in cluster:" ;;
      result <- run_aws_command
        ["ecs"; "list-services";
         "--cluster"; cluster;
         "--query"; "serviceArns[*]";
         "--output"; "json"]
        DEFAULT_TIMEOUT ;;
      (if success result then
         try_except
           (services <- loads (stdout result) ;;
            svc_arns <- lift (iterate services) ;;
            for_each svc_arns (fun svc_arn =>
              svc_name <- lift (split_last svc_arn) ;;
              print ("  - " +:+ svc_name)))
           (fun e =>
              match e with
              | JSONDecodeError => Some (print_error "Failed to parse services response")
              | _ => None
              end)
       else print_error ("Failed to list services: " +:+ stderr result)) ;;
      print "" ;;
      print ("Usage: aws_metrics.py ecs " +:+ cluster +:+ " <service-name>") ;;
      ret 0
  | Some service =>
      print_info ("Service: " +:+ service) ;;
      print "" ;;
      for_each [("CPUUtilization", "CPU Utilization"); ("MemoryUtilization", "Memory Utilization")]
        (fun '(metric, label) =>
           print (label +:+ ":") ;;
           result <- run_aws_command
             ["cloudwatch"; "get-metric-statistics";
              "--namespace"; "AWS/ECS";
              "--metric-name"; metric;
              "--dimensions";
              "Name=ClusterName,Value=" +:+ cluster;
              "Name=ServiceName,Value=" +:+ service;
              "--start-time"; start_time;
              "--end-time"; end_time;
              "--period"; "300";
              "--statistics"; "Average";
              "--query"; "sort_by(Datapoints, &Timestamp)[-5:].[Timestamp,Average]";
              "--output"; "table"]
             DEFAULT_TIMEOUT ;;
           (if success result then print (stdout result)
            else print_warning ("No data for " +:+ metric)) ;;
           print "") ;;
      ret 0
  end.

Definition get_ec2_metrics (instance_id : string) (hours : Z) : M Z :=
  print_header ("EC2 Metrics: " +:+ instance_id) ;;
  range <- get_time_range hours ;;
  let '(start_time, end_time) := range in
  let metrics :=
    [ ("CPUUtilization", "CPU Utilization", "Average");
      ("NetworkIn", "Network In (bytes)", "Sum");
      ("NetworkOut", "Network Out (bytes)", "Sum") ] in
  for_each metrics (fun '(metric, label, stat) =>
    print (label +:+ ":") ;;
    result <- run_aws_command
      ["cloudwatch"; "get-metric-statistics";
       "--namespace"; "AWS/EC2";
       "--metric-name"; metric;
       "--dimensions"; "Name=InstanceId,Value=" +:+ instance_id;
       "--start-time"; start_time;
       "--end-time"; end_time;
       "--period"; "300";
       "--statistics"; stat;
       "--query"; "sort_by(Datapoints, &Timestamp)[-5:].[Timestamp," +:+ stat +:+ "]";
       "--output"; "table"]
      DEFAULT_TIMEOUT ;;
    (if success result then print (stdout result)
     else print_warning ("No data for " +:+ metric)) ;;
    print "") ;;
  ret 0.

Definition get_rds_metrics (db_identifier : string) (hours : Z) : M Z :=
  print_header ("RDS Metrics: " +:+ db_identifier) ;;
  range <- get_time_range hours ;;
  let '(start_time, end_time) := range in
  let metrics :=
    [ ("CPUUtilization", "CPU Utilization");
      ("DatabaseConnections", "Database Connections");
      ("FreeStorageSpace", "Free Storage Space (bytes)") ] in
  for_each metrics (fun '(metric, label) =>
    print (label +:+ ":") ;;
    result <- run_aws_command
      ["cloudwatch"; "get-metric-statistics";
       "--namespace"; "AWS/RDS";
       "--metric-name"; metric;
       "--dimensions"; "Name=DBInstanceIdentifier,Value=" +:+ db_identifier;
       "--start-time"; start_time;
       "--end-time"; end_time;
       "--period"; "300";
       "--statistics"; "Average";
       "--query"; "sort_by(Datapoints, &Timestamp)[-5:].[Timestamp,Average]";
       "--output"; "table"]
      DEFAULT_TIMEOUT ;;
    (if success result then print (stdout result)
     else print_warning ("No data for " +:+ metric)) ;;
    print "") ;;
  ret 0.

Definition query (id namespace metric_name stat : string) : json :=
  JObj [ ("Id", JStr id);
         ("MetricStat",
          JObj [ ("Metric", JObj [("Namespace", JStr namespace); ("MetricName", JStr metric_name)]);
                 ("Period", JInt 3600);
                 ("Stat", JStr stat) ]);
         ("ReturnData", JBool true) ].

Definition queries : json :=
  JArr [ query "ec2_cpu" "AWS/EC2" "CPUUtilization" "Average";
         query "ecs_cpu" "AWS/ECS" "CPUUtilization" "Average";
         query "rds_cpu" "AWS/RDS" "CPUUtilization" "Average";
         query "lambda_invocations" "AWS/Lambda" "Invocations" "Sum" ].

(** [Path(path).stat().st_size] *)
Definition stat_size (path : string) : M Z :=
  fun _ s =>
    (match files s !! path with
     | Some contents => inr (PyStr.utf8_size contents)
     | None => inl FileNotFoundError
     end, s).

Definition export_metrics (output_file : string) (hours : Z) : M Z :=
  print_header "Exporting Metrics" ;;
  range <- get_time_range hours ;;
  let '(start_time, end_time) := range in
  print_info ("Time range: " +:+ start_time +:+ " to " +:+ end_time) ;;
  print_info ("Output file: " +:+ output_file) ;;
  queries_file <- ask tempfile_name ;;
  dumped <- ask (fun w => json_dumps w queries) ;;
  write_temporary queries_file dumped ;;
  try_finally
    (result <- run_aws_command
       ["cloudwatch"; "get-metric-data";
        "--metric-data-queries"; "file://" +:+ queries_file;
        "--start-time"; start_time;
        "--end-time"; end_time;
        "--output"; "json"]
       120 ;;
     if success result then
       write_file output_file (stdout result) ;;
       print_success ("Metrics exported to " +:+ output_file) ;;
       file_size <- stat_size output_file ;;
       print_info ("File size: " +:+ PyStr.of_Z file_size +:+ " bytes") ;;
       ret 0
     else
       print_error ("Failed to export metrics: " +:+ stderr result) ;;
       ret 1)
    (unlink queries_file).

Definition list_resources (resource_type : string) : M unit :=
  if String.eqb resource_type "ec2" then
    print "Running instances:" ;;
    result <- run_aws_command
      ["ec2"; "describe-instances";
       "--filters"; "Name=instance-state-name,Values=running";
       "--query"; "Reservations[*].Instances[*].[InstanceId,Tags[?Key==`Name`].Value|[0]]";
       "--output"; "text"]
      DEFAULT_TIMEOUT ;;
    if success result then print (stdout result) else ret tt
  else if String.eqb resource_type "ecs" then
    print "Available clusters:" ;;
    result <- run_aws_command
      ["ecs"; "list-clusters";
       "--query"; "clusterArns[*]";
       "--output"; "text"]
      DEFAULT_TIMEOUT ;;
    if success result then
      for_each (PyStr.split_ws (PyStr.strip (stdout result))) (fun arn =>
        print ("  " +:+ PyStr.last_field (PyStr.split "/" arn)))
    else ret tt
  else if String.eqb resource_type "rds" then
    print "RDS instances:" ;;
    result <- run_aws_command
      ["rds"; "describe-db-instances";
       "--query"; "DBInstances[*].[DBInstanceIdentifier,Engine,DBInstanceStatus]";
       "--output"; "text"]
      DEFAULT_TIMEOUT ;;
    if success result then print (stdout result) else ret tt
  else ret tt.

(** The parsed command line: [args.command] with the arguments of its
    sub-parser. *)
Inductive args : Type :=
  | NoCommand
  | List (namespace : option string)
  | Get (metric namespace : string) (dimension : option string) (hours period : Z)
  | Alarms (state : option string)
  | Ecs (cluster : string) (service : option string) (hours : Z)
  | Ec2 (instance_id : string) (hours : Z)
  | Rds (db_identifier : string) (hours : Z)
  | Export (output_file : string) (hours : Z).

(** [dim_name, dim_value] as [main] derives them from [args.dimension]. *)
Definition parse_dimension (dimension : option string) : option string * option string :=
  match dimension with
  | None | Some EmptyString => (None, None)
  | Some d =>
      match PyStr.split1 "=" d with
      | [name; value] => (Some name, Some value)
      | _ => (None, None)
      end
  end.

Definition main (a : args) : M Z :=
  match a with
  | NoCommand =>
      help <- ask help_text ;;
      print help ;;
      ret 0
  | List namespace => list_metrics namespace
  | Get metric namespace dimension hours period =>
      let '(dim_name, dim_value) := parse_dimension dimension in
      get_metric metric namespace dim_name dim_value hours period
  | Alarms state => list_alarms state
  | Ecs cluster service hours => get_ecs_metrics cluster service hours
  | Ec2 instance_id hours => get_ec2_metrics instance_id hours
  | Rds db_identifier hours => get_rds_metrics db_identifier hours
  | Export output_file hours => export_metrics output_file hours
  end.

End AwsMetrics.

(** ** Vocabulary of the statements *)

(** The world raises, from a subprocess invocation, only the two exceptions
    [run_aws_command] handles. *)
Definition handled (w : World) : Prop :=
  forall h argv t e,
    subprocess_run w h argv t = inl e -> e = TimeoutExpired \/ e = FileNotFoundError.

(** The invocation ended with exit code 0. *)
Definition exit_zero (o : exn + CompletedProcess) : bool :=
  match o with
  | inr p => cp_returncode p =? 0
  | inl _ => false
  end.

(** What the invocation wrote to its standard output ([""] when it did
    not complete). *)
Definition output_of (o : exn + CompletedProcess) : string :=
  match o with
  | inr p => cp_stdout p
  | inl _ => ""
  end.

(** How the invocation [aws args], made in state [s], ends. *)
Definition outcome (w : World) (s : State) (args : list string) (timeout : Z)
    : exn + CompletedProcess :=
  subprocess_run w (calls s) ("aws" :: args) timeout.

(** Running the commands [cmds] one after the other, starting after the
    invocations [h]: for each, whether it exited with code 0. *)
Fixpoint probes (w : World) (h : list call) (timeout : Z) (cmds : list (list string))
    : list bool :=
  match cmds with
  | [] => []
  | cmd :: rest =>
      exit_zero (subprocess_run w h ("aws" :: cmd) timeout)
      :: probes w (h ++ [("aws" :: cmd, timeout)])%list timeout rest
  end.

(** Every character of [s] is whitespace ([s] may be empty). *)
Fixpoint all_space (s : string) : bool :=
  match s with
  | EmptyString => true
  | String c s' => PyStr.isspace c && all_space s'
  end.

(** The lines [show_config] prints for the profiles of a file: one per line
    of the file that contributes a profile, in the order of the file. *)
Fixpoint profile_lines (extract : string -> option string) (file : list string) : list line :=
  match file with
  | [] => []
  | l :: rest =>
      match extract l with
      | Some p => Plain ("  - " +:+ p) :: profile_lines extract rest
      | None => profile_lines extract rest
      end
  end.

(** What [show_config] prints about one of the two files. *)
Definition file_report (name : string) (extract : string -> option string)
    (file : option (list string)) : list line :=
  match file with
  | Some lines =>
      Success (name +:+ " exists") :: Plain "  Profiles:" :: profile_lines extract lines
  | None => [Warning (name +:+ " not found")]
  end.

(** What [show_config] prints about one environment variable. *)
Definition env_line (var : string) (value : option string) : line :=
  match value with
  | None | Some EmptyString => Warning (var +:+ " not set")
  | Some v => Info (var +:+ "=" +:+ v)
  end.

(** The start of the window of [hours] hours that ends now. *)
Definition window_start (w : World) (hours : Z) : Z :=
  utcnow w - hours * 3600 * PyDatetime.US_PER_SECOND.

(** [timedelta(hours=hours)] exists and the start of the window is a
    [datetime]: what [get_time_range] needs to return. *)
Definition representable (w : World) (hours : Z) : bool :=
  (Z.abs (hours / 24) <=? 999999999) && PyDatetime.in_range (window_start w hours).

(** The arguments [get_metric] passes to [aws] when no dimension is
    given. *)
Definition statistics_query (w : World) (metric_name namespace : string) (hours period : Z)
    : list string :=
  ["cloudwatch"; "get-metric-statistics";
   "--namespace"; namespace;
   "--metric-name"; metric_name;
   "--start-time"; PyDatetime.strftime (window_start w hours);
   "--end-time"; PyDatetime.strftime (utcnow w);
   "--period"; PyStr.of_Z period;
   "--statistics"; "Average"; "Minimum"; "Maximum";
   "--query"; "sort_by(Datapoints, &Timestamp)[*].[Timestamp,Average,Minimum,Maximum]";
   "--output"; "table"].




Definition alarms_query (state : option string) : list string :=
  (["cloudwatch"; "describe-alarms";
    "--query"; "MetricAlarms[*].[AlarmName,StateValue,MetricName,Namespace]";
    "--output"; "table"]
   ++ if AwsMetrics.given state then ["--state-value"; default "" state] else [])%list.

(** A [--dimension] value of the form [name=value] with both parts
    non-empty, split at its first ["="]. *)
Definition name_value (d name value : string) : Prop :=
  d = name +:+ "=" +:+ value
  /\ name <> "" /\ value <> "" /\ PyStr.occurs "=" name = false.

(** No [JSONDecodeError] leaves the computation [c]. *)
Definition contained {A} (w : World) (c : M A) : Prop :=
  forall s, fst (c w s) <> inl JSONDecodeError.

(** Whatever a successful invocation prints, [json.loads] rejects it. *)
Definition garbled (w : World) : Prop :=
  forall h argv t p,
    subprocess_run w h argv t = inr p -> cp_returncode p = 0 ->
    json_loads w (cp_stdout p) = None.

(** The arguments of the queries of the check tool. *)
Definition version_query : list string := ["--version"].
Definition identity_query : list string := ["sts"; "get-caller-identity"; "--output"; "json"].
Definition region_query : list string := ["configure"; "get"; "region"].

(** The installation check passes after the invocations [h]: the binary
    is on the path and [aws --version] exits with code 0. *)
Definition installed (w : World) (h : list call) : bool :=
  AwsCheck.nonempty (which_aws w)
  && exit_zero (subprocess_run w h ("aws" :: version_query) 30).

(** How the identity check ends after the invocations [h]. *)
Inductive identity_status : Type :=
  | Authenticated   (* the query exits with code 0 and prints a JSON object *)
  | Rejected        (* the query fails, or its output is not JSON *)
  | Malformed.      (* the output is JSON, but not an object *)

Definition identity_status_of (w : World) (h : list call) : identity_status :=
  let o := subprocess_run w h ("aws" :: identity_query) 30 in
  if exit_zero o then
    match json_loads w (output_of o) with
    | None => Rejected
    | Some (JObj _) => Authenticated
    | Some _ => Malformed
    end
  else Rejected.

(** The invocations made by the installation check, and by a passed
    identity check after it. *)
Definition after_installation (h : list call) : list call :=
  (h ++ [("aws" :: version_query, 30)])%list.

(** The arguments that list the services of a cluster. *)
Definition services_query (cluster : string) : list string :=
  ["ecs"; "list-services"; "--cluster"; cluster; "--query"; "serviceArns[*]"; "--output"; "json"].

(** The five listing queries of [discover_services], in order. *)
Definition discovery_queries : list (list string) :=
  [ ["ecs"; "list-clusters"; "--query"; "clusterArns[*]"; "--output"; "json"];
    ["ec2"; "describe-instances";
     "--filters"; "Name=instance-state-name,Values=running";
     "--query"; "Reservations[*].Instances[*].[InstanceId,Tags[?Key==`Name`].Value|[0],InstanceType]";
     "--output"; "json"];
    ["lambda"; "list-functions";
     "--query"; "Functions[*].[FunctionName,Runtime]";
     "--output"; "json"];
    ["elbv2"; "describe-load-balancers";
     "--query"; "LoadBalancers[*].[LoadBalancerName,Type,State.Code]";
     "--output"; "json"];
    ["rds"; "describe-db-instances";
     "--query"; "DBInstances[*].[DBInstanceIdentifier,Engine,DBInstanceStatus]";
     "--output"; "json"] ].

(** What [discover_services] prints when none of its five listings can be
    used: for each, whether the query exited with code 0 ([true]: its
    output could not be parsed) or failed. *)
Definition discovery_errors (oks : list bool) : list line :=
  match oks with
  | [ecs; ec2; lambda; elb; rds] =>
      [ Header "Service Discovery";
        Plain "ECS Clusters:";
        Error (if ecs then "Failed to parse ECS clusters response"
               else "Failed to list ECS clusters");
        Plain "";
        Plain "EC2 Instances (running):";
        Error (if ec2 then "Failed to parse EC2 instances response"
               else "Failed to describe EC2 instances");
        Plain "";
        Plain "Lambda Functions:";
        Error (if lambda then "Failed to parse Lambda functions response"
               else "Failed to list Lambda functions");
        Plain "";
        Plain "Load Balancers:";
        Error (if elb then "Failed to parse load balancers response"
               else "Failed to describe load balancers");
        Plain "";
        Plain "RDS Instances:";
        Error (if rds then "Failed to parse RDS instances response"
               else "Failed to describe RDS instances") ]
  | _ => []
  end.

(** How many of the results are [v]. *)
Fixpoint tally (v : bool) (results : list bool) : Z :=
  match results with
  | [] => 0
  | b :: rest => (if Bool.eqb b v then 1 else 0) + tally v rest
  end.

(** ** Sample worlds *)
Module Scenarios.

Definition initial : State := {| calls := []; printed := []; files := ∅ |}.

(** A [json.loads] that knows three texts. *)
Definition sample_loads (text : string) : option json :=
  if String.eqb text "{}" then Some (JObj [])
  else if String.eqb text "[]" then Some (JArr [])
  else if String.eqb text "7" then Some (JInt 7)
  else None.

Definition sample_world (which : option string)
    (run : list call -> list string -> Z -> exn + CompletedProcess) : World :=
  {| which_aws := which;
     subprocess_run := run;
     json_loads := sample_loads;
     json_dumps := fun _ => "[]";
     py_repr := fun _ => "?";
     environ := fun _ => None;
     aws_config := Some ["[default]" +:+ nl; "region = eu-west-1" +:+ nl;
                         "[profile dev]" +:+ nl];
     aws_credentials := Some ["[default]" +:+ nl; "aws_access_key_id = AKIA" +:+ nl];
     utcnow := 1793779770123456;
     tempfile_name := "/tmp/tmpq1w2e3.json";
     open_error := fun _ => None;
     help_text := "usage: aws_metrics.py" |}.

Definition completed (code : Z) (out err : string) : exn + CompletedProcess :=
  inr {| cp_returncode := code; cp_stdout := out; cp_stderr := err |}.

(** No [aws] binary on the machine. *)
Definition no_cli : World :=
  sample_world None (fun _ _ _ => inl FileNotFoundError).

(** Every invocation succeeds and prints an empty JSON object. *)
Definition healthy : World :=
  sample_world (Some "/usr/local/bin/aws") (fun _ _ _ => completed 0 "{}" "").

(** Every invocation succeeds but prints text that is not JSON. *)
Definition chatty : World :=
  sample_world (Some "/usr/local/bin/aws") (fun _ _ _ => completed 0 "aws-cli/2.15.0" "").

(** Every invocation runs into the timeout. *)
Definition stalled : World :=
  sample_world (Some "/usr/local/bin/aws") (fun _ _ _ => inl TimeoutExpired).

(** Like [healthy], but the caller may not list ECS clusters nor query
    CloudWatch. *)
Definition denied : World :=
  sample_world (Some "/usr/local/bin/aws")
    (fun _ argv _ =>
       match argv with
       | [_; "ecs"; "list-clusters"; _; _] => completed 254 "" "AccessDenied"
       | _ :: "cloudwatch" :: _ => completed 254 "" "AccessDenied"
       | _ => completed 0 "{}" ""
       end).

(** The binary cannot be executed: an exception [run_aws_command] does
    not handle. *)
Definition broken : World :=
  sample_world (Some "/usr/local/bin/aws") (fun _ _ _ => inl (OtherError "PermissionError")).

End Scenarios.

(** ** Vocabulary of the further properties *)

(** The state [s] after the further invocations [cs] and the further
    printed lines [ls]; the files are as in [s]. *)
Definition extend (cs : list call) (ls : list line) (s : State) : State :=
  {| calls := (calls s ++ cs)%list; printed := (printed s ++ ls)%list; files := files s |}.

(** The text an f-string shows for a parsed value (what [fmt] returns). *)
Definition shown (w : World) (v : json) : string :=
  match v with
  | JStr x => x
  | JInt n => PyStr.of_Z n
  | JBool true => "True"
  | JBool false => "False"
  | JNull => "None"
  | _ => py_repr w v
  end.

(** [identity.get(key, 'N/A')] on the fields of a JSON object. *)
Definition field (key : string) (fields : list (string * json)) : json :=
  match assoc key fields with
  | Some x => x
  | None => JStr "N/A"
  end.

(** The name shown for an ARN: [arn.split("/")[-1]]. *)
Definition arn_name (arn : string) : string := PyStr.last_field (PyStr.split "/" arn).

(** What [check_identity] prints about the optional profile and the
    region, given how the region query ended. *)
Definition profile_line (w : World) : list line :=
  match environ w "AWS_PROFILE" with
  | None | Some EmptyString => []
  | Some p => [Info ("Profile:  " +:+ p)]
  end.

Definition region_text (o : exn + CompletedProcess) : string :=
  if exit_zero o then PyStr.strip (output_of o) else "not set".

(** One count query of [list_alarms], and the count it yields: the stripped
    output, or "?" when the query does not exit with code 0. *)
Definition count_query (state : string) : list string :=
  ["cloudwatch"; "describe-alarms";
   "--state-value"; state;
   "--query"; "length(MetricAlarms)";
   "--output"; "text"].

Definition count_text (o : exn + CompletedProcess) : string :=
  if exit_zero o then PyStr.strip (output_of o) else "?".

(** The line [list_alarms] prints about its filter. *)
Definition filter_line (state : option string) : list line :=
  if AwsMetrics.given state then [Info ("Filtering by state: " +:+ default "" state)] else [].

(** The ALARM line of the summary of [list_alarms]. *)
Definition alarm_line (count : string) : line :=
  if String.eqb count "0" then Plain "  ALARM: 0"
  else Plain ("  " +:+ AwsMetrics.RED +:+ "ALARM: " +:+ count +:+ AwsMetrics.NC).

(** The three lines one metric takes in the reports of [get_ecs_metrics],
    [get_ec2_metrics] and [get_rds_metrics], given how its query ended. *)
Definition metric_section (label metric : string) (o : exn + CompletedProcess) : list line :=
  [Plain (label +:+ ":");
   if exit_zero o then Plain (output_of o) else Warning ("No data for " +:+ metric);
   Plain ""].

(** The statistics queries of the three reports. *)
Definition ec2_query (w : World) (instance_id : string) (hours : Z) (metric stat : string)
    : list string :=
  ["cloudwatch"; "get-metric-statistics";
   "--namespace"; "AWS/EC2";
   "--metric-name"; metric;
   "--dimensions"; "Name=InstanceId,Value=" +:+ instance_id;
   "--start-time"; PyDatetime.strftime (window_start w hours);
   "--end-time"; PyDatetime.strftime (utcnow w);
   "--period"; "300";
   "--statistics"; stat;
   "--query"; "sort_by(Datapoints, &Timestamp)[-5:].[Timestamp," +:+ stat +:+ "]";
   "--output"; "table"].

Definition rds_query (w : World) (db_identifier : string) (hours : Z) (metric : string)
    : list string :=
  ["cloudwatch"; "get-metric-statistics";
   "--namespace"; "AWS/RDS";
   "--metric-name"; metric;
   "--dimensions"; "Name=DBInstanceIdentifier,Value=" +:+ db_identifier;
   "--start-time"; PyDatetime.strftime (window_start w hours);
   "--end-time"; PyDatetime.strftime (utcnow w);
   "--period"; "300";
   "--statistics"; "Average";
   "--query"; "sort_by(Datapoints, &Timestamp)[-5:].[Timestamp,Average]";
   "--output"; "table"].

Definition ecs_query (w : World) (cluster service : string) (hours : Z) (metric : string)
    : list string :=
  ["cloudwatch"; "get-metric-statistics";
   "--namespace"; "AWS/ECS";
   "--metric-name"; metric;
   "--dimensions";
   "Name=ClusterName,Value=" +:+ cluster;
   "Name=ServiceName,Value=" +:+ service;
   "--start-time"; PyDatetime.strftime (window_start w hours);
   "--end-time"; PyDatetime.strftime (utcnow w);
   "--period"; "300";
   "--statistics"; "Average";
   "--query"; "sort_by(Datapoints, &Timestamp)[-5:].[Timestamp,Average]";
   "--output"; "table"].

(** The queries of [list_resources]. *)
Definition cluster_names_query : list string :=
  ["ecs"; "list-clusters"; "--query"; "clusterArns[*]"; "--output"; "text"].

Definition running_instances_query : list string :=
  ["ec2"; "describe-instances";
   "--filters"; "Name=instance-state-name,Values=running";
   "--query"; "Reservations[*].Instances[*].[InstanceId,Tags[?Key==`Name`].Value|[0]]";
   "--output"; "text"].

Definition db_instances_query : list string :=
  ["rds"; "describe-db-instances";
   "--query"; "DBInstances[*].[DBInstanceIdentifier,Engine,DBInstanceStatus]";
   "--output"; "text"].

(** ** Further sample worlds *)
Module MoreScenarios.

(** Like [Scenarios.healthy], but no region is configured:
    [aws configure get region] exits with code 1. *)
Definition unset_region : World :=
  Scenarios.sample_world (Some "/usr/local/bin/aws")
    (fun _ argv _ =>
       match argv with
       | [_; "configure"; "get"; "region"] => Scenarios.completed 1 "" ""
       | _ => Scenarios.completed 0 "{}" ""
       end).

(** Like [Scenarios.healthy], but asking for the region cannot be
    executed: an exception [run_aws_command] does not handle. *)
Definition region_breaks : World :=
  Scenarios.sample_world (Some "/usr/local/bin/aws")
    (fun _ argv _ =>
       match argv with
       | [_; "configure"; "get"; "region"] => inl (OtherError "PermissionError")
       | _ => Scenarios.completed 0 "{}" ""
       end).

(** Every invocation succeeds and prints an empty JSON array. *)
Definition empty_lists : World :=
  Scenarios.sample_world (Some "/usr/local/bin/aws")
    (fun _ _ _ => Scenarios.completed 0 "[]" "").

(** Every invocation succeeds and prints the JSON number 7. *)
Definition sevens : World :=
  Scenarios.sample_world (Some "/usr/local/bin/aws")
    (fun _ _ _ => Scenarios.completed 0 "7" "").



(** Like [Scenarios.healthy], with the two access keys in the
    environment. *)
Definition with_keys (key_id secret : string) : World :=
  {| which_aws := which_aws Scenarios.healthy;
     subprocess_run := subprocess_run Scenarios.healthy;
     json_loads := json_loads Scenarios.healthy;
     json_dumps := json_dumps Scenarios.healthy;
     py_repr := py_repr Scenarios.healthy;
     environ := fun var =>
       if String.eqb var "AWS_ACCESS_KEY_ID" then Some key_id
       else if String.eqb var "AWS_SECRET_ACCESS_KEY" then Some secret
       else None;
     aws_config := aws_config Scenarios.healthy;
     aws_credentials := aws_credentials Scenarios.healthy;
     utcnow := utcnow Scenarios.healthy;
     tempfile_name := tempfile_name Scenarios.healthy;
     open_error := open_error Scenarios.healthy;
     help_text := help_text Scenarios.healthy |}.

End MoreScenarios.

(** The line [check_permissions] prints for a required and for an optional
    probe, and the lines for a list of probes with their results. *)
Definition required_line (ok : bool) (permission : string) : line :=
  if ok then Success permission else Error permission.

Definition optional_line (ok : bool) (permission : string) : line :=
  if ok then Success permission
  else Warning (permission +:+ " (not available or not enabled)").

Fixpoint probe_lines (show : bool -> string -> line)
    (tests : list (string * list string)) (results : list bool) : list line :=
  match tests, results with
  | (permission, _) :: tests', ok :: results' =>
      show ok permission :: probe_lines show tests' results'
  | _, _ => []
  end.

(** The invocations of a list of probes. *)
Definition probe_calls (tests : list (string * list string)) : list call :=
  map (fun t => ("aws" :: snd t, 30)) tests.
(** ** The five listings of [discover_services]

    [discover_services] prints its heading and runs five listings one
    after the other, with an empty line between two of them.  Each listing
    is given a name here, so that it can be studied on its own; lemma
    [discover_services_listings] shows that [discover_services] is this
    sequence. *)
Module Discovery.
Import AwsCheck.

(** The ECS listing: the clusters, and under each its services. *)
Definition ecs_clusters : M unit :=
  print "ECS Clusters:" ;;
  result <- run_aws_command
    ["ecs"; "list-clusters"; "--query"; "clusterArns[*]"; "--output"; "json"]
    DEFAULT_TIMEOUT ;;
  (if success result then
     try_except
       (clusters <- loads (stdout result) ;;
        if truthy clusters then
          cluster_arns <- lift (iterate clusters) ;;
          for_each cluster_arns (fun cluster_arn =>
            match cluster_arn with
            | JStr arn =>
                let cluster_name := PyStr.last_field (PyStr.split "/" arn) in
                print_info cluster_name ;;
                svc_result <- run_aws_command
                  ["ecs"; "list-services";
                   "--cluster"; arn;
                   "--query"; "serviceArns[*]";
                   "--output"; "json"]
                  DEFAULT_TIMEOUT ;;
                if success svc_result then
                  services <- loads (stdout svc_result) ;;
                  service_arns <- lift (iterate services) ;;
                  for_each service_arns (fun service_arn =>
                    service_name <- lift (split_last service_arn) ;;
                    print ("    - " +:+ service_name))
                else ret tt
            | _ => raise AttributeError
            end)
        else print_warning "No ECS clusters found")
       (on_decode_error "Failed to parse ECS clusters response")
   else print_error "Failed to list ECS clusters").

(** The EC2 listing: the running instances of all reservations. *)
Definition ec2_instances : M unit :=
  print "EC2 Instances (running):" ;;
  result <- run_aws_command
    ["ec2"; "describe-instances";
     "--filters"; "Name=instance-state-name,Values=running";
     "--query"; "Reservations[*].Instances[*].[InstanceId,Tags[?Key==`Name`].Value|[0],InstanceType]";
     "--output"; "json"]
    DEFAULT_TIMEOUT ;;
  (if success result then
     try_except
       (reservations <- loads (stdout result) ;;
        reservations <- lift (iterate reservations) ;;
        instances <- lift (flatten reservations) ;;
        match instances with
        | _ :: _ =>
            for_each instances (fun inst =>
              fields <- lift (unpack 3 inst) ;;
              match fields with
              | [instance_id; name; instance_type] =>
                  let name := if truthy name then name else JStr "unnamed" in
                  instance_id <- fmt instance_id ;;
                  name <- fmt name ;;
                  instance_type <- fmt instance_type ;;
                  print_info (instance_id +:+ " - " +:+ name +:+ " (" +:+ instance_type +:+ ")")
              | _ => raise ValueError
              end)
        | [] => print_warning "No running EC2 instances found"
        end)
       (on_decode_error "Failed to parse EC2 instances response")
   else print_error "Failed to describe EC2 instances").

(** The Lambda listing: the first ten functions. *)
Definition lambda_functions : M unit :=
  print "Lambda Functions:" ;;
  result <- run_aws_command
    ["lambda"; "list-functions";
     "--query"; "Functions[*].[FunctionName,Runtime]";
     "--output"; "json"]
    DEFAULT_TIMEOUT ;;
  (if success result then
     try_except
       (functions <- loads (stdout result) ;;
        if truthy functions then
          first_ten <- lift (slice_to 10 functions) ;;
          first_ten <- lift (iterate first_ten) ;;
          for_each first_ten (fun func =>
            fields <- lift (unpack 2 func) ;;
            match fields with
            | [name; runtime] =>
                name <- fmt name ;;
                runtime <- fmt runtime ;;
                print_info (name +:+ " (" +:+ runtime +:+ ")")
            | _ => raise ValueError
            end) ;;
          n <- lift (len functions) ;;
          if 10 <? n then print ("    ... and " +:+ PyStr.of_Z (n - 10) +:+ " more")
          else ret tt
        else print_warning "No Lambda functions found")
       (on_decode_error "Failed to parse Lambda functions response")
   else print_error "Failed to list Lambda functions").

(** The load balancer listing. *)
Definition load_balancers : M unit :=
  print "Load Balancers:" ;;
  result <- run_aws_command
    ["elbv2"; "describe-load-balancers";
     "--query"; "LoadBalancers[*].[LoadBalancerName,Type,State.Code]";
     "--output"; "json"]
    DEFAULT_TIMEOUT ;;
  (if success result then
     try_except
       (lbs <- loads (stdout result) ;;
        if truthy lbs then
          rows <- lift (iterate lbs) ;;
          for_each rows print_row3
        else print_warning "No load balancers found")
       (on_decode_error "Failed to parse load balancers response")
   else print_error "Failed to describe load balancers").

(** The RDS listing. *)
Definition rds_instances : M unit :=
  print "RDS Instances:" ;;
  result <- run_aws_command
    ["rds"; "describe-db-instances";
     "--query"; "DBInstances[*].[DBInstanceIdentifier,Engine,DBInstanceStatus]";
     "--output"; "json"]
    DEFAULT_TIMEOUT ;;
  (if success result then
     try_except
       (dbs <- loads (stdout result) ;;
        if truthy dbs then
          rows <- lift (iterate dbs) ;;
          for_each rows print_row3
        else print_warning "No RDS instances found")
       (on_decode_error "Failed to parse RDS instances response")
   else print_error "Failed to describe RDS instances").

End Discovery.

(** The queries of the five listings. *)
Definition clusters_query : list string :=
  ["ecs"; "list-clusters"; "--query"; "clusterArns[*]"; "--output"; "json"].

Definition instances_query : list string :=
  ["ec2"; "describe-instances";
   "--filters"; "Name=instance-state-name,Values=running";
   "--query"; "Reservations[*].Instances[*].[InstanceId,Tags[?Key==`Name`].Value|[0],InstanceType]";
   "--output"; "json"].

Definition functions_query : list string :=
  ["lambda"; "list-functions";
   "--query"; "Functions[*].[FunctionName,Runtime]";
   "--output"; "json"].

Definition balancers_query : list string :=
  ["elbv2"; "describe-load-balancers";
   "--query"; "LoadBalancers[*].[LoadBalancerName,Type,State.Code]";
   "--output"; "json"].

Definition databases_query : list string :=
  ["rds"; "describe-db-instances";
   "--query"; "DBInstances[*].[DBInstanceIdentifier,Engine,DBInstanceStatus]";
   "--output"; "json"].

(** A JSON row of two and of three columns. *)
Definition pair_row (p : json * json) : json := JArr [fst p; snd p].

Definition triple_row (t : json * json * json) : json :=
  let '(a, b, c) := t in JArr [a; b; c].

(** The lines of the listings: a Lambda function, the functions beyond
    the tenth, a load balancer or database, a running instance. *)
Definition function_line (w : World) (p : json * json) : line :=
  Info (shown w (fst p) +:+ " (" +:+ shown w (snd p) +:+ ")").

Definition more_functions (n : Z) : list line :=
  if 10 <? n then [Plain ("    ... and " +:+ PyStr.of_Z (n - 10) +:+ " more")] else [].

Definition row3_line (w : World) (t : json * json * json) : line :=
  let '(a, b, c) := t in
  Info (shown w a +:+ " (" +:+ shown w b +:+ ") - " +:+ shown w c).

Definition instance_line (w : World) (t : json * json * json) : line :=
  let '(instance_id, name, instance_type) := t in
  Info (shown w instance_id +:+ " - "
        +:+ shown w (if truthy name then name else JStr "unnamed")
        +:+ " (" +:+ shown w instance_type +:+ ")").

(** The rows of a listing, or the warning that there are none. *)
Definition rows_or_warning {A} (rows : list A) (show : A -> line) (warning : string)
    : list line :=
  match rows with
  | [] => [Warning warning]
  | _ => map show rows
  end.

(** The strings of the JSON array that an invocation printed, when it
    exited with code 0; no string otherwise. *)
Definition listed_strings (w : World) (o : exn + CompletedProcess) : list string :=
  if exit_zero o then
    match json_loads w (output_of o) with
    | Some (JArr items) =>
        omap (fun v => match v with JStr x => Some x | _ => None end) items
    | _ => []
    end
  else [].

(** Every service listing that exits with code 0 prints a JSON array of
    strings. *)
Definition services_listed (w : World) : Prop :=
  forall h cluster p,
    subprocess_run w h ("aws" :: services_query cluster) 30 = inr p ->
    cp_returncode p = 0 ->
    exists services, json_loads w (cp_stdout p) = Some (JArr (map JStr services)).

(** What the ECS listing prints for the clusters [arns], the first of
    them queried after the invocations [h]: the name of each cluster and,
    below it, the names of its services. *)
Fixpoint cluster_sections (w : World) (h : list call) (arns : list string) : list line :=
  match arns with
  | [] => []
  | arn :: rest =>
      (Info (arn_name arn)
       :: map (fun service => Plain ("    - " +:+ arn_name service))
            (listed_strings w (subprocess_run w h ("aws" :: services_query arn) 30)))
      ++ cluster_sections w (h ++ [("aws" :: services_query arn, 30)]) rest
  end.

(** Whatever a successful invocation prints is the empty JSON array. *)
Definition hollow (w : World) : Prop :=
  forall h argv t p,
    subprocess_run w h argv t = inr p -> cp_returncode p = 0 ->
    json_loads w (cp_stdout p) = Some (JArr []).

(** What [discover_services] prints when no listing shows a resource: for
    each, whether the query exited with code 0 ([true]: nothing was found)
    or failed. *)
Definition discovery_of_nothing (oks : list bool) : list line :=
  match oks with
  | [ecs; ec2; lambda; elb; rds] =>
      [ Header "Service Discovery";
        Plain "ECS Clusters:";
        (if ecs then Warning "No ECS clusters found"
         else Error "Failed to list ECS clusters");
        Plain "";
        Plain "EC2 Instances (running):";
        (if ec2 then Warning "No running EC2 instances found"
         else Error "Failed to describe EC2 instances");
        Plain "";
        Plain "Lambda Functions:";
        (if lambda then Warning "No Lambda functions found"
         else Error "Failed to list Lambda functions");
        Plain "";
        Plain "Load Balancers:";
        (if elb then Warning "No load balancers found"
         else Error "Failed to describe load balancers");
        Plain "";
        Plain "RDS Instances:";
        (if rds then Warning "No RDS instances found"
         else Error "Failed to describe RDS instances") ]
  | _ => []
  end.

(** None of the five listings of the discovery can be used: whenever
    the query of one exits with code 0, its output is not JSON. *)
Definition unlisted (w : World) : Prop :=
  forall h query p,
    In query discovery_queries ->
    subprocess_run w h ("aws" :: query) 30 = inr p -> cp_returncode p = 0 ->
    json_loads w (cp_stdout p) = None.

(** The service listings of the clusters [arns], queried one after the
    other starting after the invocations [h], can all be used: each one
    that exits with code 0 prints a JSON array of strings. *)
Fixpoint services_usable (w : World) (h : list call) (arns : list string) : Prop :=
  match arns with
  | [] => True
  | arn :: rest =>
      (forall p,
         subprocess_run w h ("aws" :: services_query arn) 30 = inr p ->
         cp_returncode p = 0 ->
         exists services, json_loads w (cp_stdout p) = Some (JArr (map JStr services)))
      /\ services_usable w (h ++ [("aws" :: services_query arn, 30)]) rest
  end.


(** ** A sample account *)
Module Account.

Definition dq : string := String (ascii_of_nat 34) EmptyString.
Definition quoted (s : string) : string := dq +:+ s +:+ dq.

Definition main_cluster : string := "arn:aws:ecs:eu-west-1:123456789012:cluster/main".
Definition batch_cluster : string := "arn:aws:ecs:eu-west-1:123456789012:cluster/batch".
Definition web_service : string := "arn:aws:ecs:eu-west-1:123456789012:service/main/web".
Definition api_service : string := "arn:aws:ecs:eu-west-1:123456789012:service/main/api".
Definition spare_cluster : string := "arn:aws:ecs:eu-west-1:123456789012:cluster/spare".

Definition functions : list (string * string) :=
  [ ("resize", "python3.12"); ("thumbnail", "python3.12"); ("ingest", "nodejs20.x");
    ("notify", "nodejs20.x"); ("billing", "java21"); ("export", "python3.12");
    ("cleanup", "python3.12"); ("audit", "go1.x"); ("login", "nodejs20.x");
    ("signup", "nodejs20.x"); ("report", "python3.12"); ("archive", "java21") ].

(** The texts the sample account prints. *)
Definition clusters_text : string :=
  "[" +:+ quoted main_cluster +:+ ", " +:+ quoted batch_cluster +:+ "]".

Definition three_clusters_text : string :=
  "[" +:+ quoted main_cluster +:+ ", " +:+ quoted batch_cluster +:+ ", "
  +:+ quoted spare_cluster +:+ "]".

Definition services_text : string :=
  "[" +:+ quoted web_service +:+ ", " +:+ quoted api_service +:+ "]".

Definition instances_text : string :=
  "[[[" +:+ quoted "i-0a1b" +:+ ", " +:+ quoted "web-1" +:+ ", " +:+ quoted "t3.micro"
  +:+ "]], [[" +:+ quoted "i-0c2d" +:+ ", null, " +:+ quoted "t3.small" +:+ "]]]".

Fixpoint rows_text (rows : list (string * string)) : string :=
  match rows with
  | [] => ""
  | [(a, b)] => "[" +:+ quoted a +:+ ", " +:+ quoted b +:+ "]"
  | (a, b) :: rest => "[" +:+ quoted a +:+ ", " +:+ quoted b +:+ "], " +:+ rows_text rest
  end.

Definition functions_text : string := "[" +:+ rows_text functions +:+ "]".

Definition balancers_text : string :=
  "[[" +:+ quoted "front" +:+ ", " +:+ quoted "application" +:+ ", " +:+ quoted "active"
  +:+ "]]".

(** A [json.loads] that knows the texts of the sample account. *)
Definition account_loads (text : string) : option json :=
  if String.eqb text clusters_text then
    Some (JArr [JStr main_cluster; JStr batch_cluster])
  else if String.eqb text three_clusters_text then
    Some (JArr [JStr main_cluster; JStr batch_cluster; JStr spare_cluster])
  else if String.eqb text services_text then
    Some (JArr [JStr web_service; JStr api_service])
  else if String.eqb text instances_text then
    Some (JArr [JArr [JArr [JStr "i-0a1b"; JStr "web-1"; JStr "t3.micro"]];
                JArr [JArr [JStr "i-0c2d"; JNull; JStr "t3.small"]]])
  else if String.eqb text functions_text then
    Some (JArr (map (fun f => JArr [JStr (fst f); JStr (snd f)]) functions))
  else if String.eqb text balancers_text then
    Some (JArr [JArr [JStr "front"; JStr "application"; JStr "active"]])
  else if String.eqb text "[]" then Some (JArr [])
  else None.

Definition finished (code : Z) (out err : string) : CompletedProcess :=
  {| cp_returncode := code; cp_stdout := out; cp_stderr := err |}.

(** How the sample account answers: two clusters, of which [batch]
    cannot be queried for its services; two instances in two
    reservations; twelve functions; one load balancer; no database. *)
Definition answer (argv : list string) : CompletedProcess :=
  match argv with
  | [_; "ecs"; "list-clusters"; _; _; _; "json"] => finished 0 clusters_text ""
  | [_; "ecs"; "list-clusters"; _; _; _; "text"] =>
      finished 0 (main_cluster +:+ " " +:+ batch_cluster +:+ nl) ""
  | [_; "ecs"; "list-services"; _; cluster; _; _; _; _] =>
      if String.eqb cluster main_cluster then finished 0 services_text ""
      else finished 254 "" "ClusterNotFoundException"
  | _ :: "ec2" :: _ => finished 0 instances_text ""
  | _ :: "lambda" :: _ => finished 0 functions_text ""
  | _ :: "elbv2" :: _ => finished 0 balancers_text ""
  | _ => finished 0 "[]" ""
  end.

Definition stocked : World :=
  {| which_aws := Some "/usr/local/bin/aws";
     subprocess_run := fun _ argv _ => inr (answer argv);
     json_loads := account_loads;
     json_dumps := json_dumps Scenarios.healthy;
     py_repr := py_repr Scenarios.healthy;
     environ := environ Scenarios.healthy;
     aws_config := aws_config Scenarios.healthy;
     aws_credentials := aws_credentials Scenarios.healthy;
     utcnow := utcnow Scenarios.healthy;
     tempfile_name := tempfile_name Scenarios.healthy;
     open_error := open_error Scenarios.healthy;
     help_text := help_text Scenarios.healthy |}.

(** Like [answer], with a third cluster, and the services of every
    cluster but [main] are printed as text that is not JSON. *)
Definition muddled_answer (argv : list string) : CompletedProcess :=
  match argv with
  | [_; "ecs"; "list-clusters"; _; _; _; "json"] => finished 0 three_clusters_text ""
  | [_; "ecs"; "list-services"; _; cluster; _; _; _; _] =>
      if String.eqb cluster main_cluster then finished 0 services_text ""
      else finished 0 "web api" ""
  | _ => answer argv
  end.

Definition muddled : World :=
  {| which_aws := Some "/usr/local/bin/aws";
     subprocess_run := fun _ argv _ => inr (muddled_answer argv);
     json_loads := account_loads;
     json_dumps := json_dumps Scenarios.healthy;
     py_repr := py_repr Scenarios.healthy;
     environ := environ Scenarios.healthy;
     aws_config := aws_config Scenarios.healthy;
     aws_credentials := aws_credentials Scenarios.healthy;
     utcnow := utcnow Scenarios.healthy;
     tempfile_name := tempfile_name Scenarios.healthy;
     open_error := open_error Scenarios.healthy;
     help_text := help_text Scenarios.healthy |}.

End Account.


(** * Properties *)

(** ** The monad *)

Lemma bind_ret {A B} (a : A) (k : A -> M B) w s : bind (ret a) k w s = k a w s.
Proof. reflexivity. Qed.

Lemma bind_returns {A B} (c : M A) (k : A -> M B) w s a s' :
  c w s = (inr a, s') -> bind c k w s = k a w s'.
Proof. intros H. unfold bind. now rewrite H. Qed.

Lemma bind_raises {A B} (c : M A) (k : A -> M B) w s e s' :
  c w s = (inl e, s') -> bind c k w s = (inl e, s').
Proof. intros H. unfold bind. now rewrite H. Qed.

Lemma bind_emit {B} (l : line) (k : unit -> M B) w s :
  bind (emit l) k w s = k tt w (add_line l s).
Proof. reflexivity. Qed.

Lemma for_each_cons {A} (x : A) rest (body : A -> M unit) :
  for_each (x :: rest) body = bind (body x) (fun _ => for_each rest body).
Proof. reflexivity. Qed.

Lemma for_fold_cons {A B} (x : A) rest (acc : B) (body : B -> A -> M B) :
  for_fold (x :: rest) acc body = bind (body acc x) (fun acc' => for_fold rest acc' body).
Proof. reflexivity. Qed.

Lemma calls_add_line l s : calls (add_line l s) = calls s.
Proof. reflexivity. Qed.

Lemma calls_add_call c s : calls (add_call c s) = (calls s ++ [c])%list.
Proof. reflexivity. Qed.

(** ** [run_aws_command] *)

Lemma check_run_aws_command args timeout w s :
  AwsCheck.run_aws_command args timeout w s =
  (AwsCheck.classify (subprocess_run w (calls s) ("aws" :: args) timeout),
   add_call ("aws" :: args, timeout) s).
Proof.
  unfold AwsCheck.run_aws_command, try_except, bind, subprocess.
  destruct (subprocess_run w (calls s) ("aws" :: args) timeout) as [e | p]; [| reflexivity].
  destruct e; reflexivity.
Qed.

Lemma metrics_run_aws_command args timeout w s :
  AwsMetrics.run_aws_command args timeout w s =
  (AwsMetrics.classify (subprocess_run w (calls s) ("aws" :: args) timeout),
   add_call ("aws" :: args, timeout) s).
Proof.
  unfold AwsMetrics.run_aws_command, try_except, bind, subprocess.
  destruct (subprocess_run w (calls s) ("aws" :: args) timeout) as [e | p]; [| reflexivity].
  destruct e; reflexivity.
Qed.

Lemma check_classify_agrees o r :
  AwsCheck.classify o = inr r ->
  AwsCheck.success r = true <-> AwsCheck.returncode r = 0.
Proof.
  destruct o as [e | p]; simpl.
  - destruct e; intros [= <-]; simpl; split; discriminate.
  - intros [= <-]; simpl. apply Z.eqb_eq.
Qed.

Lemma metrics_classify_agrees o r :
  AwsMetrics.classify o = inr r ->
  AwsMetrics.success r = true <-> AwsMetrics.returncode r = 0.
Proof.
  destruct o as [e | p]; simpl.
  - destruct e; intros [= <-]; simpl; split; discriminate.
  - intros [= <-]; simpl. apply Z.eqb_eq.
Qed.

Lemma check_classify_handled w h argv t :
  handled w ->
  exists r, AwsCheck.classify (subprocess_run w h argv t) = inr r
            /\ AwsCheck.success r = exit_zero (subprocess_run w h argv t)
            /\ AwsCheck.stdout r = output_of (subprocess_run w h argv t).
Proof.
  intros Hw. destruct (subprocess_run w h argv t) as [e | p] eqn:E.
  - destruct (Hw _ _ _ _ E) as [-> | ->]; simpl; eauto.
  - simpl; eauto.
Qed.

Lemma metrics_classify_handled w h argv t :
  handled w ->
  exists r, AwsMetrics.classify (subprocess_run w h argv t) = inr r
            /\ AwsMetrics.success r = exit_zero (subprocess_run w h argv t)
            /\ AwsMetrics.stdout r = output_of (subprocess_run w h argv t).
Proof.
  intros Hw. destruct (subprocess_run w h argv t) as [e | p] eqn:E.
  - destruct (Hw _ _ _ _ E) as [-> | ->]; simpl; eauto.
  - simpl; eauto.
Qed.

(** C1. Whenever [run_aws_command] returns a result, in either script, the
    result's [success] flag is true exactly when its [returncode] is 0; it
    does return a result when the subprocess completes, times out or is not
    found; and the synthetic results for a timeout and a missing binary
    carry [success = false] and [returncode = -1]. *)
Theorem run_aws_command_success_iff_returncode_zero
    (w : World) (s : State) (args : list string) (timeout : Z) :
  (forall r s', AwsCheck.run_aws_command args timeout w s = (inr r, s') ->
                (AwsCheck.success r = true <-> AwsCheck.returncode r = 0))
  /\ (forall r s', AwsMetrics.run_aws_command args timeout w s = (inr r, s') ->
                   (AwsMetrics.success r = true <-> AwsMetrics.returncode r = 0))
  /\ ((exists p, outcome w s args timeout = inr p)
      \/ outcome w s args timeout = inl TimeoutExpired
      \/ outcome w s args timeout = inl FileNotFoundError ->
      (exists r s', AwsCheck.run_aws_command args timeout w s = (inr r, s'))
      /\ (exists r s', AwsMetrics.run_aws_command args timeout w s = (inr r, s')))
  /\ (outcome w s args timeout = inl TimeoutExpired
      \/ outcome w s args timeout = inl FileNotFoundError ->
      (exists r s', AwsCheck.run_aws_command args timeout w s = (inr r, s')
                    /\ AwsCheck.success r = false /\ AwsCheck.returncode r = -1)
      /\ (exists r s', AwsMetrics.run_aws_command args timeout w s = (inr r, s')
                       /\ AwsMetrics.success r = false /\ AwsMetrics.returncode r = -1)).
Proof.
  rewrite check_run_aws_command, metrics_run_aws_command.
  fold (outcome w s args timeout).
  split; [| split; [| split]].
  - intros r s' [= H _]. eapply check_classify_agrees, H.
  - intros r s' [= H _]. eapply metrics_classify_agrees, H.
  - intros [[p ->] | [-> | ->]]; simpl; split; eauto.
  - intros [-> | ->]; simpl; split; eauto 10.
Qed.

(** C2. When the subprocess invocation raises [TimeoutExpired] or
    [FileNotFoundError], [run_aws_command] (in either script) raises
    nothing: it returns the failure result with empty [stdout], [returncode]
    -1 and the fixed [stderr] message of that exception. *)
Theorem run_aws_command_timeout_and_missing_binary
    (w : World) (s : State) (args : list string) (timeout : Z) :
  (outcome w s args timeout = inl TimeoutExpired ->
   AwsCheck.run_aws_command args timeout w s =
     (inr {| AwsCheck.success := false; AwsCheck.stdout := "";
             AwsCheck.stderr := "Command timed out"; AwsCheck.returncode := -1 |},
      add_call ("aws" :: args, timeout) s)
   /\ AwsMetrics.run_aws_command args timeout w s =
     (inr {| AwsMetrics.success := false; AwsMetrics.stdout := "";
             AwsMetrics.stderr := "Command timed out"; AwsMetrics.returncode := -1 |},
      add_call ("aws" :: args, timeout) s))
  /\ (outcome w s args timeout = inl FileNotFoundError ->
      AwsCheck.run_aws_command args timeout w s =
        (inr {| AwsCheck.success := false; AwsCheck.stdout := "";
                AwsCheck.stderr := "AWS CLI not found"; AwsCheck.returncode := -1 |},
         add_call ("aws" :: args, timeout) s)
      /\ AwsMetrics.run_aws_command args timeout w s =
        (inr {| AwsMetrics.success := false; AwsMetrics.stdout := "";
                AwsMetrics.stderr := "AWS CLI not found"; AwsMetrics.returncode := -1 |},
         add_call ("aws" :: args, timeout) s)).
Proof.
  rewrite check_run_aws_command, metrics_run_aws_command.
  fold (outcome w s args timeout).
  split; intros ->; split; reflexivity.
Qed.

Lemma bind_ask {A B} (f : World -> A) (k : A -> M B) w s :
  bind (ask f) k w s = k (f w) w s.
Proof. reflexivity. Qed.

Lemma printed_add_line l s : printed (add_line l s) = (printed s ++ [l])%list.
Proof. reflexivity. Qed.

Lemma files_add_line l s : files (add_line l s) = files s.
Proof. reflexivity. Qed.

Lemma printed_add_call c s : printed (add_call c s) = printed s.
Proof. reflexivity. Qed.

Lemma files_add_call c s : files (add_call c s) = files s.
Proof. reflexivity. Qed.

(** Unfolding the plumbing of a computation, down to the calls of
    [run_aws_command], the loops and the handlers. *)
Ltac run_monad :=
  cbv beta iota zeta delta
    [bind ret raise lift ask emit print print_header print_success print_error
     print_warning print_info].

(** ** The installation check *)

(** C5. When [shutil.which] finds no [aws] binary, the [all] sequence of the
    check tool returns exit code 1 and the run has made no subprocess
    invocation (and touched no file): the log of calls is as it was. *)
Theorem all_aborts_without_call_when_binary_absent (w : World) (s : State) :
  which_aws w = None ->
  exists s', AwsCheck.main AwsCheck.All w s = (inr 1, s')
             /\ calls s' = calls s /\ files s' = files s.
Proof.
  intros Hwhich.
  unfold AwsCheck.main, AwsCheck.check_cli_installed, bind, ask, print_header,
    print_error, print, emit, ret.
  rewrite Hwhich. simpl. eexists. split; [reflexivity | split; reflexivity].
Qed.

Lemma all_aborts_without_call_when_binary_absent_witness :
  which_aws Scenarios.no_cli = None
  /\ exists s', AwsCheck.main AwsCheck.All Scenarios.no_cli Scenarios.initial = (inr 1, s')
                /\ calls s' = calls Scenarios.initial /\ files s' = files Scenarios.initial.
Proof.
  split; [reflexivity |].
  apply (all_aborts_without_call_when_binary_absent Scenarios.no_cli Scenarios.initial).
  reflexivity.
Defined.

(** ** The permission probes *)

Lemma tally_nonneg v results : 0 <= tally v results.
Proof. induction results as [| b rest IH]; simpl; [lia |]. destruct (Bool.eqb b v); lia. Qed.

Lemma no_failure results : (tally false results =? 0) = forallb id results.
Proof.
  induction results as [| [] rest IH]; simpl; try reflexivity.
  - exact IH.
  - apply Z.eqb_neq. pose proof (tally_nonneg false rest). lia.
Qed.

Lemma required_step_eq w (Hw : handled w) passed failed permission cmd s :
  AwsCheck.required_step (passed, failed) (permission, cmd) w s =
  (inr (if exit_zero (outcome w s cmd 30) then (passed + 1, failed) else (passed, failed + 1)),
   add_line (if exit_zero (outcome w s cmd 30) then Success permission else Error permission)
     (add_call ("aws" :: cmd, 30) s)).
Proof.
  unfold AwsCheck.required_step, bind, outcome. rewrite check_run_aws_command.
  unfold AwsCheck.DEFAULT_TIMEOUT.
  destruct (check_classify_handled w (calls s) ("aws" :: cmd) 30 Hw) as (r & -> & <- & _).
  destruct (AwsCheck.success r); reflexivity.
Qed.

Lemma optional_step_eq w (Hw : handled w) permission cmd s :
  AwsCheck.optional_step (permission, cmd) w s =
  (inr tt,
   add_line (if exit_zero (outcome w s cmd 30) then Success permission
             else Warning (permission +:+ " (not available or not enabled)"))
     (add_call ("aws" :: cmd, 30) s)).
Proof.
  unfold AwsCheck.optional_step, bind, outcome. rewrite check_run_aws_command.
  unfold AwsCheck.DEFAULT_TIMEOUT.
  destruct (check_classify_handled w (calls s) ("aws" :: cmd) 30 Hw) as (r & -> & <- & _).
  destruct (AwsCheck.success r); reflexivity.
Qed.

Lemma required_loop w (Hw : handled w) tests :
  forall passed failed s,
  exists s',
    for_fold tests (passed, failed) AwsCheck.required_step w s =
      (inr (passed + tally true (probes w (calls s) 30 (map snd tests)),
            failed + tally false (probes w (calls s) 30 (map snd tests))), s')
    /\ calls s' = (calls s ++ map (fun t => ("aws" :: snd t, 30)) tests)%list
    /\ files s' = files s.
Proof.
  induction tests as [| [permission cmd] rest IH]; intros passed failed s.
  - exists s. simpl. unfold ret.
    rewrite !Z.add_0_r, app_nil_r. auto.
  - rewrite for_fold_cons.
    rewrite (bind_returns _ _ _ _ _ _ (required_step_eq w Hw passed failed permission cmd s)).
    unfold outcome. simpl map. simpl probes.
    destruct (exit_zero (subprocess_run w (calls s) ("aws" :: cmd) 30)).
    + destruct (IH (passed + 1) failed
                  (add_line (Success permission) (add_call ("aws" :: cmd, 30) s)))
        as (s' & -> & Hc & Hf).
      exists s'. simpl in *. split; [| split].
      * do 2 f_equal. apply pair_equal_spec; split; lia.
      * rewrite Hc, <- app_assoc. reflexivity.
      * exact Hf.
    + destruct (IH passed (failed + 1)
                  (add_line (Error permission) (add_call ("aws" :: cmd, 30) s)))
        as (s' & -> & Hc & Hf).
      exists s'. simpl in *. split; [| split].
      * do 2 f_equal. apply pair_equal_spec; split; lia.
      * rewrite Hc, <- app_assoc. reflexivity.
      * exact Hf.
Qed.

Lemma optional_loop w (Hw : handled w) tests :
  forall s, exists s',
    for_each tests AwsCheck.optional_step w s = (inr tt, s')
    /\ calls s' = (calls s ++ map (fun t => ("aws" :: snd t, 30)) tests)%list
    /\ files s' = files s.
Proof.
  induction tests as [| [permission cmd] rest IH]; intros s.
  - exists s. simpl. rewrite app_nil_r. auto.
  - rewrite for_each_cons.
    rewrite (bind_returns _ _ _ _ _ _ (optional_step_eq w Hw permission cmd s)).
    match goal with |- context [for_each rest _ w ?s1] =>
      destruct (IH s1) as (s' & -> & Hc & Hf) end.
    exists s'. simpl in *. rewrite Hc, <- app_assoc. auto.
Qed.

(** What [check_permissions] returns, in a world that raises nothing
    unhandled: whether every required probe exited with code 0. *)
Lemma check_permissions_returns w (Hw : handled w) s :
  exists s',
    AwsCheck.check_permissions w s =
      (inr (forallb id (probes w (calls s) 30 (map snd AwsCheck.required_tests))), s')
    /\ calls s' = (calls s
                   ++ map (fun t => ("aws" :: snd t, 30))
                        (AwsCheck.required_tests ++ AwsCheck.optional_tests))%list
    /\ files s' = files s.
Proof.
  unfold AwsCheck.check_permissions.
  unfold bind at 1. unfold print_header at 1, emit at 1.
  unfold bind at 1.
  destruct (required_loop w Hw AwsCheck.required_tests 0 0
              (add_line (Header "Dash Monitoring Permissions") s))
    as (s1 & -> & Hc1 & Hf1).
  cbv beta iota. unfold bind at 1. unfold print at 1, emit at 1.
  unfold bind at 1. unfold print_info at 1, emit at 1.
  unfold bind at 1.
  destruct (optional_loop w Hw AwsCheck.optional_tests
              (add_line (Info "Optional permissions (may require service activation):")
                 (add_line (Plain "") s1)))
    as (s2 & -> & Hc2 & Hf2).
  unfold bind, print, emit, ret. eexists. split; [| split].
  - rewrite Z.add_0_l, no_failure. reflexivity.
  - simpl calls in *. rewrite Hc2, Hc1, map_app, <- app_assoc. reflexivity.
  - simpl files in *. congruence.
Qed.

(** C10. In a world where no subprocess invocation raises an exception
    [run_aws_command] does not handle, [check_permissions] returns, and it
    returns true exactly when each of the ten required probes exits with
    code 0.  The four optional probes have no part in the value: two worlds
    in which the required probes end alike give the same value, however
    the optional probes end. *)
Theorem check_permissions_true_iff_required_pass (w : World) (s : State) :
  handled w ->
  length AwsCheck.required_tests = 10%nat
  /\ length AwsCheck.optional_tests = 4%nat
  /\ (exists b s',
        AwsCheck.check_permissions w s = (inr b, s')
        /\ (b = true <->
            Forall (fun ok => ok = true)
              (probes w (calls s) 30 (map snd AwsCheck.required_tests))))
  /\ (forall w2, handled w2 ->
        probes w2 (calls s) 30 (map snd AwsCheck.required_tests)
        = probes w (calls s) 30 (map snd AwsCheck.required_tests) ->
        fst (AwsCheck.check_permissions w2 s) = fst (AwsCheck.check_permissions w s)).
Proof.
  intros Hw. split; [reflexivity |]. split; [reflexivity |]. split.
  - destruct (check_permissions_returns w Hw s) as (s' & E & _).
    eexists _, s'. split; [exact E |].
    rewrite forallb_forall, Forall_forall.
    split; intros H x Hx.
    + apply H. now apply list_elem_of_In.
    + apply H. now apply list_elem_of_In.
  - intros w2 Hw2 Heq.
    destruct (check_permissions_returns w Hw s) as (s1 & -> & _).
    destruct (check_permissions_returns w2 Hw2 s) as (s2 & -> & _).
    cbn [fst]. now rewrite Heq.
Qed.

(** ** Strings: [strip] and [replace] *)

Lemma append_cons c (a b : string) : String c a +:+ b = String c (a +:+ b).
Proof. reflexivity. Qed.

Lemma append_nil_l (b : string) : "" +:+ b = b.
Proof. reflexivity. Qed.

Lemma append_nil_r (s : string) : s +:+ "" = s.
Proof. induction s as [| c s IH]; [reflexivity |]. now rewrite append_cons, IH. Qed.

Lemma append_assoc (a b c : string) : (a +:+ b) +:+ c = a +:+ (b +:+ c).
Proof. induction a as [| x a IH]; [reflexivity |]. now rewrite !append_cons, IH. Qed.

Lemma prefix_nil (s : string) : String.prefix "" s = true.
Proof. destruct s; reflexivity. Qed.

Lemma startswith_cons c s : PyStr.startswith (String c s) (String c "") = true.
Proof.
  unfold PyStr.startswith. cbn [String.prefix].
  destruct (ascii_dec c c); [apply prefix_nil | congruence].
Qed.

Lemma startswith_other c d s :
  c <> d -> PyStr.startswith (String c s) (String d "") = false.
Proof.
  intros Hne. unfold PyStr.startswith. cbn [String.prefix].
  destruct (ascii_dec d c); [congruence | reflexivity].
Qed.

Lemma lstrip_blank_prefix pre s :
  all_space pre = true -> PyStr.lstrip (pre +:+ s) = PyStr.lstrip s.
Proof.
  induction pre as [| c pre IH]; [reflexivity |].
  cbn [all_space]. intros [Hc Hpre]%andb_prop.
  rewrite append_cons. cbn [PyStr.lstrip]. rewrite Hc. auto.
Qed.

Lemma rstrip_blank post : all_space post = true -> PyStr.rstrip post = "".
Proof.
  induction post as [| c post IH]; [reflexivity |].
  cbn [all_space PyStr.rstrip]. intros [Hc Hpost]%andb_prop.
  rewrite (IH Hpost), Hc. reflexivity.
Qed.

(** A string that ends in a character that is not whitespace keeps that
    end, whatever blank text follows it. *)
Lemma rstrip_blank_suffix s c post :
  PyStr.isspace c = false -> all_space post = true ->
  PyStr.rstrip (s +:+ String c post) = s +:+ String c "".
Proof.
  intros Hc Hpost. induction s as [| a s IH].
  - rewrite !append_nil_l. cbn [PyStr.rstrip].
    rewrite (rstrip_blank post Hpost), Hc. reflexivity.
  - rewrite !append_cons. cbn [PyStr.rstrip]. rewrite IH.
    destruct s; reflexivity.
Qed.

Lemma strip_core pre c body d post :
  all_space pre = true -> all_space post = true ->
  PyStr.isspace c = false -> PyStr.isspace d = false ->
  PyStr.strip (pre +:+ String c (body +:+ String d post)) = String c (body +:+ String d "").
Proof.
  intros Hpre Hpost Hc Hd. unfold PyStr.strip.
  rewrite (lstrip_blank_prefix pre _ Hpre). cbn [PyStr.lstrip]. rewrite Hc.
  exact (rstrip_blank_suffix (String c body) d post Hd Hpost).
Qed.

(** Text without the first character of [old] holds no occurrence of
    [old], so [replace] leaves it as it is. *)
Lemma replace_from_absent c old new s :
  PyStr.occurs c s = false ->
  PyStr.replace_from (String c old) new 0 s = s.
Proof.
  induction s as [| a s IH]; [reflexivity |].
  cbn [PyStr.occurs]. intros [Ha Hs]%orb_false_elim.
  cbn [PyStr.replace_from String.prefix].
  destruct (ascii_dec c a) as [-> | Hne].
  - rewrite Ascii.eqb_refl in Ha. discriminate.
  - rewrite (IH Hs). reflexivity.
Qed.

(** Removing the character [c] from text that ends in its only [c]. *)
Lemma replace_from_final c s :
  PyStr.occurs c s = false ->
  PyStr.replace_from (String c "") "" 0 (s +:+ String c "") = s.
Proof.
  induction s as [| a s IH]; cbn [PyStr.occurs].
  - intros _. rewrite append_nil_l. cbn [PyStr.replace_from String.prefix].
    destruct (ascii_dec c c); [reflexivity | congruence].
  - intros [Ha Hs]%orb_false_elim. rewrite append_cons.
    cbn [PyStr.replace_from String.prefix].
    destruct (ascii_dec c a) as [-> | Hne].
    + rewrite Ascii.eqb_refl in Ha. discriminate.
    + rewrite (IH Hs). reflexivity.
Qed.

Lemma occurs_append c a b :
  PyStr.occurs c (a +:+ b) = PyStr.occurs c a || PyStr.occurs c b.
Proof.
  induction a as [| x a IH]; [reflexivity |].
  rewrite append_cons. cbn [PyStr.occurs]. rewrite IH. apply orb_assoc.
Qed.

(** ** Profile names *)

Lemma config_profile_of_header pre X post :
  all_space pre = true -> all_space post = true ->
  PyStr.occurs "[" X = false -> PyStr.occurs "]" X = false ->
  AwsCheck.config_profile (pre +:+ "[profile " +:+ X +:+ "]" +:+ post) = Some X.
Proof.
  intros Hpre Hpost Hl Hr. unfold AwsCheck.config_profile.
  replace (pre +:+ "[profile " +:+ X +:+ "]" +:+ post)
    with (pre +:+ String "[" (("profile " +:+ X) +:+ String "]" post))
    by (now rewrite append_assoc).
  rewrite (strip_core pre "[" ("profile " +:+ X) "]" post Hpre Hpost eq_refl eq_refl).
  rewrite startswith_cons. f_equal.
  unfold PyStr.replace.
  assert (E1 : PyStr.replace_from "[profile " "" 0 (String "[" (("profile " +:+ X) +:+ "]"))
               = X +:+ "]").
  { rewrite append_assoc, !append_cons, append_nil_l.
    cbn. rewrite prefix_nil, append_nil_l.
    apply (replace_from_absent "[" "profile " "").
    rewrite occurs_append, Hl. reflexivity. }
  rewrite E1.
  rewrite (replace_from_absent "[" "" "") by (rewrite occurs_append, Hl; reflexivity).
  apply replace_from_final, Hr.
Qed.

Lemma credentials_profile_of_header pre X post :
  all_space pre = true -> all_space post = true ->
  PyStr.occurs "[" X = false -> PyStr.occurs "]" X = false ->
  AwsCheck.credentials_profile (pre +:+ "[" +:+ X +:+ "]" +:+ post) = Some X.
Proof.
  intros Hpre Hpost Hl Hr. unfold AwsCheck.credentials_profile.
  change (pre +:+ "[" +:+ X +:+ "]" +:+ post)
    with (pre +:+ String "[" (X +:+ String "]" post)).
  rewrite (strip_core pre "[" X "]" post Hpre Hpost eq_refl eq_refl).
  rewrite startswith_cons. f_equal.
  unfold PyStr.replace.
  assert (E1 : PyStr.replace_from "[" "" 0 (String "[" (X +:+ "]")) = X +:+ "]").
  { cbn. rewrite prefix_nil, append_nil_l.
    apply (replace_from_absent "[" "" "").
    rewrite occurs_append, Hl. reflexivity. }
  rewrite E1. apply replace_from_final, Hr.
Qed.

Lemma profile_loop extract lines w :
  forall s, exists s',
    for_each lines (fun line => AwsCheck.print_profile (extract line)) w s = (inr tt, s')
    /\ printed s' = (printed s ++ profile_lines extract lines)%list
    /\ calls s' = calls s /\ files s' = files s.
Proof.
  induction lines as [| l rest IH]; intros s.
  - exists s. cbn. rewrite app_nil_r. auto.
  - rewrite for_each_cons. cbn [profile_lines]. unfold AwsCheck.print_profile at 1.
    destruct (extract l) as [p |].
    + unfold print. rewrite bind_emit.
      destruct (IH (add_line (Plain ("  - " +:+ p)) s)) as (s' & -> & Hp & Hc & Hf).
      exists s'. rewrite Hp, Hc, Hf, printed_add_line, <- app_assoc. auto.
    + rewrite bind_ret. apply IH.
Qed.

Lemma file_section name extract file w s :
  exists s',
    match file with
    | Some lines =>
        (print_success (name +:+ " exists") ;;
         print "  Profiles:" ;;
         for_each lines (fun line => AwsCheck.print_profile (extract line)))
    | None => print_warning (name +:+ " not found")
    end w s = (inr tt, s')
    /\ printed s' = (printed s ++ file_report name extract file)%list
    /\ calls s' = calls s /\ files s' = files s.
Proof.
  destruct file as [lines |]; cbn [file_report].
  - unfold print_success, print. rewrite !bind_emit.
    match goal with |- context [for_each lines _ w ?s1] =>
      destruct (profile_loop extract lines w s1) as (s' & -> & Hp & Hc & Hf) end.
    exists s'. rewrite Hp, Hc, Hf, !printed_add_line, <- !app_assoc. auto.
  - eexists. split; [reflexivity |]. auto.
Qed.

Lemma env_loop vars w :
  forall s, exists s',
    for_each vars (fun '(var, value) =>
      match value with
      | None | Some EmptyString => print_warning (var +:+ " not set")
      | Some v => print_info (var +:+ "=" +:+ v)
      end) w s = (inr tt, s')
    /\ printed s' = (printed s ++ map (fun '(var, value) => env_line var value) vars)%list
    /\ calls s' = calls s /\ files s' = files s.
Proof.
  induction vars as [| [var value] rest IH]; intros s.
  - exists s. cbn. rewrite app_nil_r. auto.
  - rewrite for_each_cons. cbn [map].
    assert (E : match value with
                | None | Some EmptyString => print_warning (var +:+ " not set")
                | Some v => print_info (var +:+ "=" +:+ v)
                end = emit (env_line var value)).
    { destruct value as [[| c v] |]; reflexivity. }
    rewrite E, bind_emit.
    destruct (IH (add_line (env_line var value) s)) as (s' & -> & Hp & Hc & Hf).
    exists s'. rewrite Hp, Hc, Hf, printed_add_line, <- app_assoc. auto.
Qed.

(** Everything [show_config] prints; it runs no subprocess and raises
    nothing. *)
Lemma show_config_report w s :
  exists s',
    AwsCheck.show_config w s = (inr tt, s')
    /\ printed s' =
       (printed s
        ++ [Header "AWS Configuration"; Plain "Configuration files:"]
        ++ file_report "~/.aws/config" AwsCheck.config_profile (aws_config w)
        ++ [Plain ""]
        ++ file_report "~/.aws/credentials" AwsCheck.credentials_profile (aws_credentials w)
        ++ [Plain ""; Plain "Environment variables:"]
        ++ [ env_line "AWS_PROFILE" (environ w "AWS_PROFILE");
             env_line "AWS_DEFAULT_REGION" (environ w "AWS_DEFAULT_REGION");
             env_line "AWS_ACCESS_KEY_ID"
               (if AwsCheck.nonempty (environ w "AWS_ACCESS_KEY_ID") then Some "***" else None);
             env_line "AWS_SECRET_ACCESS_KEY"
               (if AwsCheck.nonempty (environ w "AWS_SECRET_ACCESS_KEY") then Some "***"
                else None) ])%list
    /\ calls s' = calls s /\ files s' = files s.
Proof.
  unfold AwsCheck.show_config.
  unfold print_header at 1. rewrite bind_emit.
  unfold print at 1. rewrite bind_emit.
  rewrite bind_ask.
  match goal with |- context [bind ?c ?k w ?s1] =>
    destruct (file_section "~/.aws/config" AwsCheck.config_profile (aws_config w) w s1)
      as (s2 & E2 & Hp2 & Hc2 & Hf2) end.
  rewrite (bind_returns _ _ _ _ _ _ E2).
  unfold print at 1. rewrite bind_emit, bind_ask.
  match goal with |- context [bind ?c ?k w ?s1] =>
    destruct (file_section "~/.aws/credentials" AwsCheck.credentials_profile
                (aws_credentials w) w s1)
      as (s3 & E3 & Hp3 & Hc3 & Hf3) end.
  rewrite (bind_returns _ _ _ _ _ _ E3).
  unfold print at 1. rewrite bind_emit.
  unfold print at 1. rewrite bind_emit.
  rewrite !bind_ask.
  match goal with |- context [for_each ?vars _ w ?s1] =>
    destruct (env_loop vars w s1) as (s4 & E4 & Hp4 & Hc4 & Hf4) end.
  exists s4. split; [exact E4 |].
  rewrite Hp4, Hc4, Hf4. rewrite !printed_add_line, !calls_add_line, !files_add_line.
  rewrite Hp3, Hc3, Hf3. rewrite !printed_add_line, !calls_add_line, !files_add_line.
  rewrite Hp2, Hc2, Hf2. rewrite !printed_add_line, !calls_add_line, !files_add_line.
  split; [| auto]. cbn [map]. rewrite <- !app_assoc. reflexivity.
Qed.

Lemma profile_lines_app extract before after :
  profile_lines extract (before ++ after)%list
  = (profile_lines extract before ++ profile_lines extract after)%list.
Proof.
  induction before as [| l rest IH]; [reflexivity |].
  cbn [profile_lines app]. destruct (extract l); rewrite IH; reflexivity.
Qed.

Lemma profile_lines_header extract before line after X :
  extract line = Some X ->
  profile_lines extract (before ++ line :: after)%list
  = (profile_lines extract before ++ Plain ("  - " +:+ X) :: profile_lines extract after)%list.
Proof.
  intros E. rewrite profile_lines_app. cbn [profile_lines]. now rewrite E.
Qed.

Lemma strip_keeps_first c rest :
  PyStr.isspace c = false -> exists r, PyStr.strip (String c rest) = String c r.
Proof.
  intros Hc. unfold PyStr.strip. cbn [PyStr.lstrip]. rewrite Hc.
  cbn [PyStr.rstrip]. destruct (PyStr.rstrip rest); [rewrite Hc |]; eauto.
Qed.

(** C7, as the code has it. A line of the config file that is
    [[profile X]] and a line of the credentials file that is [[X]], with
    [X] free of square brackets and nothing but whitespace before and after
    the bracketed text, contribute exactly the profile name [X], and
    [show_config] prints it, in the place of the line, as ["  - X"].  More
    generally a line whose text, stripped of surrounding whitespace, starts
    with ["["] contributes that text without its occurrences of
    ["[profile "] (config file only), ["["] and ["]"]; a line whose
    stripped text does not start with ["["] (so every line whose first
    character is neither whitespace nor ["["]) contributes nothing.  The
    profile lines are all [show_config] prints between the headings of a
    file. *)
Theorem show_config_extracts_profile_names (X pre post : string) :
  all_space pre = true -> all_space post = true ->
  PyStr.occurs "[" X = false -> PyStr.occurs "]" X = false ->
  AwsCheck.config_profile (pre +:+ "[profile " +:+ X +:+ "]" +:+ post) = Some X
  /\ AwsCheck.credentials_profile (pre +:+ "[" +:+ X +:+ "]" +:+ post) = Some X
  /\ (forall before after,
        profile_lines AwsCheck.config_profile
          (before ++ (pre +:+ "[profile " +:+ X +:+ "]" +:+ post) :: after)%list
        = (profile_lines AwsCheck.config_profile before
           ++ Plain ("  - " +:+ X) :: profile_lines AwsCheck.config_profile after)%list
        /\ profile_lines AwsCheck.credentials_profile
             (before ++ (pre +:+ "[" +:+ X +:+ "]" +:+ post) :: after)%list
           = (profile_lines AwsCheck.credentials_profile before
              ++ Plain ("  - " +:+ X) :: profile_lines AwsCheck.credentials_profile after)%list)
  /\ (forall line,
        PyStr.startswith (PyStr.strip line) "[" = true ->
        AwsCheck.config_profile line
        = Some (PyStr.replace
                  (PyStr.replace (PyStr.replace (PyStr.strip line) "[profile " "") "[" "")
                  "]" "")
        /\ AwsCheck.credentials_profile line
           = Some (PyStr.replace (PyStr.replace (PyStr.strip line) "[" "") "]" ""))
  /\ (forall line,
        PyStr.startswith (PyStr.strip line) "[" = false ->
        AwsCheck.config_profile line = None /\ AwsCheck.credentials_profile line = None)
  /\ (forall c rest,
        PyStr.isspace c = false -> c <> "["%char ->
        AwsCheck.config_profile (String c rest) = None
        /\ AwsCheck.credentials_profile (String c rest) = None)
  /\ (forall w s, exists s',
        AwsCheck.show_config w s = (inr tt, s')
        /\ printed s' =
           (printed s
            ++ [Header "AWS Configuration"; Plain "Configuration files:"]
            ++ file_report "~/.aws/config" AwsCheck.config_profile (aws_config w)
            ++ [Plain ""]
            ++ file_report "~/.aws/credentials" AwsCheck.credentials_profile
                 (aws_credentials w)
            ++ [Plain ""; Plain "Environment variables:"]
            ++ [ env_line "AWS_PROFILE" (environ w "AWS_PROFILE");
                 env_line "AWS_DEFAULT_REGION" (environ w "AWS_DEFAULT_REGION");
                 env_line "AWS_ACCESS_KEY_ID"
                   (if AwsCheck.nonempty (environ w "AWS_ACCESS_KEY_ID")
                    then Some "***" else None);
                 env_line "AWS_SECRET_ACCESS_KEY"
                   (if AwsCheck.nonempty (environ w "AWS_SECRET_ACCESS_KEY")
                    then Some "***" else None) ])%list).
Proof.
  intros Hpre Hpost Hl Hr.
  pose proof (config_profile_of_header pre X post Hpre Hpost Hl Hr) as Hconfig.
  pose proof (credentials_profile_of_header pre X post Hpre Hpost Hl Hr) as Hcred.
  split; [exact Hconfig |]. split; [exact Hcred |]. split; [| split; [| split; [| split]]].
  - intros before after. split; apply profile_lines_header; assumption.
  - intros line Hline. unfold AwsCheck.config_profile, AwsCheck.credentials_profile.
    rewrite Hline. auto.
  - intros line Hline. unfold AwsCheck.config_profile, AwsCheck.credentials_profile.
    rewrite Hline. auto.
  - intros c rest Hc Hne.
    destruct (strip_keeps_first c rest Hc) as (r & E).
    unfold AwsCheck.config_profile, AwsCheck.credentials_profile.
    rewrite E, (startswith_other c "[" r Hne). auto.
  - intros w s. destruct (show_config_report w s) as (s' & E & Hp & _).
    exists s'. auto.
Qed.

Lemma show_config_extracts_profile_names_witness :
  all_space "  " = true /\ all_space nl = true
  /\ PyStr.occurs "[" "dev" = false /\ PyStr.occurs "]" "dev" = false
  /\ AwsCheck.config_profile ("  [profile dev]" +:+ nl) = Some "dev"
  /\ AwsCheck.credentials_profile ("  [dev]" +:+ nl) = Some "dev".
Proof.
  do 4 (split; [reflexivity |]).
  destruct (show_config_extracts_profile_names "dev" "  " nl
              eq_refl eq_refl eq_refl eq_refl) as (Hconfig & Hcred & _).
  split; [exact Hconfig | exact Hcred].
Defined.

(** C7 as stated fails in two ways.  A line with text after the bracketed
    name, none of it in brackets, does not give the name alone: the text
    is part of the profile that is printed.  And a line that does not
    start with ["["] contributes a profile when only whitespace precedes
    the bracket. *)
Lemma commented_or_indented_header_profile :
  PyStr.occurs "[" "dev" = false /\ PyStr.occurs "]" "dev" = false
  /\ PyStr.occurs "[" " # default" = false /\ PyStr.occurs "]" " # default" = false
  /\ AwsCheck.config_profile ("[profile dev] # default" +:+ nl) = Some "dev # default"
  /\ AwsCheck.credentials_profile ("[dev] # default" +:+ nl) = Some "dev # default"
  /\ file_report "~/.aws/config" AwsCheck.config_profile
       (Some ["[profile dev] # default" +:+ nl])
     = [Success "~/.aws/config exists"; Plain "  Profiles:"; Plain "  - dev # default"]
  /\ PyStr.startswith ("  [profile dev]" +:+ nl) "[" = false
  /\ AwsCheck.config_profile ("  [profile dev]" +:+ nl) = Some "dev".
Proof. repeat split; vm_compute; reflexivity. Qed.

(** ** The calendar *)

Ltac div_lia := Z.to_euclidean_division_equations; lia.

Lemma day_of_era_range z :
  0 <= z + 719468 - (z + 719468) / 146097 * 146097 < 146097.
Proof. div_lia. Qed.

Lemma year_of_era_range doe :
  0 <= doe < 146097 ->
  0 <= (doe - doe / 1460 + doe / 36524 - doe / 146096) / 365 <= 399.
Proof. intros H. div_lia. Qed.

Lemma day_of_year_range doe :
  0 <= doe < 146097 ->
  0 <= doe - (365 * ((doe - doe / 1460 + doe / 36524 - doe / 146096) / 365)
              + (doe - doe / 1460 + doe / 36524 - doe / 146096) / 365 / 4
              - (doe - doe / 1460 + doe / 36524 - doe / 146096) / 365 / 100) <= 365.
Proof. intros H. div_lia. Qed.

(** The date of a day number is a calendar date, and it is the date of
    that day. *)
Lemma civil_from_days_spec z y m d :
  PyDatetime.civil_from_days z = (y, m, d) ->
  1 <= m <= 12 /\ 1 <= d <= 31 /\ PyDatetime.days_from_civil y m d = z.
Proof.
  unfold PyDatetime.civil_from_days.
  pose proof (day_of_era_range z) as Hdoe.
  set (era := (z + 719468) / 146097) in *.
  set (doe := z + 719468 - era * 146097) in *.
  pose proof (year_of_era_range doe Hdoe) as Hyoe.
  pose proof (day_of_year_range doe Hdoe) as Hdoy.
  set (yoe := (doe - doe / 1460 + doe / 36524 - doe / 146096) / 365) in *.
  set (doy := doe - (365 * yoe + yoe / 4 - yoe / 100)) in *.
  assert (Hmp : 0 <= (5 * doy + 2) / 153 <= 11) by div_lia.
  set (mp := (5 * doy + 2) / 153) in *.
  intros [= <- <- <-].
  assert (Hd : 1 <= doy - (153 * mp + 2) / 5 + 1 <= 31) by (subst mp; div_lia).
  unfold PyDatetime.days_from_civil.
  destruct (Z.ltb_spec mp 10) as [Hlt | Hge].
  - destruct (Z.leb_spec (mp + 3) 2); [lia |].
    destruct (Z.ltb_spec 2 (mp + 3)); [| lia].
    replace (mp + 3 - 3) with mp by lia.
    replace ((yoe + era * 400) / 400) with era by div_lia.
    replace (yoe + era * 400 - era * 400) with yoe by lia.
    split; [lia |]. split; [exact Hd |]. subst doy doe. lia.
  - destruct (Z.leb_spec (mp - 9) 2); [| lia].
    destruct (Z.ltb_spec 2 (mp - 9)); [lia |].
    replace (mp - 9 + 9) with mp by lia.
    replace (yoe + era * 400 + 1 - 1) with (yoe + era * 400) by lia.
    replace ((yoe + era * 400) / 400) with era by div_lia.
    replace (yoe + era * 400 - era * 400) with yoe by lia.
    split; [lia |]. split; [exact Hd |]. subst doy doe. lia.
Qed.

(** Between [datetime.min] and [datetime.max] the year has four digits. *)
Lemma civil_from_days_year z y m d :
  -719162 <= z <= 2932896 ->
  PyDatetime.civil_from_days z = (y, m, d) ->
  1 <= y <= 9999.
Proof.
  intros Hz. unfold PyDatetime.civil_from_days.
  pose proof (day_of_era_range z) as Hdoe.
  assert (Hera : 0 <= (z + 719468) / 146097 <= 24) by div_lia.
  set (era := (z + 719468) / 146097) in *.
  set (doe := z + 719468 - era * 146097) in *.
  pose proof (year_of_era_range doe Hdoe) as Hyoe.
  pose proof (day_of_year_range doe Hdoe) as Hdoy.
  set (yoe := (doe - doe / 1460 + doe / 36524 - doe / 146096) / 365) in *.
  set (doy := doe - (365 * yoe + yoe / 4 - yoe / 100)) in *.
  assert (Hmp : 0 <= (5 * doy + 2) / 153 <= 11) by div_lia.
  assert (Hlow : era = 0 -> yoe = 0 -> 10 <= (5 * doy + 2) / 153).
  { intros He Hy. subst doy. rewrite Hy. subst doe. rewrite He.
    change (365 * 0 + 0 / 4 - 0 / 100) with 0. div_lia. }
  assert (Hhigh : era = 24 -> yoe = 399 -> (5 * doy + 2) / 153 < 10).
  { intros He Hy. subst doy. rewrite Hy. subst doe. rewrite He.
    change (365 * 399 + 399 / 4 - 399 / 100) with 145731. div_lia. }
  set (mp := (5 * doy + 2) / 153) in *.
  intros [= <- _ _].
  destruct (Z.ltb_spec mp 10) as [Hlt | Hge].
  - destruct (Z.leb_spec (mp + 3) 2); [lia |].
    split; [| lia].
    destruct (Z.eq_dec era 0) as [He |]; [| lia].
    destruct (Z.eq_dec yoe 0) as [Hy |]; [| lia].
    specialize (Hlow He Hy). lia.
  - destruct (Z.leb_spec (mp - 9) 2); [| lia].
    split; [lia |].
    destruct (Z.eq_dec era 24) as [He |]; [| lia].
    destruct (Z.eq_dec yoe 399) as [Hy |]; [| lia].
    specialize (Hhigh He Hy). lia.
Qed.

(** ** Decimal fields *)

Lemma digit_value_digit d :
  PyDatetime.digit_value (PyDatetime.digit d) = Some (d mod 10).
Proof.
  unfold PyDatetime.digit.
  assert (H : 0 <= d mod 10 < 10) by (apply Z.mod_pos_bound; lia).
  assert (E : d mod 10 = 0 \/ d mod 10 = 1 \/ d mod 10 = 2 \/ d mod 10 = 3
              \/ d mod 10 = 4 \/ d mod 10 = 5 \/ d mod 10 = 6 \/ d mod 10 = 7
              \/ d mod 10 = 8 \/ d mod 10 = 9) by lia.
  clear H.
  repeat (destruct E as [E | E]; [rewrite E; reflexivity |]).
  rewrite E; reflexivity.
Qed.

Lemma number_two n :
  0 <= n < 100 ->
  PyDatetime.number [PyDatetime.digit (n / 10); PyDatetime.digit n] 0 = Some n.
Proof.
  intros H. cbn [PyDatetime.number]. rewrite !digit_value_digit.
  f_equal. div_lia.
Qed.

Lemma digit_not_dash d : Ascii.eqb (PyDatetime.digit d) "-" = false.
Proof.
  unfold PyDatetime.digit.
  assert (H : 0 <= d mod 10 < 10) by (apply Z.mod_pos_bound; lia).
  assert (E : d mod 10 = 0 \/ d mod 10 = 1 \/ d mod 10 = 2 \/ d mod 10 = 3
              \/ d mod 10 = 4 \/ d mod 10 = 5 \/ d mod 10 = 6 \/ d mod 10 = 7
              \/ d mod 10 = 8 \/ d mod 10 = 9) by lia.
  clear H.
  repeat (destruct E as [E | E]; [rewrite E; reflexivity |]).
  rewrite E; reflexivity.
Qed.

(** The year is read back whatever its width. *)
Lemma read_year_text y rest :
  0 <= y < 10000 ->
  PyDatetime.read_year (PyDatetime.year_text y +:+ String "-" rest) 0 = Some (y, rest).
Proof.
  intros H. unfold PyDatetime.year_text, PyDatetime.pad2, PyDatetime.pad4.
  destruct (Z.ltb_spec y 10); [| destruct (Z.ltb_spec y 100); [| destruct (Z.ltb_spec y 1000)]];
    rewrite !append_cons, append_nil_l; cbn [PyDatetime.read_year];
    rewrite !digit_not_dash, !digit_value_digit, Ascii.eqb_refl;
    f_equal; f_equal; div_lia.
Qed.

(** Reading back what [strftime] wrote gives the instant, to the second. *)
Lemma read_timestamp_strftime t :
  PyDatetime.in_range t = true ->
  PyDatetime.read_timestamp (PyDatetime.strftime t) = Some (t / PyDatetime.US_PER_SECOND).
Proof.
  unfold PyDatetime.in_range.
  change PyDatetime.datetime_min with (-62135596800000000).
  change PyDatetime.datetime_max with 253402300799999999.
  intros [Hmin Hmax]%andb_prop. apply Z.leb_le in Hmin, Hmax.
  unfold PyDatetime.strftime, PyDatetime.US_PER_SECOND, PyDatetime.SECONDS_PER_DAY.
  set (secs := t / 1000000).
  assert (Hsecs : -62135596800 <= secs <= 253402300799) by (subst secs; div_lia).
  set (days := secs / 86400).
  set (sod := secs mod 86400).
  assert (Hsod : 0 <= sod < 86400) by (apply Z.mod_pos_bound; lia).
  assert (Hdays : -719162 <= days <= 2932896) by (subst days; div_lia).
  destruct (PyDatetime.civil_from_days days) as [[y m] d] eqn:E.
  destruct (civil_from_days_spec _ _ _ _ E) as (Hm & Hd & Hback).
  pose proof (civil_from_days_year _ _ _ _ Hdays E) as Hy.
  unfold PyDatetime.read_timestamp, PyDatetime.pad2.
  rewrite !append_cons, !append_nil_l.
  rewrite (read_year_text y) by lia.
  rewrite (number_two m) by lia.
  rewrite (number_two d) by lia.
  rewrite (number_two (sod / 3600)) by div_lia.
  rewrite (number_two (sod mod 3600 / 60)) by div_lia.
  rewrite (number_two (sod mod 60)) by div_lia.
  f_equal. rewrite Hback. unfold PyDatetime.SECONDS_PER_DAY.
  subst days sod. div_lia.
Qed.

(** ** The time window *)

Lemma get_time_range_eq hours w s :
  AwsMetrics.get_time_range hours w s =
  (if representable w hours
   then inr (PyDatetime.strftime (window_start w hours), PyDatetime.strftime (utcnow w))
   else inl OverflowError, s).
Proof.
  unfold AwsMetrics.get_time_range, representable, window_start, bind, ask, lift, ret,
    PyDatetime.timedelta_hours, PyDatetime.sub.
  destruct (Z.abs (hours / 24) <=? 999999999); [| reflexivity].
  cbn [andb].
  destruct (PyDatetime.in_range (utcnow w - hours * 3600 * PyDatetime.US_PER_SECOND));
    reflexivity.
Qed.

Lemma in_range_bounds t :
  PyDatetime.in_range t = true <-> -62135596800000000 <= t <= 253402300799999999.
Proof.
  unfold PyDatetime.in_range.
  change PyDatetime.datetime_min with (-62135596800000000).
  change PyDatetime.datetime_max with 253402300799999999.
  rewrite andb_true_iff, !Z.leb_le. reflexivity.
Qed.

Lemma representable_in_range w hours :
  PyDatetime.in_range (utcnow w) = true ->
  PyDatetime.in_range (window_start w hours) = true ->
  representable w hours = true.
Proof.
  unfold representable, window_start, PyDatetime.US_PER_SECOND.
  intros Hnow%in_range_bounds Hstart. rewrite Hstart, andb_true_r.
  apply in_range_bounds in Hstart. apply Z.leb_le. div_lia.
Qed.

(** C4, as the code has it. When the current time and the start of the
    window are [datetime] values, [get_time_range] returns two timestamps
    in the format [%Y-%m-%dT%H:%M:%SZ] (the year without padding) that lie
    exactly [hours] hours apart; the start is before the end exactly when
    [hours] is positive. *)
Theorem get_time_range_hour_delta (w : World) (s : State) (hours : Z) :
  PyDatetime.in_range (utcnow w) = true ->
  PyDatetime.in_range (window_start w hours) = true ->
  exists start_time end_time a b,
    AwsMetrics.get_time_range hours w s = (inr (start_time, end_time), s)
    /\ PyDatetime.read_timestamp start_time = Some a
    /\ PyDatetime.read_timestamp end_time = Some b
    /\ b - a = hours * 3600
    /\ (a < b <-> 0 < hours).
Proof.
  intros Hnow Hstart.
  rewrite get_time_range_eq, (representable_in_range w hours Hnow Hstart).
  eexists _, _, _, _. split; [reflexivity |].
  split; [apply read_timestamp_strftime, Hstart |].
  split; [apply read_timestamp_strftime, Hnow |].
  unfold window_start, PyDatetime.US_PER_SECOND.
  assert (E : (utcnow w - hours * 3600 * 1000000) / 1000000
              = utcnow w / 1000000 - hours * 3600) by div_lia.
  rewrite E. lia.
Qed.

Lemma get_time_range_hour_delta_witness :
  PyDatetime.in_range (utcnow Scenarios.healthy) = true
  /\ PyDatetime.in_range (window_start Scenarios.healthy 24) = true
  /\ PyDatetime.in_range (window_start Scenarios.healthy 9100000) = true
  /\ (exists start_time end_time a b,
        AwsMetrics.get_time_range 24 Scenarios.healthy Scenarios.initial
        = (inr (start_time, end_time), Scenarios.initial)
        /\ PyDatetime.read_timestamp start_time = Some a
        /\ PyDatetime.read_timestamp end_time = Some b
        /\ b - a = 24 * 3600
        /\ (a < b <-> 0 < 24))
  /\ (exists a b,
        AwsMetrics.get_time_range 9100000 Scenarios.healthy Scenarios.initial
        = (inr ("988-09-19T16:09:30Z", "2026-11-04T08:09:30Z"), Scenarios.initial)
        /\ PyDatetime.read_timestamp "988-09-19T16:09:30Z" = Some a
        /\ PyDatetime.read_timestamp "2026-11-04T08:09:30Z" = Some b
        /\ b - a = 9100000 * 3600).
Proof.
  split; [reflexivity |]. split; [reflexivity |]. split; [reflexivity |]. split.
  - apply (get_time_range_hour_delta Scenarios.healthy Scenarios.initial 24); reflexivity.
  - destruct (get_time_range_hour_delta Scenarios.healthy Scenarios.initial 9100000
                eq_refl eq_refl) as (start_time & end_time & a & b & E & Ha & Hb & Hd & _).
    assert (E' : AwsMetrics.get_time_range 9100000 Scenarios.healthy Scenarios.initial
                 = (inr ("988-09-19T16:09:30Z", "2026-11-04T08:09:30Z"), Scenarios.initial))
      by (vm_compute; reflexivity).
    rewrite E' in E. injection E as <- <-. exists a, b. auto.
Defined.

(** C4 as stated fails for a window of zero hours: the two timestamps are
    the same, so the start is not before the end. *)
Lemma get_time_range_zero_hours_not_before :
  exists start_time end_time a b,
    AwsMetrics.get_time_range 0 Scenarios.healthy Scenarios.initial
    = (inr (start_time, end_time), Scenarios.initial)
    /\ PyDatetime.read_timestamp start_time = Some a
    /\ PyDatetime.read_timestamp end_time = Some b
    /\ ~ a < b.
Proof.
  exists "2026-11-04T08:09:30Z", "2026-11-04T08:09:30Z", 1793779770, 1793779770.
  split; [vm_compute; reflexivity |].
  split; [vm_compute; reflexivity |].
  split; [vm_compute; reflexivity |]. lia.
Qed.

(** ** The [--dimension] flag *)

Lemma split1_cases sep d :
  (PyStr.split1 sep d = [d] /\ PyStr.occurs sep d = false)
  \/ (exists name value,
        PyStr.split1 sep d = [name; value]
        /\ d = name +:+ String sep value
        /\ PyStr.occurs sep name = false).
Proof.
  induction d as [| c d IH]; [left; auto |].
  cbn [PyStr.split1 PyStr.occurs].
  destruct (Ascii.eqb_spec c sep) as [-> | Hne].
  - right. exists "", d. auto.
  - destruct IH as [[-> Hno] | (name & value & -> & -> & Hno)].
    + left. auto.
    + right. exists (String c name), value. cbn [PyStr.occurs].
      rewrite Hno. destruct (Ascii.eqb_spec c sep); [congruence |]. auto.
Qed.

Lemma split1_name_value sep name value :
  PyStr.occurs sep name = false ->
  PyStr.split1 sep (name +:+ String sep value) = [name; value].
Proof.
  induction name as [| c name IH]; cbn [PyStr.occurs].
  - intros _. rewrite append_nil_l. cbn [PyStr.split1]. now rewrite Ascii.eqb_refl.
  - intros [Hc Hno]%orb_false_elim. rewrite append_cons. cbn [PyStr.split1].
    rewrite Hc, (IH Hno). reflexivity.
Qed.

Lemma parse_dimension_name_value d name value :
  name_value d name value ->
  AwsMetrics.parse_dimension (Some d) = (Some name, Some value).
Proof.
  intros (-> & Hn & Hv & Hno). unfold AwsMetrics.parse_dimension.
  destruct name as [| c name]; [congruence |].
  rewrite append_cons.
  change (String c (name +:+ "=" +:+ value))
    with (String c name +:+ String "=" value).
  now rewrite (split1_name_value "=" (String c name) value Hno).
Qed.

(** Any other value leaves at least one of [dim_name], [dim_value] unset
    or empty. *)
Lemma parse_dimension_other d :
  (forall name value, ~ name_value d name value) ->
  match AwsMetrics.parse_dimension (Some d) with
  | (Some (String _ _), Some (String _ _)) => False
  | _ => True
  end.
Proof.
  intros Hnot. unfold AwsMetrics.parse_dimension.
  destruct d as [| c d]; [exact I |].
  destruct (split1_cases "=" (String c d)) as [[-> _] | (name & value & -> & E & Hno)];
    [exact I |].
  destruct name as [| a name]; [exact I |].
  destruct value as [| b value]; [exact I |].
  apply (Hnot (String a name) (String b value)).
  repeat split; [exact E | discriminate | discriminate | exact Hno].
Qed.

Lemma get_metric_without_dimension metric_name namespace dim_name dim_value hours period w s :
  match dim_name, dim_value with
  | Some (String _ _), Some (String _ _) => False
  | _, _ => True
  end ->
  AwsMetrics.get_metric metric_name namespace dim_name dim_value hours period w s
  = AwsMetrics.get_metric metric_name namespace None None hours period w s.
Proof.
  intros H. unfold AwsMetrics.get_metric.
  destruct dim_name as [[| a name] |], dim_value as [[| b value] |];
    try reflexivity; contradiction.
Qed.

Lemma get_metric_calls metric_name namespace dim_name dim_value hours period w s :
  representable w hours = true ->
  calls (snd (AwsMetrics.get_metric metric_name namespace dim_name dim_value hours period w s))
  = (calls s
     ++ [("aws" :: statistics_query w metric_name namespace hours period
            ++ match dim_name, dim_value with
               | Some (String _ _ as name), Some (String _ _ as value) =>
                   ["--dimensions"; "Name=" +:+ name +:+ ",Value=" +:+ value]
               | _, _ => []
               end, 60)])%list.
Proof.
  intros Hrep. unfold AwsMetrics.get_metric.
  unfold bind at 1. unfold print_header at 1, emit at 1.
  unfold bind at 1. rewrite get_time_range_eq, Hrep.
  destruct dim_name as [[| a name] |], dim_value as [[| b value] |];
    run_monad; rewrite metrics_run_aws_command;
    (destruct (AwsMetrics.classify _) as [e | r]; [reflexivity |]);
    destruct (AwsMetrics.success r); reflexivity.
Qed.

(** C9. In the [get] command the [--dimension] flag changes the query that
    is issued exactly when its value has the form [name=value], split at the
    first ["="], with both parts non-empty: then the two arguments
    [--dimensions Name=name,Value=value] are appended.  With any other value
    (no ["="], an empty name or an empty value) the whole run is the run
    without the flag: same arguments, same printed lines, same exit code. *)
Theorem get_dimension_used_iff_name_and_value
    (w : World) (s : State) (metric namespace : string) (hours period : Z) :
  (forall d, (forall name value, ~ name_value d name value) ->
     AwsMetrics.main (AwsMetrics.Get metric namespace (Some d) hours period) w s
     = AwsMetrics.main (AwsMetrics.Get metric namespace None hours period) w s)
  /\ (representable w hours = true ->
      calls (snd (AwsMetrics.main (AwsMetrics.Get metric namespace None hours period) w s))
      = (calls s ++ [("aws" :: statistics_query w metric namespace hours period, 60)])%list
      /\ forall d name value, name_value d name value ->
           calls (snd (AwsMetrics.main
                         (AwsMetrics.Get metric namespace (Some d) hours period) w s))
           = (calls s
              ++ [("aws" :: statistics_query w metric namespace hours period
                     ++ ["--dimensions"; "Name=" +:+ name +:+ ",Value=" +:+ value], 60)])%list).
Proof.
  split.
  - intros d Hnot. unfold AwsMetrics.main.
    pose proof (parse_dimension_other d Hnot) as H.
    destruct (AwsMetrics.parse_dimension (Some d)) as [dim_name dim_value].
    change (AwsMetrics.parse_dimension None) with (@None string, @None string).
    cbv beta iota. apply get_metric_without_dimension.
    destruct dim_name as [[| a name] |], dim_value as [[| b value] |]; auto.
  - intros Hrep. split.
    + unfold AwsMetrics.main.
      change (AwsMetrics.parse_dimension None) with (@None string, @None string).
      cbv beta iota. rewrite (get_metric_calls _ _ _ _ _ _ _ _ Hrep), app_nil_r.
      reflexivity.
    + intros d name value Hd. unfold AwsMetrics.main.
      rewrite (parse_dimension_name_value d name value Hd). cbv beta iota.
      rewrite (get_metric_calls _ _ _ _ _ _ _ _ Hrep).
      destruct Hd as (_ & Hn & Hv & _).
      destruct name as [| a name]; [congruence |].
      destruct value as [| b value]; [congruence |]. reflexivity.
Qed.

Lemma name_value_examples :
  name_value "InstanceId=i-0abc" "InstanceId" "i-0abc"
  /\ (forall name value, ~ name_value "Name=" name value)
  /\ (forall name value, ~ name_value "InstanceId" name value)
  /\ (forall name value, ~ name_value "=i-0abc" name value).
Proof.
  split; [repeat split; discriminate |].
  split; [| split]; intros name value (E & Hn & Hv & Hno).
  - assert (H : PyStr.split1 "=" "Name=" = [name; value])
      by (rewrite E; apply split1_name_value, Hno).
    cbn in H. congruence.
  - assert (H : PyStr.split1 "=" "InstanceId" = [name; value])
      by (rewrite E; apply split1_name_value, Hno).
    cbn in H. congruence.
  - assert (H : PyStr.split1 "=" "=i-0abc" = [name; value])
      by (rewrite E; apply split1_name_value, Hno).
    cbn in H. congruence.
Qed.

Lemma get_dimension_used_iff_name_and_value_witness :
  AwsMetrics.main (AwsMetrics.Get "CPUUtilization" "AWS/EC2" (Some "Name=") 1 300)
    Scenarios.healthy Scenarios.initial
  = AwsMetrics.main (AwsMetrics.Get "CPUUtilization" "AWS/EC2" None 1 300)
      Scenarios.healthy Scenarios.initial
  /\ calls (snd (AwsMetrics.main
                   (AwsMetrics.Get "CPUUtilization" "AWS/EC2" (Some "InstanceId=i-0abc") 1 300)
                   Scenarios.healthy Scenarios.initial))
     = [("aws" :: statistics_query Scenarios.healthy "CPUUtilization" "AWS/EC2" 1 300
           ++ ["--dimensions"; "Name=InstanceId,Value=i-0abc"], 60)].
Proof.
  destruct (get_dimension_used_iff_name_and_value Scenarios.healthy Scenarios.initial
              "CPUUtilization" "AWS/EC2" 1 300) as (Hignored & Hused).
  split.
  - apply Hignored, name_value_examples.
  - destruct (Hused eq_refl) as (_ & H).
    apply (H "InstanceId=i-0abc" "InstanceId" "i-0abc"), name_value_examples.
Defined.

(** ** Exporting metrics *)





(** ** Where a [JSONDecodeError] can go *)

Create HintDb contained discriminated.

Lemma contained_ret {A} w (a : A) : contained w (ret a).
Proof. intros s. discriminate. Qed.

Lemma contained_emit w l : contained w (emit l).
Proof. intros s. discriminate. Qed.

Lemma contained_ask {A} w (f : World -> A) : contained w (ask f).
Proof. intros s. discriminate. Qed.

Lemma contained_bind {A B} w (c : M A) (k : A -> M B) :
  contained w c -> (forall a, contained w (k a)) -> contained w (bind c k).
Proof.
  intros Hc Hk s. unfold bind. specialize (Hc s).
  destruct (c w s) as [[e | a] s1]; [| apply Hk].
  cbn in *. intros [= ->]. now apply Hc.
Qed.

Lemma contained_if {A} w (b : bool) (c1 c2 : M A) :
  contained w c1 -> contained w c2 -> contained w (if b then c1 else c2).
Proof. destruct b; auto. Qed.

(** A [try] whose handlers catch [JSONDecodeError] and let none out
    contains it, whatever its body does. *)
Lemma contained_try_except {A} w (body : M A) handler :
  handler JSONDecodeError <> None ->
  (forall e h, handler e = Some h -> contained w h) ->
  contained w (try_except body handler).
Proof.
  intros Hcatch Hh s. unfold try_except.
  destruct (body w s) as [[e | a] s1]; [| discriminate].
  destruct (handler e) as [h |] eqn:E.
  - apply (Hh e h E).
  - cbn. intros [= ->]. congruence.
Qed.

Lemma contained_on_decode_error w (body : M unit) message :
  contained w (try_except body (AwsCheck.on_decode_error message)).
Proof.
  apply contained_try_except; [discriminate |].
  intros [] h [= <-]. apply contained_emit.
Qed.

Lemma contained_check_run w args timeout :
  handled w -> contained w (AwsCheck.run_aws_command args timeout).
Proof.
  intros Hw s. rewrite check_run_aws_command.
  destruct (check_classify_handled w (calls s) ("aws" :: args) timeout Hw) as (r & -> & _).
  discriminate.
Qed.

Lemma contained_metrics_run w args timeout :
  handled w -> contained w (AwsMetrics.run_aws_command args timeout).
Proof.
  intros Hw s. rewrite metrics_run_aws_command.
  destruct (metrics_classify_handled w (calls s) ("aws" :: args) timeout Hw) as (r & -> & _).
  discriminate.
Qed.

Lemma contained_get_time_range w hours : contained w (AwsMetrics.get_time_range hours).
Proof. intros s. rewrite get_time_range_eq. destruct (representable w hours); discriminate. Qed.

#[local] Hint Resolve contained_ret contained_emit contained_ask contained_bind contained_if
  contained_check_run contained_metrics_run contained_get_time_range : contained.

Lemma contained_discover_services w :
  handled w -> contained w AwsCheck.discover_services.
Proof.
  intros Hw. unfold AwsCheck.discover_services, print_header, print, print_error.
  repeat (apply contained_bind; [auto with contained | intros ?]);
    repeat first [apply contained_if | apply contained_emit
                  | apply contained_on_decode_error].
Qed.

Lemma contained_check_identity w :
  handled w -> contained w AwsCheck.check_identity.
Proof.
  intros Hw. unfold AwsCheck.check_identity, print_header, print, print_error.
  apply contained_bind; [auto with contained | intros _].
  apply contained_bind; [auto with contained | intros result].
  apply contained_if.
  - repeat (apply contained_bind; [auto with contained | intros ?]). apply contained_ret.
  - apply contained_try_except; [discriminate |].
    intros [] h [= <-]. auto with contained.
Qed.

Lemma contained_get_ecs_metrics w cluster service hours :
  handled w -> contained w (AwsMetrics.get_ecs_metrics cluster service hours).
Proof.
  intros Hw. unfold AwsMetrics.get_ecs_metrics, print_header, print, print_error, print_info.
  apply contained_bind; [auto with contained | intros _].
  apply contained_bind; [auto with contained | intros [start_time end_time]].
  assert (Hlist : contained w
            (print "Services in cluster:" ;;
             result <- AwsMetrics.run_aws_command
               ["ecs"; "list-services"; "--cluster"; cluster;
                "--query"; "serviceArns[*]"; "--output"; "json"]
               AwsMetrics.DEFAULT_TIMEOUT ;;
             (if AwsMetrics.success result then
                try_except
                  (services <- loads (AwsMetrics.stdout result) ;;
                   svc_arns <- lift (iterate services) ;;
                   for_each svc_arns (fun svc_arn =>
                     svc_name <- lift (split_last svc_arn) ;;
                     print ("  - " +:+ svc_name)))
                  (fun e =>
                     match e with
                     | JSONDecodeError => Some (print_error "Failed to parse services response")
                     | _ => None
                     end)
              else print_error ("Failed to list services: " +:+ AwsMetrics.stderr result)) ;;
             print "" ;;
             print ("Usage: aws_metrics.py ecs " +:+ cluster +:+ " <service-name>") ;;
             ret 0)).
  { unfold print, print_error.
    apply contained_bind; [auto with contained | intros _].
    apply contained_bind; [auto with contained | intros result].
    apply contained_bind; [| auto with contained].
    apply contained_if; [| auto with contained].
    apply contained_try_except; [discriminate |].
    intros [] h [= <-]. auto with contained. }
  destruct service as [[| c service] |]; try exact Hlist.
  apply contained_bind; [auto with contained | intros _].
  apply contained_bind; [auto with contained | intros _].
  apply contained_bind; [| auto with contained].
  cbn [for_each]. unfold print, print_warning.
  repeat (apply contained_bind; [auto with contained | intros ?]);
    auto 10 with contained.
Qed.

(** ** The identity check *)

Lemma check_identity_eq w s res s' :
  handled w ->
  AwsCheck.check_identity w s = (res, s') ->
  files s' = files s
  /\ if exit_zero (outcome w s identity_query 30) then
       match json_loads w (output_of (outcome w s identity_query 30)) with
       | None =>
           res = inr false
           /\ printed s' = (printed s ++ [Header "AWS Identity";
                                          Error "Invalid JSON response from AWS CLI"])%list
           /\ calls s' = (calls s ++ [("aws" :: identity_query, 30)])%list
       | Some (JObj _) =>
           res = inr true
           /\ calls s' = (calls s ++ [("aws" :: identity_query, 30);
                                      ("aws" :: region_query, 30)])%list
       | Some _ =>
           res = inl AttributeError
           /\ calls s' = (calls s ++ [("aws" :: identity_query, 30)])%list
       end
     else
       res = inr false
       /\ calls s' = (calls s ++ [("aws" :: identity_query, 30)])%list.
Proof.
  intros Hw. unfold AwsCheck.check_identity, outcome, identity_query, region_query.
  run_monad. unfold AwsCheck.DEFAULT_TIMEOUT. rewrite check_run_aws_command.
  cbn [calls add_line].
  destruct (check_classify_handled w (calls s) ("aws" :: identity_query) 30 Hw)
    as (r & Er & Hok & Hout).
  unfold identity_query in *. rewrite Er, <- Hok, <- Hout.
  destruct (AwsCheck.success r); cbn [negb].
  - unfold try_except, loads, fmt. run_monad.
    destruct (json_loads w (AwsCheck.stdout r)) as [v |].
    + destruct v; cbn [get]; try (intros [= <- <-]; cbn; auto).
      destruct (environ w "AWS_PROFILE") as [[| c p] |]; run_monad;
        rewrite !check_run_aws_command;
        match goal with |- context [AwsCheck.classify (subprocess_run w ?h ?a ?t)] =>
          destruct (check_classify_handled w h a t Hw) as (r2 & -> & _) end;
        intros [= <- <-]; cbn; rewrite <- app_assoc; auto.
    + intros [= <- <-]. cbn. rewrite <- app_assoc. auto.
  - intros [= <- <-]. cbn. auto.
Qed.

(** ** Listings that cannot be parsed *)

(** One listing of [discover_services] in a world whose successful output
    is never JSON: the error of the listing is printed and the run goes
    on. *)
Lemma garbled_listing {B} w (Hw : handled w) (Hg : garbled w)
    query (rest : json -> M unit) parse_message fail_message (k : unit -> M B) s :
  bind (AwsCheck.run_aws_command query 30)
    (fun result =>
       bind (if AwsCheck.success result
             then try_except (bind (loads (AwsCheck.stdout result)) rest)
                    (AwsCheck.on_decode_error parse_message)
             else print_error fail_message) k) w s
  = k tt w (add_line (Error (if exit_zero (outcome w s query 30)
                             then parse_message else fail_message))
              (add_call ("aws" :: query, 30) s)).
Proof.
  unfold bind at 1. rewrite check_run_aws_command. unfold outcome.
  destruct (subprocess_run w (calls s) ("aws" :: query) 30) as [e | p] eqn:E.
  - destruct (Hw _ _ _ _ E) as [-> | ->]; reflexivity.
  - cbn [AwsCheck.classify AwsCheck.success exit_zero AwsCheck.stdout].
    destruct (Z.eqb_spec (cp_returncode p) 0) as [Hz | Hnz]; [| reflexivity].
    unfold bind at 1. unfold try_except, bind at 1, loads.
    rewrite (Hg _ _ _ _ E Hz). reflexivity.
Qed.

Lemma garbled_last_listing w (Hw : handled w) (Hg : garbled w)
    query (rest : json -> M unit) parse_message fail_message s :
  bind (AwsCheck.run_aws_command query 30)
    (fun result =>
       if AwsCheck.success result
       then try_except (bind (loads (AwsCheck.stdout result)) rest)
              (AwsCheck.on_decode_error parse_message)
       else print_error fail_message) w s
  = (inr tt, add_line (Error (if exit_zero (outcome w s query 30)
                             then parse_message else fail_message))
               (add_call ("aws" :: query, 30) s)).
Proof.
  unfold bind at 1. rewrite check_run_aws_command. unfold outcome.
  destruct (subprocess_run w (calls s) ("aws" :: query) 30) as [e | p] eqn:E.
  - destruct (Hw _ _ _ _ E) as [-> | ->]; reflexivity.
  - cbn [AwsCheck.classify AwsCheck.success exit_zero AwsCheck.stdout].
    destruct (Z.eqb_spec (cp_returncode p) 0) as [Hz | Hnz]; [| reflexivity].
    unfold try_except, bind at 1, loads.
    rewrite (Hg _ _ _ _ E Hz). reflexivity.
Qed.

Lemma discover_services_garbled w s :
  handled w -> garbled w ->
  exists s',
    AwsCheck.discover_services w s = (inr tt, s')
    /\ printed s' = (printed s ++ discovery_errors (probes w (calls s) 30 discovery_queries))%list
    /\ calls s' = (calls s ++ map (fun q => ("aws" :: q, 30)) discovery_queries)%list
    /\ files s' = files s.
Proof.
  intros Hw Hg. unfold AwsCheck.discover_services, AwsCheck.DEFAULT_TIMEOUT.
  unfold print_header at 1. rewrite bind_emit.
  unfold print at 1. rewrite bind_emit.
  rewrite (garbled_listing w Hw Hg).
  unfold print at 1. rewrite bind_emit. unfold print at 1. rewrite bind_emit.
  rewrite (garbled_listing w Hw Hg).
  unfold print at 1. rewrite bind_emit. unfold print at 1. rewrite bind_emit.
  rewrite (garbled_listing w Hw Hg).
  unfold print at 1. rewrite bind_emit. unfold print at 1. rewrite bind_emit.
  rewrite (garbled_listing w Hw Hg).
  unfold print at 1. rewrite bind_emit. unfold print at 1. rewrite bind_emit.
  rewrite (garbled_last_listing w Hw Hg).
  eexists. split; [reflexivity |].
  unfold outcome. cbn [printed calls files add_line add_call probes discovery_queries
                       discovery_errors map].
  rewrite <- !app_assoc. cbn [app]. auto.
Qed.

Lemma get_ecs_metrics_unparsable w s cluster hours :
  representable w hours = true ->
  exit_zero (outcome w s (services_query cluster) 60) = true ->
  json_loads w (output_of (outcome w s (services_query cluster) 60)) = None ->
  exists s',
    AwsMetrics.get_ecs_metrics cluster None hours w s = (inr 0, s')
    /\ printed s' =
       (printed s ++ [Header ("ECS Metrics: " +:+ cluster);
                      Plain "Services in cluster:";
                      Error "Failed to parse services response";
                      Plain "";
                      Plain ("Usage: aws_metrics.py ecs " +:+ cluster +:+ " <service-name>")])%list.
Proof.
  intros Hrep. unfold outcome, services_query, AwsMetrics.get_ecs_metrics.
  unfold bind at 1. unfold print_header at 1, emit at 1.
  unfold bind at 1. rewrite get_time_range_eq, Hrep.
  run_monad. unfold AwsMetrics.DEFAULT_TIMEOUT. rewrite metrics_run_aws_command.
  cbn [calls add_line].
  destruct (subprocess_run w (calls s) _ 60) as [e | p]; [discriminate |].
  cbn [exit_zero output_of AwsMetrics.classify AwsMetrics.success AwsMetrics.stdout].
  intros -> Hloads. unfold try_except, loads. run_monad. rewrite Hloads.
  eexists. split; [reflexivity |]. cbn. rewrite <- !app_assoc. reflexivity.
Qed.

(** One listing of [discover_services] in a world where none of its
    listings can be used. *)
Lemma unlisted_listing {B} w (Hw : handled w) (Hu : unlisted w)
    query (rest : json -> M unit) parse_message fail_message (k : unit -> M B) s :
  In query discovery_queries ->
  bind (AwsCheck.run_aws_command query 30)
    (fun result =>
       bind (if AwsCheck.success result
             then try_except (bind (loads (AwsCheck.stdout result)) rest)
                    (AwsCheck.on_decode_error parse_message)
             else print_error fail_message) k) w s
  = k tt w (add_line (Error (if exit_zero (outcome w s query 30)
                             then parse_message else fail_message))
              (add_call ("aws" :: query, 30) s)).
Proof.
  intros Hin. unfold bind at 1. rewrite check_run_aws_command. unfold outcome.
  destruct (subprocess_run w (calls s) ("aws" :: query) 30) as [e | p] eqn:E.
  - destruct (Hw _ _ _ _ E) as [-> | ->]; reflexivity.
  - cbn [AwsCheck.classify AwsCheck.success exit_zero AwsCheck.stdout].
    destruct (Z.eqb_spec (cp_returncode p) 0) as [Hz | Hnz]; [| reflexivity].
    unfold bind at 1. unfold try_except, bind at 1, loads.
    rewrite (Hu _ _ _ Hin E Hz). reflexivity.
Qed.

Lemma unlisted_last_listing w (Hw : handled w) (Hu : unlisted w)
    query (rest : json -> M unit) parse_message fail_message s :
  In query discovery_queries ->
  bind (AwsCheck.run_aws_command query 30)
    (fun result =>
       if AwsCheck.success result
       then try_except (bind (loads (AwsCheck.stdout result)) rest)
              (AwsCheck.on_decode_error parse_message)
       else print_error fail_message) w s
  = (inr tt, add_line (Error (if exit_zero (outcome w s query 30)
                             then parse_message else fail_message))
               (add_call ("aws" :: query, 30) s)).
Proof.
  intros Hin. unfold bind at 1. rewrite check_run_aws_command. unfold outcome.
  destruct (subprocess_run w (calls s) ("aws" :: query) 30) as [e | p] eqn:E.
  - destruct (Hw _ _ _ _ E) as [-> | ->]; reflexivity.
  - cbn [AwsCheck.classify AwsCheck.success exit_zero AwsCheck.stdout].
    destruct (Z.eqb_spec (cp_returncode p) 0) as [Hz | Hnz]; [| reflexivity].
    unfold try_except, bind at 1, loads.
    rewrite (Hu _ _ _ Hin E Hz). reflexivity.
Qed.

(** When none of its listings can be used, [discover_services] prints
    one error per listing and returns. *)
Lemma discover_services_unlisted w s :
  handled w -> unlisted w ->
  exists s',
    AwsCheck.discover_services w s = (inr tt, s')
    /\ printed s' = (printed s ++ discovery_errors (probes w (calls s) 30 discovery_queries))%list
    /\ calls s' = (calls s ++ map (fun q => ("aws" :: q, 30)) discovery_queries)%list
    /\ files s' = files s.
Proof.
  intros Hw Hu. unfold AwsCheck.discover_services, AwsCheck.DEFAULT_TIMEOUT.
  unfold print_header at 1. rewrite bind_emit.
  unfold print at 1. rewrite bind_emit.
  rewrite (unlisted_listing w Hw Hu) by (cbn; auto 10).
  unfold print at 1. rewrite bind_emit. unfold print at 1. rewrite bind_emit.
  rewrite (unlisted_listing w Hw Hu) by (cbn; auto 10).
  unfold print at 1. rewrite bind_emit. unfold print at 1. rewrite bind_emit.
  rewrite (unlisted_listing w Hw Hu) by (cbn; auto 10).
  unfold print at 1. rewrite bind_emit. unfold print at 1. rewrite bind_emit.
  rewrite (unlisted_listing w Hw Hu) by (cbn; auto 10).
  unfold print at 1. rewrite bind_emit. unfold print at 1. rewrite bind_emit.
  rewrite (unlisted_last_listing w Hw Hu) by (cbn; auto 10).
  eexists. split; [reflexivity |].
  unfold outcome. cbn [printed calls files add_line add_call probes discovery_queries
                       discovery_errors map].
  rewrite <- !app_assoc. cbn [app]. auto.
Qed.

Lemma garbled_unlisted w : garbled w -> unlisted w.
Proof. intros Hg h query p _ E Hz. exact (Hg _ _ _ _ E Hz). Qed.

(** ** Exit codes of the metrics tool *)










(** ** Exit codes of the check tool *)

Lemma check_cli_installed_eq w s res s' :
  handled w ->
  AwsCheck.check_cli_installed w s = (res, s') ->
  res = inr (installed w (calls s))
  /\ calls s' = (if AwsCheck.nonempty (which_aws w) then after_installation (calls s)
                 else calls s)
  /\ files s' = files s.
Proof.
  intros Hw. unfold AwsCheck.check_cli_installed, installed, after_installation, version_query.
  run_monad. unfold AwsCheck.DEFAULT_TIMEOUT.
  destruct (which_aws w) as [[| c path] |]; cbn [AwsCheck.nonempty andb];
    try (intros [= <- <-]; auto).
  rewrite check_run_aws_command. cbn [calls add_line].
  destruct (check_classify_handled w (calls s) ["aws"; "--version"] 30 Hw)
    as (r & -> & <- & _).
  destruct (AwsCheck.success r); intros [= <- <-]; auto.
Qed.







(** ** The sample worlds *)

Lemma healthy_handled : handled Scenarios.healthy.
Proof. intros h argv t e H. discriminate. Qed.

Lemma chatty_handled : handled Scenarios.chatty.
Proof. intros h argv t e H. discriminate. Qed.

Lemma stalled_handled : handled Scenarios.stalled.
Proof. intros h argv t e [= <-]. auto. Qed.

Lemma denied_handled : handled Scenarios.denied.
Proof.
  intros h argv t e H. cbn in H.
  repeat match type of H with
         | match ?x with _ => _ end = _ => destruct x
         | (if ?x then _ else _) = _ => destruct x
         end; discriminate.
Qed.

Lemma chatty_garbled : garbled Scenarios.chatty.
Proof. intros h argv t p [= <-] _. reflexivity. Qed.

Lemma run_aws_command_success_iff_returncode_zero_witness :
  (exists r s', AwsCheck.run_aws_command ["--version"] 30 Scenarios.stalled Scenarios.initial
                = (inr r, s')
                /\ AwsCheck.success r = false /\ AwsCheck.returncode r = -1)
  /\ (exists r s', AwsMetrics.run_aws_command ["--version"] 30 Scenarios.stalled
                     Scenarios.initial = (inr r, s')
                   /\ AwsMetrics.success r = false /\ AwsMetrics.returncode r = -1).
Proof.
  destruct (run_aws_command_success_iff_returncode_zero Scenarios.stalled Scenarios.initial
              ["--version"] 30) as (_ & _ & _ & H).
  apply H. left. reflexivity.
Defined.

Lemma run_aws_command_timeout_and_missing_binary_witness :
  AwsCheck.run_aws_command ["--version"] 30 Scenarios.no_cli Scenarios.initial =
    (inr {| AwsCheck.success := false; AwsCheck.stdout := "";
            AwsCheck.stderr := "AWS CLI not found"; AwsCheck.returncode := -1 |},
     add_call (["aws"; "--version"], 30) Scenarios.initial)
  /\ AwsMetrics.run_aws_command ["--version"] 30 Scenarios.stalled Scenarios.initial =
    (inr {| AwsMetrics.success := false; AwsMetrics.stdout := "";
            AwsMetrics.stderr := "Command timed out"; AwsMetrics.returncode := -1 |},
     add_call (["aws"; "--version"], 30) Scenarios.initial).
Proof.
  split.
  - apply (run_aws_command_timeout_and_missing_binary Scenarios.no_cli Scenarios.initial
             ["--version"] 30). reflexivity.
  - apply (run_aws_command_timeout_and_missing_binary Scenarios.stalled Scenarios.initial
             ["--version"] 30). reflexivity.
Defined.

Lemma check_permissions_true_iff_required_pass_witness :
  handled Scenarios.denied
  /\ exists s',
       AwsCheck.check_permissions Scenarios.denied Scenarios.initial = (inr false, s').
Proof.
  split; [exact denied_handled |].
  destruct (check_permissions_true_iff_required_pass Scenarios.denied Scenarios.initial
              denied_handled) as (_ & _ & (b & s' & E & Hb) & _).
  exists s'. rewrite E. destruct b; [| reflexivity].
  destruct Hb as [Hb _]. specialize (Hb eq_refl).
  apply Forall_inv in Hb. discriminate Hb.
Defined.





(** * Further properties *)

(** ** States written as extensions *)

Lemma extend_nothing s : extend [] [] s = s.
Proof. destruct s. unfold extend. cbn. now rewrite !app_nil_r. Qed.

Lemma add_line_extend l s : add_line l s = extend [] [l] s.
Proof. unfold add_line, extend. now rewrite app_nil_r. Qed.

Lemma add_call_extend c s : add_call c s = extend [c] [] s.
Proof. unfold add_call, extend. now rewrite app_nil_r. Qed.

Lemma extend_extend c1 l1 c2 l2 s :
  extend c2 l2 (extend c1 l1 s) = extend (c1 ++ c2) (l1 ++ l2) s.
Proof. unfold extend. cbn. now rewrite <- !app_assoc. Qed.

Lemma calls_extend cs ls s : calls (extend cs ls s) = (calls s ++ cs)%list.
Proof. reflexivity. Qed.

Lemma printed_extend cs ls s : printed (extend cs ls s) = (printed s ++ ls)%list.
Proof. reflexivity. Qed.

Lemma files_extend cs ls s : files (extend cs ls s) = files s.
Proof. reflexivity. Qed.

(** Writing the state reached as one extension of the state at the
    start. *)
Ltac as_extension :=
  rewrite ?add_line_extend, ?add_call_extend, ?extend_extend;
  cbn [app].

(** A loop whose every round returns, makes the same invocations and
    prints the same lines whatever was done before it. *)
Lemma for_each_effects {A} (body : A -> M unit) (cs : A -> list call) (ls : A -> list line) w :
  (forall x s, body x w s = (inr tt, extend (cs x) (ls x) s)) ->
  forall xs s,
    for_each xs body w s = (inr tt, extend (concat (map cs xs)) (concat (map ls xs)) s).
Proof.
  intros Hbody. induction xs as [| x rest IH]; intros s.
  - cbn. unfold ret. now rewrite extend_nothing.
  - rewrite for_each_cons, (bind_returns _ _ _ _ _ _ (Hbody x s)), IH, extend_extend.
    reflexivity.
Qed.

Lemma fmt_shown v w s : fmt v w s = (inr (shown w v), s).
Proof. reflexivity. Qed.

(** ** [run_aws_command]: what it lets through *)

(** X1. An exception of the subprocess invocation other than
    [TimeoutExpired] and [FileNotFoundError] leaves [run_aws_command]
    unchanged, in both scripts, after the invocation was made. *)
Theorem run_aws_command_propagates_other_exceptions
    (w : World) (s : State) (args : list string) (timeout : Z) (e : exn) :
  outcome w s args timeout = inl e ->
  e <> TimeoutExpired -> e <> FileNotFoundError ->
  AwsCheck.run_aws_command args timeout w s = (inl e, extend [("aws" :: args, timeout)] [] s)
  /\ AwsMetrics.run_aws_command args timeout w s
     = (inl e, extend [("aws" :: args, timeout)] [] s).
Proof.
  intros Ho Ht Hf. rewrite check_run_aws_command, metrics_run_aws_command.
  fold (outcome w s args timeout). rewrite Ho, add_call_extend.
  destruct e; try congruence; split; reflexivity.
Qed.

Lemma run_aws_command_propagates_other_exceptions_witness :
  outcome Scenarios.broken Scenarios.initial ["--version"] 30 = inl (OtherError "PermissionError")
  /\ AwsCheck.run_aws_command ["--version"] 30 Scenarios.broken Scenarios.initial
     = (inl (OtherError "PermissionError"),
        extend [(["aws"; "--version"], 30)] [] Scenarios.initial).
Proof.
  split; [reflexivity |].
  apply (run_aws_command_propagates_other_exceptions Scenarios.broken Scenarios.initial
           ["--version"] 30 (OtherError "PermissionError")); [reflexivity | discriminate ..].
Defined.

(** ** The installation check *)

(** X2. With no binary on the path [check_cli_installed] returns false
    without any invocation.  With a binary it runs [aws --version] once.
    When the invocation gives a result (it completed, timed out, or the
    binary could not be executed after all), it returns true and shows the
    stripped version text and the path if the exit code is 0, and otherwise
    returns false and shows the error text of the result (for a timeout,
    the text "Command timed out").  Any other exception of the invocation
    leaves [check_cli_installed], after the heading. *)
Theorem check_cli_installed_report (w : World) (s : State) :
  (AwsCheck.nonempty (which_aws w) = false ->
   AwsCheck.check_cli_installed w s =
   (inr false,
    extend []
      [Header "AWS CLI Installation";
       Error "AWS CLI not found in PATH";
       Plain (nl +:+ "Install with:");
       Plain "  macOS:  brew install awscli";
       Plain "  Linux:  curl 'https://awscli.amazonaws.com/awscli-exe-linux-x86_64.zip' -o 'awscliv2.zip'"]
      s))
  /\ (forall path,
        which_aws w = Some path -> path <> "" ->
        AwsCheck.check_cli_installed w s =
        match AwsCheck.classify (outcome w s version_query 30) with
        | inr r =>
            (inr (AwsCheck.success r),
             extend [("aws" :: version_query, 30)]
               (Header "AWS CLI Installation"
                :: if AwsCheck.success r
                   then [Success ("AWS CLI installed: " +:+ PyStr.strip (AwsCheck.stdout r));
                         Info ("Path: " +:+ path)]
                   else [Error ("Failed to get AWS CLI version: " +:+ AwsCheck.stderr r)])
               s)
        | inl e =>
            (inl e, extend [("aws" :: version_query, 30)] [Header "AWS CLI Installation"] s)
        end).
Proof.
  split.
  - intros Hnone. unfold AwsCheck.check_cli_installed. run_monad.
    destruct (which_aws w) as [[| c path] |]; try discriminate; as_extension; reflexivity.
  - intros path Hwhich Hpath. unfold AwsCheck.check_cli_installed. run_monad.
    rewrite Hwhich. destruct path as [| c path]; [congruence |].
    unfold AwsCheck.DEFAULT_TIMEOUT. rewrite check_run_aws_command.
    unfold outcome, version_query in *. cbn [calls add_line].
    destruct (AwsCheck.classify _) as [e | r].
    + as_extension. reflexivity.
    + destruct (AwsCheck.success r); as_extension; reflexivity.
Qed.

Lemma check_cli_installed_report_witness :
  which_aws Scenarios.stalled = Some "/usr/local/bin/aws"
  /\ AwsCheck.check_cli_installed Scenarios.stalled Scenarios.initial =
     (inr false,
      extend [(["aws"; "--version"], 30)]
        [Header "AWS CLI Installation";
         Error "Failed to get AWS CLI version: Command timed out"]
        Scenarios.initial)
  /\ AwsCheck.check_cli_installed Scenarios.broken Scenarios.initial =
     (inl (OtherError "PermissionError"),
      extend [(["aws"; "--version"], 30)] [Header "AWS CLI Installation"] Scenarios.initial).
Proof.
  split; [reflexivity |].
  destruct (check_cli_installed_report Scenarios.stalled Scenarios.initial) as (_ & H).
  destruct (check_cli_installed_report Scenarios.broken Scenarios.initial) as (_ & H').
  split.
  - apply (H "/usr/local/bin/aws"); [reflexivity | discriminate].
  - apply (H' "/usr/local/bin/aws"); [reflexivity | discriminate].
Defined.

(** ** The identity check *)

(** X3. When the identity query exits with code 0 and prints a JSON
    object, [check_identity] shows the account, the ARN and the user id, a
    key the object lacks as "N/A", and queries the region.  It returns
    true whenever the region query gives a result: a region query that
    fails (non-zero exit, timeout, missing binary) is shown as "not set".
    Only an exception that [run_aws_command] does not handle ends the
    identity check otherwise: it leaves [check_identity] (a
    [JSONDecodeError], were one raised there, would be caught by the handler
    of the parse and make the check return false). *)
Theorem check_identity_of_object
    (w : World) (s : State) (p : CompletedProcess) (fields : list (string * json)) :
  outcome w s identity_query 30 = inr p ->
  cp_returncode p = 0 ->
  json_loads w (cp_stdout p) = Some (JObj fields) ->
  AwsCheck.check_identity w s =
  match AwsCheck.classify
          (subprocess_run w (calls s ++ [("aws" :: identity_query, 30)])
             ("aws" :: region_query) 30) with
  | inr region =>
      (inr true,
       extend [("aws" :: identity_query, 30); ("aws" :: region_query, 30)]
         ([Header "AWS Identity";
           Success "Authenticated successfully";
           Info ("Account:  " +:+ shown w (field "Account" fields));
           Info ("ARN:      " +:+ shown w (field "Arn" fields));
           Info ("User ID:  " +:+ shown w (field "UserId" fields))]
          ++ profile_line w
          ++ [Info ("Region:   " +:+ if AwsCheck.success region
                                     then PyStr.strip (AwsCheck.stdout region)
                                     else "not set")])
         s)
  | inl JSONDecodeError =>
      (inr false,
       extend [("aws" :: identity_query, 30); ("aws" :: region_query, 30)]
         ([Header "AWS Identity";
           Success "Authenticated successfully";
           Info ("Account:  " +:+ shown w (field "Account" fields));
           Info ("ARN:      " +:+ shown w (field "Arn" fields));
           Info ("User ID:  " +:+ shown w (field "UserId" fields))]
          ++ profile_line w
          ++ [Error "Invalid JSON response from AWS CLI"])
         s)
  | inl e =>
      (inl e,
       extend [("aws" :: identity_query, 30); ("aws" :: region_query, 30)]
         ([Header "AWS Identity";
           Success "Authenticated successfully";
           Info ("Account:  " +:+ shown w (field "Account" fields));
           Info ("ARN:      " +:+ shown w (field "Arn" fields));
           Info ("User ID:  " +:+ shown w (field "UserId" fields))]
          ++ profile_line w)
         s)
  end.
Proof.
  intros Ho Hz Hloads.
  unfold AwsCheck.check_identity, outcome, identity_query, region_query in *.
  run_monad. unfold AwsCheck.DEFAULT_TIMEOUT. rewrite check_run_aws_command.
  cbn [calls add_line]. rewrite Ho.
  cbn [AwsCheck.classify AwsCheck.success AwsCheck.stdout]. rewrite Hz.
  cbn [Z.eqb negb]. unfold try_except, loads. run_monad. rewrite Hloads.
  cbn [get]. unfold fmt, field, profile_line, shown.
  destruct (environ w "AWS_PROFILE") as [[| c profile] |]; run_monad;
    rewrite check_run_aws_command; cbn [calls add_line add_call];
    (destruct (AwsCheck.classify _) as [e | region];
     [destruct e | ]); as_extension; rewrite ?app_nil_r; reflexivity.
Qed.

(** X4. When the identity query exits with code 0 and prints JSON that
    is not an object, [check_identity] raises [AttributeError], which none
    of its handlers catches, after it has printed the success line. *)
Theorem check_identity_of_non_object
    (w : World) (s : State) (p : CompletedProcess) (v : json) :
  outcome w s identity_query 30 = inr p ->
  cp_returncode p = 0 ->
  json_loads w (cp_stdout p) = Some v ->
  (forall fields, v <> JObj fields) ->
  AwsCheck.check_identity w s =
  (inl AttributeError,
   extend [("aws" :: identity_query, 30)]
     [Header "AWS Identity"; Success "Authenticated successfully"] s).
Proof.
  intros Ho Hz Hloads Hv.
  unfold AwsCheck.check_identity, outcome, identity_query in *.
  run_monad. unfold AwsCheck.DEFAULT_TIMEOUT. rewrite check_run_aws_command.
  cbn [calls add_line]. rewrite Ho.
  cbn [AwsCheck.classify AwsCheck.success AwsCheck.stdout]. rewrite Hz.
  cbn [Z.eqb negb]. unfold try_except, loads. run_monad. rewrite Hloads.
  destruct v; cbn [get]; try (as_extension; reflexivity).
  exfalso. eapply Hv. reflexivity.
Qed.

(** X5. When the identity query fails (non-zero exit, timeout or missing
    binary) [check_identity] returns false after that one invocation,
    showing the error text of the result; the region is not queried. *)
Theorem check_identity_of_failure (w : World) (s : State) (r : AwsCheck.CommandResult) :
  AwsCheck.classify (outcome w s identity_query 30) = inr r ->
  AwsCheck.success r = false ->
  AwsCheck.check_identity w s =
  (inr false,
   extend [("aws" :: identity_query, 30)]
     [Header "AWS Identity";
      Error "Failed to get caller identity";
      Plain (AwsCheck.stderr r);
      Plain (nl +:+ "Check your credentials:");
      Plain "  aws configure";
      Plain "  aws configure --profile <profile-name>"] s).
Proof.
  intros Hr Hfail.
  unfold AwsCheck.check_identity, outcome, identity_query in *.
  run_monad. unfold AwsCheck.DEFAULT_TIMEOUT. rewrite check_run_aws_command.
  cbn [calls add_line]. rewrite Hr, Hfail. cbn [negb]. as_extension. reflexivity.
Qed.

Lemma check_identity_of_object_witness :
  outcome MoreScenarios.unset_region Scenarios.initial identity_query 30
  = Scenarios.completed 0 "{}" ""
  /\ AwsCheck.check_identity MoreScenarios.unset_region Scenarios.initial =
     (inr true,
      extend [("aws" :: identity_query, 30); ("aws" :: region_query, 30)]
        [Header "AWS Identity";
         Success "Authenticated successfully";
         Info "Account:  N/A";
         Info "ARN:      N/A";
         Info "User ID:  N/A";
         Info "Region:   not set"]
        Scenarios.initial)
  /\ AwsCheck.check_identity MoreScenarios.region_breaks Scenarios.initial =
     (inl (OtherError "PermissionError"),
      extend [("aws" :: identity_query, 30); ("aws" :: region_query, 30)]
        [Header "AWS Identity";
         Success "Authenticated successfully";
         Info "Account:  N/A";
         Info "ARN:      N/A";
         Info "User ID:  N/A"]
        Scenarios.initial).
Proof.
  split; [reflexivity |]. split.
  - apply (check_identity_of_object MoreScenarios.unset_region Scenarios.initial
             {| cp_returncode := 0; cp_stdout := "{}"; cp_stderr := "" |} []);
      reflexivity.
  - apply (check_identity_of_object MoreScenarios.region_breaks Scenarios.initial
             {| cp_returncode := 0; cp_stdout := "{}"; cp_stderr := "" |} []);
      reflexivity.
Defined.

Lemma check_identity_of_non_object_witness :
  json_loads MoreScenarios.empty_lists "[]" = Some (JArr [])
  /\ AwsCheck.check_identity MoreScenarios.empty_lists Scenarios.initial =
     (inl AttributeError,
      extend [("aws" :: identity_query, 30)]
        [Header "AWS Identity"; Success "Authenticated successfully"] Scenarios.initial).
Proof.
  split; [reflexivity |].
  apply (check_identity_of_non_object MoreScenarios.empty_lists Scenarios.initial
           {| cp_returncode := 0; cp_stdout := "[]"; cp_stderr := "" |} (JArr []));
    [reflexivity | reflexivity | reflexivity | discriminate].
Defined.

Lemma check_identity_of_failure_witness :
  outcome Scenarios.stalled Scenarios.initial identity_query 30 = inl TimeoutExpired
  /\ AwsCheck.check_identity Scenarios.stalled Scenarios.initial =
     (inr false,
      extend [("aws" :: identity_query, 30)]
        [Header "AWS Identity";
         Error "Failed to get caller identity";
         Plain "Command timed out";
         Plain (nl +:+ "Check your credentials:");
         Plain "  aws configure";
         Plain "  aws configure --profile <profile-name>"] Scenarios.initial).
Proof.
  split; [reflexivity |].
  apply (check_identity_of_failure Scenarios.stalled Scenarios.initial
           {| AwsCheck.success := false; AwsCheck.stdout := "";
              AwsCheck.stderr := "Command timed out"; AwsCheck.returncode := -1 |});
    reflexivity.
Defined.

(** ** What [main] does not run *)

(** X6. In a world that raises nothing unhandled: when the installation
    check passes and the identity check is rejected, every command but
    [config] returns 1 right after the identity query; no region query, no
    permission probe and no listing is made. *)
Theorem main_stops_after_rejected_identity (w : World) (s : State) (cmd : AwsCheck.command) :
  handled w ->
  installed w (calls s) = true ->
  identity_status_of w (after_installation (calls s)) = Rejected ->
  cmd <> AwsCheck.Config ->
  exists s',
    AwsCheck.main cmd w s = (inr 1, s')
    /\ calls s' = (calls s ++ [("aws" :: version_query, 30); ("aws" :: identity_query, 30)])%list
    /\ files s' = files s.
Proof.
  intros Hw Hi Hid Hcmd.
  destruct (AwsCheck.check_cli_installed w s) as [res1 s1] eqn:E1.
  destruct (check_cli_installed_eq w s res1 s1 Hw E1) as (-> & Hc1 & Hf1).
  rewrite Hi in E1.
  assert (Hn : AwsCheck.nonempty (which_aws w) = true)
    by (unfold installed in Hi; now apply andb_prop in Hi).
  rewrite Hn in Hc1.
  destruct (AwsCheck.check_identity w s1) as [res2 s2] eqn:E2.
  destruct (check_identity_eq w s1 res2 s2 Hw E2) as (Hf2 & H2).
  unfold identity_status_of in Hid. unfold outcome in H2. rewrite Hc1 in H2.
  assert (Hres : res2 = inr false
                 /\ calls s2 = (after_installation (calls s)
                                ++ [("aws" :: identity_query, 30)])%list).
  { destruct (exit_zero _); [| exact H2].
    destruct (json_loads w _) as [[] |]; try discriminate. split; apply H2. }
  destruct Hres as (-> & Hc2).
  exists s2. split; [| split].
  - destruct cmd; try congruence; unfold AwsCheck.main;
      rewrite (bind_returns _ _ _ _ _ _ E1); cbn [negb];
      rewrite (bind_returns _ _ _ _ _ _ E2); reflexivity.
  - rewrite Hc2. unfold after_installation. now rewrite <- app_assoc.
  - congruence.
Qed.

Lemma main_stops_after_rejected_identity_witness :
  handled Scenarios.chatty
  /\ exists s',
       AwsCheck.main AwsCheck.All Scenarios.chatty Scenarios.initial = (inr 1, s')
       /\ calls s' = [("aws" :: version_query, 30); ("aws" :: identity_query, 30)].
Proof.
  split; [exact chatty_handled |].
  destruct (main_stops_after_rejected_identity Scenarios.chatty Scenarios.initial AwsCheck.All
              chatty_handled eq_refl eq_refl) as (s' & E & Hc & _); [discriminate |].
  exists s'. auto.
Defined.

(** X7. In a world that raises nothing unhandled the [config] command
    never queries the identity: it makes the one invocation of the
    installation check (none when no binary is found), and returns 0 exactly
    when that check passes. *)
Theorem config_needs_no_credentials (w : World) (s : State) :
  handled w ->
  exists s',
    AwsCheck.main AwsCheck.Config w s = (inr (if installed w (calls s) then 0 else 1), s')
    /\ calls s' = (if AwsCheck.nonempty (which_aws w) then after_installation (calls s)
                   else calls s)
    /\ files s' = files s.
Proof.
  intros Hw.
  destruct (AwsCheck.check_cli_installed w s) as [res1 s1] eqn:E1.
  destruct (check_cli_installed_eq w s res1 s1 Hw E1) as (-> & Hc1 & Hf1).
  unfold AwsCheck.main. rewrite (bind_returns _ _ _ _ _ _ E1).
  destruct (installed w (calls s)); cbn [negb].
  - destruct (show_config_report w s1) as (s3 & E3 & _ & Hc3 & Hf3).
    rewrite (bind_returns _ _ _ _ _ _ E3). exists s3.
    split; [reflexivity |]. split; congruence.
  - exists s1. auto.
Qed.

Lemma config_needs_no_credentials_witness :
  handled Scenarios.stalled
  /\ exists s',
       AwsCheck.main AwsCheck.Config Scenarios.stalled Scenarios.initial = (inr 1, s')
       /\ calls s' = [("aws" :: version_query, 30)].
Proof.
  split; [exact stalled_handled |].
  destruct (config_needs_no_credentials Scenarios.stalled Scenarios.initial stalled_handled)
    as (s' & E & Hc & _).
  exists s'. auto.
Defined.

(** ** The report of [check_permissions] *)

Lemma required_loop_report w (Hw : handled w) tests :
  forall passed failed s,
    for_fold tests (passed, failed) AwsCheck.required_step w s =
    (inr (passed + tally true (probes w (calls s) 30 (map snd tests)),
          failed + tally false (probes w (calls s) 30 (map snd tests))),
     extend (probe_calls tests)
       (probe_lines required_line tests (probes w (calls s) 30 (map snd tests))) s).
Proof.
  induction tests as [| [permission cmd] rest IH]; intros passed failed s.
  - cbn. unfold ret. now rewrite !Z.add_0_r, extend_nothing.
  - rewrite for_fold_cons.
    rewrite (bind_returns _ _ _ _ _ _ (required_step_eq w Hw passed failed permission cmd s)).
    unfold outcome. cbn [map probes probe_lines probe_calls snd].
    destruct (exit_zero (subprocess_run w (calls s) ("aws" :: cmd) 30));
      rewrite IH; as_extension; rewrite !calls_extend;
      cbn [tally Bool.eqb required_line];
      (apply pair_equal_spec; split;
       [f_equal; apply pair_equal_spec; split; lia | reflexivity]).
Qed.

Lemma optional_loop_report w (Hw : handled w) tests :
  forall s,
    for_each tests AwsCheck.optional_step w s =
    (inr tt,
     extend (probe_calls tests)
       (probe_lines optional_line tests (probes w (calls s) 30 (map snd tests))) s).
Proof.
  induction tests as [| [permission cmd] rest IH]; intros s.
  - cbn. unfold ret. now rewrite extend_nothing.
  - rewrite for_each_cons.
    rewrite (bind_returns _ _ _ _ _ _ (optional_step_eq w Hw permission cmd s)).
    unfold outcome. cbn [map probes probe_lines probe_calls snd].
    destruct (exit_zero (subprocess_run w (calls s) ("aws" :: cmd) 30));
      rewrite IH; as_extension; rewrite !calls_extend; reflexivity.
Qed.

Lemma tally_total results : tally true results + tally false results = Z.of_nat (length results).
Proof.
  induction results as [| [] rest IH]; cbn [tally Bool.eqb length]; lia.
Qed.

Lemma probes_length w h t cmds : length (probes w h t cmds) = length cmds.
Proof.
  revert h. induction cmds as [| cmd rest IH]; intros h; [reflexivity |].
  cbn [probes length]. now rewrite IH.
Qed.

(** X8. In a world that raises nothing unhandled, [check_permissions]
    runs all fourteen probes in the order of the two tables, whatever
    their results: a failed probe never stops it.  A failed required probe
    is printed as an error and a failed optional one as a warning; the
    last line gives the numbers of passed and failed required probes, which
    add up to ten. *)
Theorem check_permissions_report (w : World) (s : State) :
  handled w ->
  AwsCheck.check_permissions w s =
  (inr (forallb id (probes w (calls s) 30 (map snd AwsCheck.required_tests))),
   extend (probe_calls AwsCheck.required_tests ++ probe_calls AwsCheck.optional_tests)
     ([Header "Dash Monitoring Permissions"]
      ++ probe_lines required_line AwsCheck.required_tests
           (probes w (calls s) 30 (map snd AwsCheck.required_tests))
      ++ [Plain ""; Info "Optional permissions (may require service activation):"]
      ++ probe_lines optional_line AwsCheck.optional_tests
           (probes w (calls s ++ probe_calls AwsCheck.required_tests) 30
              (map snd AwsCheck.optional_tests))
      ++ [Plain "";
          Plain ("Required permissions: "
                 +:+ PyStr.of_Z (tally true (probes w (calls s) 30
                                               (map snd AwsCheck.required_tests)))
                 +:+ " passed, "
                 +:+ PyStr.of_Z (tally false (probes w (calls s) 30
                                                (map snd AwsCheck.required_tests)))
                 +:+ " failed")])
     s)
  /\ tally true (probes w (calls s) 30 (map snd AwsCheck.required_tests))
     + tally false (probes w (calls s) 30 (map snd AwsCheck.required_tests)) = 10.
Proof.
  intros Hw. split.
  - unfold AwsCheck.check_permissions.
    unfold print_header at 1. rewrite bind_emit.
    rewrite (bind_returns _ _ _ _ _ _
               (required_loop_report w Hw AwsCheck.required_tests 0 0 _)).
    cbv beta iota. unfold print at 1. rewrite bind_emit.
    unfold print_info at 1. rewrite bind_emit.
    rewrite (bind_returns _ _ _ _ _ _ (optional_loop_report w Hw AwsCheck.optional_tests _)).
    unfold print. rewrite !bind_emit. unfold ret.
    rewrite !Z.add_0_l, no_failure. as_extension.
    rewrite !calls_extend, !app_nil_r. reflexivity.
  - rewrite tally_total, probes_length. reflexivity.
Qed.

Lemma check_permissions_report_witness :
  handled Scenarios.denied
  /\ fst (AwsCheck.check_permissions Scenarios.denied Scenarios.initial) = inr false
  /\ length (calls (snd (AwsCheck.check_permissions Scenarios.denied Scenarios.initial)))
     = 14%nat.
Proof.
  split; [exact denied_handled |].
  destruct (check_permissions_report Scenarios.denied Scenarios.initial denied_handled)
    as (E & _).
  rewrite E. split; reflexivity.
Defined.

(** ** What [show_config] shows *)

Lemma state_eq s1 s2 :
  calls s1 = calls s2 -> printed s1 = printed s2 -> files s1 = files s2 -> s1 = s2.
Proof. destruct s1, s2. cbn. now intros -> -> ->. Qed.

(** X9. [show_config] never shows the value of [AWS_ACCESS_KEY_ID] or
    [AWS_SECRET_ACCESS_KEY]: two worlds that differ only in the values of
    these two variables, each being set or unset in both, give the same
    run.  It runs no subprocess and writes no file. *)
Theorem show_config_masks_access_keys (w1 w2 : World) (s : State) :
  aws_config w1 = aws_config w2 ->
  aws_credentials w1 = aws_credentials w2 ->
  environ w1 "AWS_PROFILE" = environ w2 "AWS_PROFILE" ->
  environ w1 "AWS_DEFAULT_REGION" = environ w2 "AWS_DEFAULT_REGION" ->
  AwsCheck.nonempty (environ w1 "AWS_ACCESS_KEY_ID")
  = AwsCheck.nonempty (environ w2 "AWS_ACCESS_KEY_ID") ->
  AwsCheck.nonempty (environ w1 "AWS_SECRET_ACCESS_KEY")
  = AwsCheck.nonempty (environ w2 "AWS_SECRET_ACCESS_KEY") ->
  AwsCheck.show_config w1 s = AwsCheck.show_config w2 s
  /\ calls (snd (AwsCheck.show_config w1 s)) = calls s
  /\ files (snd (AwsCheck.show_config w1 s)) = files s.
Proof.
  intros Hconfig Hcred Hprofile Hregion Hid Hsecret.
  destruct (show_config_report w1 s) as (s1 & E1 & Hp1 & Hc1 & Hf1).
  destruct (show_config_report w2 s) as (s2 & E2 & Hp2 & Hc2 & Hf2).
  rewrite E1, E2. cbn [snd]. split; [| auto].
  f_equal. apply state_eq; [congruence | | congruence].
  rewrite Hp1, Hp2, Hconfig, Hcred, Hprofile, Hregion, Hid, Hsecret. reflexivity.
Qed.

Lemma show_config_masks_access_keys_witness :
  AwsCheck.nonempty (environ (MoreScenarios.with_keys "AKIA1" "hunter2") "AWS_SECRET_ACCESS_KEY")
  = AwsCheck.nonempty (environ (MoreScenarios.with_keys "AKIA2" "swordfish")
                         "AWS_SECRET_ACCESS_KEY")
  /\ AwsCheck.show_config (MoreScenarios.with_keys "AKIA1" "hunter2") Scenarios.initial
     = AwsCheck.show_config (MoreScenarios.with_keys "AKIA2" "swordfish") Scenarios.initial.
Proof.
  split; [reflexivity |].
  apply (show_config_masks_access_keys (MoreScenarios.with_keys "AKIA1" "hunter2")
           (MoreScenarios.with_keys "AKIA2" "swordfish") Scenarios.initial); reflexivity.
Defined.

(** Removing a character removes every occurrence of it and brings in no
    other character. *)
Lemma occurs_after_removal c d s :
  PyStr.occurs d (PyStr.replace_from (String c "") "" 0 s)
  = if Ascii.eqb c d then false else PyStr.occurs d s.
Proof.
  induction s as [| a s IH]; [cbn; now destruct (Ascii.eqb c d) |].
  cbn [PyStr.replace_from String.prefix String.length Nat.sub].
  destruct (ascii_dec c a) as [<- | Hne].
  - rewrite prefix_nil, append_nil_l, IH. cbn [PyStr.occurs].
    destruct (Ascii.eqb c d); reflexivity.
  - cbn [PyStr.occurs]. rewrite IH.
    destruct (Ascii.eqb_spec c d) as [<- | Hcd]; [| reflexivity].
    destruct (Ascii.eqb_spec a c); [congruence | reflexivity].
Qed.

(** X10. Whatever the line, a profile name taken from the config file or
    from the credentials file holds no square bracket: every ["["] and
    ["]"] of the line is removed, wherever it stands. *)
Theorem profile_has_no_bracket (line p : string) :
  AwsCheck.config_profile line = Some p \/ AwsCheck.credentials_profile line = Some p ->
  PyStr.occurs "[" p = false /\ PyStr.occurs "]" p = false.
Proof.
  unfold AwsCheck.config_profile, AwsCheck.credentials_profile.
  destruct (PyStr.startswith (PyStr.strip line) "[");
    intros [[= <-] | [= <-]]; unfold PyStr.replace;
    rewrite !occurs_after_removal; split; reflexivity.
Qed.

Lemma profile_has_no_bracket_witness :
  AwsCheck.config_profile "[profile a[b]] # [x]" = Some "ab # x"
  /\ PyStr.occurs "[" "ab # x" = false /\ PyStr.occurs "]" "ab # x" = false.
Proof.
  split; [reflexivity |].
  apply (profile_has_no_bracket "[profile a[b]] # [x]" "ab # x"). left. reflexivity.
Defined.

(** ** Time windows that do not exist *)

(** X11. When the window of [hours] hours is not representable, each
    command of the metrics tool that takes a window raises [OverflowError]
    right after its heading: it makes no invocation, and [export] creates
    neither its temporary file nor the output file. *)
Theorem unrepresentable_window_raises_before_any_call (w : World) (s : State) (hours : Z) :
  representable w hours = false ->
  (forall metric namespace dimension period,
     AwsMetrics.main (AwsMetrics.Get metric namespace dimension hours period) w s
     = (inl OverflowError, extend [] [Header ("CloudWatch Metric: " +:+ metric)] s))
  /\ (forall cluster service,
        AwsMetrics.main (AwsMetrics.Ecs cluster service hours) w s
        = (inl OverflowError, extend [] [Header ("ECS Metrics: " +:+ cluster)] s))
  /\ (forall instance_id,
        AwsMetrics.main (AwsMetrics.Ec2 instance_id hours) w s
        = (inl OverflowError, extend [] [Header ("EC2 Metrics: " +:+ instance_id)] s))
  /\ (forall db_identifier,
        AwsMetrics.main (AwsMetrics.Rds db_identifier hours) w s
        = (inl OverflowError, extend [] [Header ("RDS Metrics: " +:+ db_identifier)] s))
  /\ (forall output_file,
        AwsMetrics.main (AwsMetrics.Export output_file hours) w s
        = (inl OverflowError, extend [] [Header "Exporting Metrics"] s)).
Proof.
  intros Hrep.
  assert (H : forall {A} heading (k : string * string -> M A),
             bind (print_header heading) (fun _ => bind (AwsMetrics.get_time_range hours) k) w s
             = (inl OverflowError, extend [] [Header heading] s)).
  { intros A heading k. unfold print_header. rewrite bind_emit.
    unfold bind. rewrite get_time_range_eq, Hrep. now rewrite add_line_extend. }
  split; [| split; [| split; [| split]]]; intros; unfold AwsMetrics.main.
  - destruct (AwsMetrics.parse_dimension dimension). apply H.
  - apply H.
  - apply H.
  - apply H.
  - apply H.
Qed.

Lemma unrepresentable_window_raises_before_any_call_witness :
  representable Scenarios.healthy 99999999999 = false
  /\ AwsMetrics.main (AwsMetrics.Export "metrics.json" 99999999999)
       Scenarios.healthy Scenarios.initial
     = (inl OverflowError, extend [] [Header "Exporting Metrics"] Scenarios.initial).
Proof.
  split; [reflexivity |].
  apply (unrepresentable_window_raises_before_any_call Scenarios.healthy Scenarios.initial
           99999999999 eq_refl).
Defined.

(** ** Alarms *)

Lemma metrics_run_handled w (Hw : handled w) args timeout s :
  exists r,
    AwsMetrics.run_aws_command args timeout w s = (inr r, add_call ("aws" :: args, timeout) s)
    /\ AwsMetrics.success r = exit_zero (outcome w s args timeout)
    /\ AwsMetrics.stdout r = output_of (outcome w s args timeout).
Proof.
  rewrite metrics_run_aws_command. unfold outcome.
  destruct (metrics_classify_handled w (calls s) ("aws" :: args) timeout Hw)
    as (r & -> & Hok & Hout).
  eauto.
Qed.

(** One round of the loop of [list_alarms] over the three states. *)
Lemma count_round w (Hw : handled w) (counts : gmap string string) state s :
  bind (AwsMetrics.run_aws_command (count_query state) 60)
    (fun count_result =>
       ret (<[state := if AwsMetrics.success count_result
                       then PyStr.strip (AwsMetrics.stdout count_result) else "?"]> counts))
    w s
  = (inr (<[state := count_text (outcome w s (count_query state) 60)]> counts),
     add_call ("aws" :: count_query state, 60) s).
Proof.
  destruct (metrics_run_handled w Hw (count_query state) 60 s) as (r & E & Hok & Hout).
  rewrite (bind_returns _ _ _ _ _ _ E). unfold ret, count_text.
  now rewrite Hok, Hout.
Qed.

(** X12. In a world that raises nothing unhandled: when the listing of
    [list_alarms] fails, the command returns 1 after that one invocation;
    when it succeeds, the three counts are always queried and the command
    returns 0 whatever they give.  A count that cannot be obtained is shown
    as "?", and the ALARM line is highlighted unless the count is exactly
    "0". *)
Theorem list_alarms_summary (w : World) (s : State) (state : option string) :
  handled w ->
  (forall r,
     AwsMetrics.classify (outcome w s (alarms_query state) 60) = inr r ->
     AwsMetrics.success r = false ->
     AwsMetrics.list_alarms state w s =
     (inr 1,
      extend [("aws" :: alarms_query state, 60)]
        ([Header "CloudWatch Alarms"] ++ filter_line state
         ++ [Plain ""; Error ("Failed to list alarms: " +:+ AwsMetrics.stderr r)]) s))
  /\ (exit_zero (outcome w s (alarms_query state) 60) = true ->
      AwsMetrics.list_alarms state w s =
      (inr 0,
       extend [("aws" :: alarms_query state, 60);
               ("aws" :: count_query "ALARM", 60);
               ("aws" :: count_query "OK", 60);
               ("aws" :: count_query "INSUFFICIENT_DATA", 60)]
         ([Header "CloudWatch Alarms"] ++ filter_line state
          ++ [Plain "";
              Plain (output_of (outcome w s (alarms_query state) 60));
              Plain "";
              Plain "Summary:";
              alarm_line
                (count_text
                   (subprocess_run w (calls s ++ [("aws" :: alarms_query state, 60)])
                      ("aws" :: count_query "ALARM") 60));
              Plain ("  OK: "
                     +:+ count_text
                           (subprocess_run w
                              (calls s ++ [("aws" :: alarms_query state, 60);
                                           ("aws" :: count_query "ALARM", 60)])
                              ("aws" :: count_query "OK") 60));
              Plain ("  INSUFFICIENT_DATA: "
                     +:+ count_text
                           (subprocess_run w
                              (calls s ++ [("aws" :: alarms_query state, 60);
                                           ("aws" :: count_query "ALARM", 60);
                                           ("aws" :: count_query "OK", 60)])
                              ("aws" :: count_query "INSUFFICIENT_DATA") 60))]) s)).
Proof.
  intros Hw. split.
  - intros r Hr Hfail. unfold AwsMetrics.list_alarms, filter_line, alarms_query, outcome in *.
    destruct (AwsMetrics.given state); run_monad; unfold AwsMetrics.DEFAULT_TIMEOUT;
      rewrite metrics_run_aws_command; cbn [calls add_line app] in *;
      rewrite Hr, Hfail; as_extension; reflexivity.
  - intros Hok. unfold AwsMetrics.list_alarms, AwsMetrics.DEFAULT_TIMEOUT.
    assert (Hq : (["cloudwatch"; "describe-alarms";
                   "--query"; "MetricAlarms[*].[AlarmName,StateValue,MetricName,Namespace]";
                   "--output"; "table"]
                  ++ if AwsMetrics.given state then ["--state-value"; default "" state] else [])%list
                 = alarms_query state) by reflexivity.
    assert (Hcmd : (if AwsMetrics.given state
                    then (["cloudwatch"; "describe-alarms";
                           "--query";
                           "MetricAlarms[*].[AlarmName,StateValue,MetricName,Namespace]";
                           "--output"; "table"] ++ ["--state-value"; default "" state])%list
                    else ["cloudwatch"; "describe-alarms";
                          "--query";
                          "MetricAlarms[*].[AlarmName,StateValue,MetricName,Namespace]";
                          "--output"; "table"]) = alarms_query state).
    { rewrite <- Hq. destruct (AwsMetrics.given state); [reflexivity | now rewrite app_nil_r]. }
    cbv zeta. rewrite Hcmd.
    unfold print_header at 1. rewrite bind_emit.
    assert (Hfilter : forall {B} (k : unit -> M B) s0,
               bind (if AwsMetrics.given state
                     then print_info ("Filtering by state: " +:+ default "" state)
                     else ret tt) k w s0
               = k tt w (extend [] (filter_line state) s0)).
    { intros B k s0. unfold filter_line. destruct (AwsMetrics.given state).
      - unfold print_info. now rewrite bind_emit, add_line_extend.
      - now rewrite bind_ret, extend_nothing. }
    rewrite Hfilter. unfold print at 1. rewrite bind_emit.
    match goal with |- context [bind (AwsMetrics.run_aws_command ?a ?t) _ w ?s1] =>
      destruct (metrics_run_handled w Hw a t s1) as (r & E & Hs & Hout) end.
    rewrite (bind_returns _ _ _ _ _ _ E).
    unfold outcome in *. cbn [calls add_line extend] in Hs, Hout.
    rewrite app_nil_r in Hs, Hout. rewrite Hs, Hok, Hout.
    unfold print at 1. rewrite bind_emit. unfold print at 1. rewrite bind_emit.
    rewrite !for_fold_cons. cbn [for_fold].
    unfold bind at 1. unfold bind at 1.
    fold (count_query "ALARM"). rewrite (count_round w Hw).
    unfold bind at 1. fold (count_query "OK"). rewrite (count_round w Hw).
    unfold bind at 1. fold (count_query "INSUFFICIENT_DATA"). rewrite (count_round w Hw).
    unfold ret at 1. unfold print at 1. rewrite bind_emit.
    rewrite !lookup_insert_ne by discriminate. rewrite !lookup_insert_eq.
    rewrite (lookup_insert_ne _ "INSUFFICIENT_DATA" "OK") by discriminate.
    rewrite !lookup_insert_eq. cbn [default from_option id].
    unfold outcome. cbn [calls add_line add_call extend]. rewrite !app_nil_r, <- !app_assoc.
    cbn [app]. unfold alarm_line.
    match goal with |- context [String.eqb ?c "0"] => destruct (String.eqb c "0") end;
      cbn [negb]; unfold print; rewrite !bind_emit; unfold ret;
      as_extension; rewrite ?app_nil_r, <- ?app_assoc; reflexivity.
Qed.

Lemma list_alarms_summary_witness :
  handled Scenarios.denied
  /\ AwsMetrics.list_alarms (Some "ALARM") Scenarios.denied Scenarios.initial =
     (inr 1,
      extend [("aws" :: alarms_query (Some "ALARM"), 60)]
        [Header "CloudWatch Alarms";
         Info "Filtering by state: ALARM";
         Plain "";
         Error "Failed to list alarms: AccessDenied"] Scenarios.initial)
  /\ fst (AwsMetrics.list_alarms None Scenarios.stalled Scenarios.initial) = inr 1.
Proof.
  split; [exact denied_handled |]. split.
  - destruct (list_alarms_summary Scenarios.denied Scenarios.initial (Some "ALARM")
                denied_handled) as (H & _).
    apply (H {| AwsMetrics.success := false; AwsMetrics.stdout := "";
                AwsMetrics.stderr := "AccessDenied"; AwsMetrics.returncode := 254 |});
      reflexivity.
  - destruct (list_alarms_summary Scenarios.stalled Scenarios.initial None stalled_handled)
      as (H & _).
    rewrite (H {| AwsMetrics.success := false; AwsMetrics.stdout := "";
                  AwsMetrics.stderr := "Command timed out"; AwsMetrics.returncode := -1 |});
      reflexivity.
Defined.

(** ** The three metric reports *)

Lemma bind_then {A B} (c : M A) (k : A -> M B) w s a s' r :
  c w s = (inr a, s') -> k a w s' = r -> bind c k w s = r.
Proof. intros H <-. now apply bind_returns. Qed.

(** One metric of a report: the query is made, and its failure is a
    warning. *)
Lemma metric_round w (Hw : handled w) label metric query s :
  bind (print (label +:+ ":"))
    (fun _ =>
       bind (AwsMetrics.run_aws_command query 60)
         (fun result =>
            bind (if AwsMetrics.success result then print (AwsMetrics.stdout result)
                  else print_warning ("No data for " +:+ metric))
              (fun _ => print ""))) w s
  = (inr tt,
     extend [("aws" :: query, 60)] (metric_section label metric (outcome w s query 60)) s).
Proof.
  unfold print at 1. rewrite bind_emit.
  destruct (metrics_run_handled w Hw query 60 (add_line (Plain (label +:+ ":")) s))
    as (r & E & Hok & Hout).
  rewrite (bind_returns _ _ _ _ _ _ E). unfold outcome in *. cbn [calls add_line] in Hok, Hout.
  unfold metric_section. rewrite <- Hok, <- Hout.
  destruct (AwsMetrics.success r); unfold print, print_warning;
    rewrite !bind_emit; unfold emit; as_extension; reflexivity.
Qed.

(** X13. In a world that raises nothing unhandled and with a
    representable window, the reports for an EC2 instance, an RDS instance
    and an ECS service always return 0 and always make all their queries
    (three, three and two), in order: a failed query is printed as the
    warning "No data for <metric>" and the next metric is still queried. *)
Theorem metric_reports_warn_and_go_on (w : World) (s : State) (hours : Z) :
  handled w ->
  representable w hours = true ->
  (forall instance_id,
     AwsMetrics.get_ec2_metrics instance_id hours w s =
     (inr 0,
      extend
        [("aws" :: ec2_query w instance_id hours "CPUUtilization" "Average", 60);
         ("aws" :: ec2_query w instance_id hours "NetworkIn" "Sum", 60);
         ("aws" :: ec2_query w instance_id hours "NetworkOut" "Sum", 60)]
        ([Header ("EC2 Metrics: " +:+ instance_id)]
         ++ metric_section "CPU Utilization" "CPUUtilization"
              (subprocess_run w (calls s)
                 ("aws" :: ec2_query w instance_id hours "CPUUtilization" "Average") 60)
         ++ metric_section "Network In (bytes)" "NetworkIn"
              (subprocess_run w
                 (calls s
                  ++ [("aws" :: ec2_query w instance_id hours "CPUUtilization" "Average", 60)])
                 ("aws" :: ec2_query w instance_id hours "NetworkIn" "Sum") 60)
         ++ metric_section "Network Out (bytes)" "NetworkOut"
              (subprocess_run w
                 (calls s
                  ++ [("aws" :: ec2_query w instance_id hours "CPUUtilization" "Average", 60);
                      ("aws" :: ec2_query w instance_id hours "NetworkIn" "Sum", 60)])
                 ("aws" :: ec2_query w instance_id hours "NetworkOut" "Sum") 60))
        s))
  /\ (forall db_identifier,
        AwsMetrics.get_rds_metrics db_identifier hours w s =
        (inr 0,
         extend
           [("aws" :: rds_query w db_identifier hours "CPUUtilization", 60);
            ("aws" :: rds_query w db_identifier hours "DatabaseConnections", 60);
            ("aws" :: rds_query w db_identifier hours "FreeStorageSpace", 60)]
           ([Header ("RDS Metrics: " +:+ db_identifier)]
            ++ metric_section "CPU Utilization" "CPUUtilization"
                 (subprocess_run w (calls s)
                    ("aws" :: rds_query w db_identifier hours "CPUUtilization") 60)
            ++ metric_section "Database Connections" "DatabaseConnections"
                 (subprocess_run w
                    (calls s ++ [("aws" :: rds_query w db_identifier hours "CPUUtilization", 60)])
                    ("aws" :: rds_query w db_identifier hours "DatabaseConnections") 60)
            ++ metric_section "Free Storage Space (bytes)" "FreeStorageSpace"
                 (subprocess_run w
                    (calls s
                     ++ [("aws" :: rds_query w db_identifier hours "CPUUtilization", 60);
                         ("aws" :: rds_query w db_identifier hours "DatabaseConnections", 60)])
                    ("aws" :: rds_query w db_identifier hours "FreeStorageSpace") 60))
           s))
  /\ (forall cluster c service,
        AwsMetrics.get_ecs_metrics cluster (Some (String c service)) hours w s =
        (inr 0,
         extend
           [("aws" :: ecs_query w cluster (String c service) hours "CPUUtilization", 60);
            ("aws" :: ecs_query w cluster (String c service) hours "MemoryUtilization", 60)]
           ([Header ("ECS Metrics: " +:+ cluster);
             Info ("Service: " +:+ String c service);
             Plain ""]
            ++ metric_section "CPU Utilization" "CPUUtilization"
                 (subprocess_run w (calls s)
                    ("aws" :: ecs_query w cluster (String c service) hours "CPUUtilization") 60)
            ++ metric_section "Memory Utilization" "MemoryUtilization"
                 (subprocess_run w
                    (calls s
                     ++ [("aws" :: ecs_query w cluster (String c service) hours
                                     "CPUUtilization", 60)])
                    ("aws" :: ecs_query w cluster (String c service) hours
                                "MemoryUtilization") 60))
           s)).
Proof.
  intros Hw Hrep. split; [| split].
  - intros instance_id. unfold AwsMetrics.get_ec2_metrics, AwsMetrics.DEFAULT_TIMEOUT.
    unfold print_header at 1. rewrite bind_emit.
    unfold bind at 1. rewrite get_time_range_eq, Hrep. cbv beta iota zeta.
    cbn [for_each].
    eapply bind_then.
    { eapply bind_then; [apply (metric_round w Hw) |].
      eapply bind_then; [apply (metric_round w Hw) |].
      eapply bind_then; [apply (metric_round w Hw) |]. reflexivity. }
    unfold ret, outcome. as_extension. rewrite !calls_extend, ?app_nil_r, <- ?app_assoc.
    reflexivity.
  - intros db_identifier. unfold AwsMetrics.get_rds_metrics, AwsMetrics.DEFAULT_TIMEOUT.
    unfold print_header at 1. rewrite bind_emit.
    unfold bind at 1. rewrite get_time_range_eq, Hrep. cbv beta iota zeta.
    cbn [for_each].
    eapply bind_then.
    { eapply bind_then; [apply (metric_round w Hw) |].
      eapply bind_then; [apply (metric_round w Hw) |].
      eapply bind_then; [apply (metric_round w Hw) |]. reflexivity. }
    unfold ret, outcome. as_extension. rewrite !calls_extend, ?app_nil_r, <- ?app_assoc.
    reflexivity.
  - intros cluster c service. unfold AwsMetrics.get_ecs_metrics, AwsMetrics.DEFAULT_TIMEOUT.
    unfold print_header at 1. rewrite bind_emit.
    unfold bind at 1. rewrite get_time_range_eq, Hrep. cbv beta iota zeta.
    unfold print_info at 1. rewrite bind_emit. unfold print at 1. rewrite bind_emit.
    cbn [for_each].
    eapply bind_then.
    { eapply bind_then; [apply (metric_round w Hw) |].
      eapply bind_then; [apply (metric_round w Hw) |]. reflexivity. }
    unfold ret, outcome. as_extension. rewrite !calls_extend, ?app_nil_r, <- ?app_assoc.
    reflexivity.
Qed.

Lemma metric_reports_warn_and_go_on_witness :
  handled Scenarios.denied
  /\ representable Scenarios.denied 24 = true
  /\ fst (AwsMetrics.get_ec2_metrics "i-0abc" 24 Scenarios.denied Scenarios.initial) = inr 0
  /\ length (calls (snd (AwsMetrics.get_rds_metrics "db-1" 24 Scenarios.denied
                           Scenarios.initial))) = 3%nat
  /\ fst (AwsMetrics.get_ecs_metrics "main" (Some "web") 24 Scenarios.denied
            Scenarios.initial) = inr 0.
Proof.
  assert (Hrep : representable Scenarios.denied 24 = true) by reflexivity.
  destruct (metric_reports_warn_and_go_on Scenarios.denied Scenarios.initial 24
              denied_handled Hrep) as (Hec2 & Hrds & Hecs).
  split; [exact denied_handled |]. split; [exact Hrep |].
  rewrite Hec2, Hrds, Hecs. repeat split; reflexivity.
Defined.

(** ** The service listing of [get_ecs_metrics] *)

(** The loop over the service ARNs: one line per ARN, in order. *)
Lemma service_rows w arns :
  forall s,
    for_each (map JStr arns)
      (fun svc_arn => bind (lift (split_last svc_arn))
                        (fun svc_name => print ("  - " +:+ svc_name))) w s
    = (inr tt, extend [] (map (fun arn => Plain ("  - " +:+ arn_name arn)) arns) s).
Proof.
  induction arns as [| arn rest IH]; intros s.
  - cbn. unfold ret. now rewrite extend_nothing.
  - cbn [map]. rewrite for_each_cons.
    eapply bind_then; [reflexivity |]. rewrite IH. unfold arn_name. as_extension.
    reflexivity.
Qed.

(** The loop stops at the first element that is not a string. *)
Lemma service_rows_stop w arns v rest e :
  split_last v = inl e ->
  forall s,
    for_each (map JStr arns ++ v :: rest)%list
      (fun svc_arn => bind (lift (split_last svc_arn))
                        (fun svc_name => print ("  - " +:+ svc_name))) w s
    = (inl e, extend [] (map (fun arn => Plain ("  - " +:+ arn_name arn)) arns) s).
Proof.
  intros Hv. induction arns as [| arn more IH]; intros s.
  - cbn [map app]. rewrite for_each_cons. unfold bind, lift. rewrite Hv.
    now rewrite extend_nothing.
  - cbn [map app]. rewrite for_each_cons.
    eapply bind_then; [reflexivity |]. rewrite IH. unfold arn_name. as_extension.
    reflexivity.
Qed.

(** The beginning of [get_ecs_metrics] without a service, up to the
    decoded listing. *)
Lemma get_ecs_metrics_listing w s cluster service hours :
  service = None \/ service = Some "" ->
  representable w hours = true ->
  exit_zero (outcome w s (services_query cluster) 60) = true ->
  AwsMetrics.get_ecs_metrics cluster service hours w s =
  bind
    (try_except
       (bind (loads (output_of (outcome w s (services_query cluster) 60)))
          (fun services =>
             bind (lift (iterate services))
               (fun svc_arns =>
                  for_each svc_arns
                    (fun svc_arn =>
                       bind (lift (split_last svc_arn))
                         (fun svc_name => print ("  - " +:+ svc_name))))))
       (fun e =>
          match e with
          | JSONDecodeError => Some (print_error "Failed to parse services response")
          | _ => None
          end))
    (fun _ =>
       bind (print "")
         (fun _ =>
            bind (print ("Usage: aws_metrics.py ecs " +:+ cluster +:+ " <service-name>"))
              (fun _ => ret 0)))
    w
    (extend [("aws" :: services_query cluster, 60)]
       [Header ("ECS Metrics: " +:+ cluster); Plain "Services in cluster:"] s).
Proof.
  intros Hsvc Hrep. unfold outcome, services_query, AwsMetrics.get_ecs_metrics.
  unfold print_header at 1. rewrite bind_emit.
  unfold bind at 1. rewrite get_time_range_eq, Hrep. cbv beta iota zeta.
  destruct Hsvc as [-> | ->].
  all: unfold print at 1; rewrite bind_emit;
    unfold AwsMetrics.DEFAULT_TIMEOUT; unfold bind at 1;
    rewrite metrics_run_aws_command; cbn [calls add_line];
    destruct (subprocess_run w (calls s) _ 60) as [e | p]; [discriminate |];
    cbn [exit_zero output_of AwsMetrics.classify AwsMetrics.success AwsMetrics.stdout];
    intros ->; as_extension; reflexivity.
Qed.

(** X14. Without a service name, when the service listing exits with
    code 0 and its output is a JSON array of strings, [get_ecs_metrics]
    returns 0 after that one invocation and prints, in the order of the
    array, one line per ARN showing what follows its last "/", then the
    usage hint. *)
Theorem get_ecs_metrics_lists_service_names
    (w : World) (s : State) (cluster : string) (service : option string) (hours : Z)
    (arns : list string) :
  service = None \/ service = Some "" ->
  representable w hours = true ->
  exit_zero (outcome w s (services_query cluster) 60) = true ->
  json_loads w (output_of (outcome w s (services_query cluster) 60))
  = Some (JArr (map JStr arns)) ->
  AwsMetrics.get_ecs_metrics cluster service hours w s =
  (inr 0,
   extend [("aws" :: services_query cluster, 60)]
     ([Header ("ECS Metrics: " +:+ cluster); Plain "Services in cluster:"]
      ++ map (fun arn => Plain ("  - " +:+ arn_name arn)) arns
      ++ [Plain ""; Plain ("Usage: aws_metrics.py ecs " +:+ cluster +:+ " <service-name>")])
     s).
Proof.
  intros Hsvc Hrep Hok Hloads.
  rewrite (get_ecs_metrics_listing w s cluster service hours Hsvc Hrep Hok).
  eapply bind_then.
  { unfold try_except. unfold bind at 1, loads at 1. rewrite Hloads.
    unfold bind at 1, lift at 1. cbn [iterate]. rewrite service_rows. reflexivity. }
  unfold print. rewrite !bind_emit. unfold ret. as_extension.
  rewrite ?app_nil_r, <- ?app_assoc. reflexivity.
Qed.

Lemma get_ecs_metrics_lists_service_names_witness :
  AwsMetrics.get_ecs_metrics Account.main_cluster None 24 Account.stocked Scenarios.initial =
  (inr 0,
   extend [("aws" :: services_query Account.main_cluster, 60)]
     [Header "ECS Metrics: arn:aws:ecs:eu-west-1:123456789012:cluster/main";
      Plain "Services in cluster:";
      Plain "  - web";
      Plain "  - api";
      Plain "";
      Plain "Usage: aws_metrics.py ecs arn:aws:ecs:eu-west-1:123456789012:cluster/main <service-name>"]
     Scenarios.initial)
  /\ AwsMetrics.get_ecs_metrics "main" (Some "") 24 MoreScenarios.empty_lists
       Scenarios.initial =
     (inr 0,
      extend [("aws" :: services_query "main", 60)]
        [Header "ECS Metrics: main"; Plain "Services in cluster:"; Plain "";
         Plain "Usage: aws_metrics.py ecs main <service-name>"]
        Scenarios.initial).
Proof.
  split.
  - apply (get_ecs_metrics_lists_service_names Account.stocked Scenarios.initial
             Account.main_cluster None 24 [Account.web_service; Account.api_service]);
      [now left | reflexivity | reflexivity | reflexivity].
  - apply (get_ecs_metrics_lists_service_names MoreScenarios.empty_lists Scenarios.initial
             "main" (Some "") 24 []); [now right | reflexivity | reflexivity | reflexivity].
Defined.

(** X15. The handler of the service listing catches [JSONDecodeError]
    only.  When the listing exits with code 0 and its output is JSON that
    cannot be iterated (null, a number, a boolean), [get_ecs_metrics] raises
    [TypeError]; when it is an array whose first element that is not a
    string follows the strings [arns], the names of [arns] are printed and
    [AttributeError] is raised.  In both cases the usage hint is not
    printed. *)
Theorem get_ecs_metrics_raises_on_unexpected_json
    (w : World) (s : State) (cluster : string) (service : option string) (hours : Z)
    (v : json) :
  service = None \/ service = Some "" ->
  representable w hours = true ->
  exit_zero (outcome w s (services_query cluster) 60) = true ->
  json_loads w (output_of (outcome w s (services_query cluster) 60)) = Some v ->
  (iterate v = inl TypeError ->
   AwsMetrics.get_ecs_metrics cluster service hours w s =
   (inl TypeError,
    extend [("aws" :: services_query cluster, 60)]
      [Header ("ECS Metrics: " +:+ cluster); Plain "Services in cluster:"] s))
  /\ (forall arns x rest,
        v = JArr (map JStr arns ++ x :: rest) ->
        split_last x = inl AttributeError ->
        AwsMetrics.get_ecs_metrics cluster service hours w s =
        (inl AttributeError,
         extend [("aws" :: services_query cluster, 60)]
           ([Header ("ECS Metrics: " +:+ cluster); Plain "Services in cluster:"]
            ++ map (fun arn => Plain ("  - " +:+ arn_name arn)) arns)
           s)).
Proof.
  intros Hsvc Hrep Hok Hloads. split.
  - intros Hv. rewrite (get_ecs_metrics_listing w s cluster service hours Hsvc Hrep Hok).
    apply bind_raises. unfold try_except. unfold bind at 1, loads at 1. rewrite Hloads.
    unfold bind at 1, lift at 1. rewrite Hv. reflexivity.
  - intros arns x rest -> Hx.
    rewrite (get_ecs_metrics_listing w s cluster service hours Hsvc Hrep Hok).
    erewrite bind_raises; [as_extension; rewrite ?app_nil_r; reflexivity |].
    unfold try_except. unfold bind at 1, loads at 1. rewrite Hloads.
    unfold bind at 1, lift at 1. cbn [iterate].
    rewrite (service_rows_stop w arns x rest AttributeError Hx). as_extension. reflexivity.
Qed.

Lemma get_ecs_metrics_raises_on_unexpected_json_witness :
  AwsMetrics.get_ecs_metrics "main" None 24 MoreScenarios.sevens Scenarios.initial =
  (inl TypeError,
   extend [("aws" :: services_query "main", 60)]
     [Header "ECS Metrics: main"; Plain "Services in cluster:"] Scenarios.initial).
Proof.
  destruct (get_ecs_metrics_raises_on_unexpected_json MoreScenarios.sevens Scenarios.initial
              "main" None 24 (JInt 7)) as (H & _);
    [now left | reflexivity | reflexivity | reflexivity |].
  apply H. reflexivity.
Defined.

(** ** The name shown for an ARN *)

Lemma split_nonempty sep s : PyStr.split sep s <> [].
Proof.
  destruct s as [| c s]; cbn; [discriminate |].
  destruct (Ascii.eqb c sep); [discriminate |].
  destruct (PyStr.split sep s); discriminate.
Qed.

Lemma split_without sep s : PyStr.occurs sep s = false -> PyStr.split sep s = [s].
Proof.
  induction s as [| c s IH]; [reflexivity |]. cbn.
  intros [Hc Hs]%orb_false_iff. rewrite Hc, (IH Hs). reflexivity.
Qed.

Lemma split_append sep a b :
  PyStr.split sep (a +:+ String sep b) = (PyStr.split sep a ++ PyStr.split sep b)%list.
Proof.
  induction a as [| c a IH].
  - rewrite append_nil_l. cbn. now rewrite Ascii.eqb_refl.
  - rewrite append_cons. cbn [PyStr.split]. rewrite IH.
    destruct (Ascii.eqb c sep); [reflexivity |].
    pose proof (split_nonempty sep a) as Hne.
    destruct (PyStr.split sep a) as [| f fs]; [congruence | reflexivity].
Qed.

Lemma last_field_append l l' :
  l' <> [] -> PyStr.last_field (l ++ l')%list = PyStr.last_field l'.
Proof.
  intros Hne. unfold PyStr.last_field. induction l as [| x l IH]; [reflexivity |].
  cbn [app]. change (List.last (x :: (l ++ l')%list) "")
    with (match (l ++ l')%list with [] => x | _ :: _ => List.last (l ++ l')%list "" end).
  destruct (l ++ l')%list as [| y r] eqn:E; [| exact IH].
  apply app_eq_nil in E. destruct E. congruence.
Qed.

(** A text in which [sep] occurs ends with [sep] and a text without it. *)
Lemma last_occurrence sep s :
  PyStr.occurs sep s = true ->
  exists a b, s = a +:+ String sep b /\ PyStr.occurs sep b = false.
Proof.
  induction s as [| c s IH]; [discriminate |]. cbn [PyStr.occurs].
  destruct (PyStr.occurs sep s) eqn:Hs.
  - intros _. destruct (IH eq_refl) as (a & b & -> & Hb).
    exists (String c a), b. now rewrite append_cons.
  - rewrite orb_false_r. intros ->%Ascii.eqb_eq.
    exists "", s. now rewrite append_nil_l.
Qed.

(** X16. The name the tools show for an ARN, [arn.split("/")[-1]], is
    what follows the last "/" of the ARN: it contains no "/", and the ARN
    is either the name itself or some text, a "/" and the name. *)
Theorem arn_name_follows_last_slash (arn : string) :
  PyStr.occurs "/" (arn_name arn) = false
  /\ (arn = arn_name arn \/ exists before, arn = before +:+ "/" +:+ arn_name arn).
Proof.
  unfold arn_name. destruct (PyStr.occurs "/" arn) eqn:H.
  - destruct (last_occurrence _ _ H) as (a & b & -> & Hb).
    rewrite split_append, last_field_append by apply split_nonempty.
    rewrite (split_without _ _ Hb). cbn [PyStr.last_field List.last].
    split; [exact Hb |]. right. now exists a.
  - rewrite (split_without _ _ H). cbn [PyStr.last_field List.last]. auto.
Qed.

(** ** [list_resources] *)

(** One listing of [list_resources]. *)
Lemma resource_listing w (Hw : handled w) heading query (rows : string -> M unit) s :
  bind (print heading)
    (fun _ =>
       bind (AwsMetrics.run_aws_command query 60)
         (fun result => if AwsMetrics.success result then rows (AwsMetrics.stdout result)
                        else ret tt)) w s
  = if exit_zero (outcome w s query 60)
    then rows (output_of (outcome w s query 60)) w
           (extend [("aws" :: query, 60)] [Plain heading] s)
    else (inr tt, extend [("aws" :: query, 60)] [Plain heading] s).
Proof.
  unfold print at 1. rewrite bind_emit.
  destruct (metrics_run_handled w Hw query 60 (add_line (Plain heading) s))
    as (r & E & Hok & Hout).
  rewrite (bind_returns _ _ _ _ _ _ E). unfold outcome in *. cbn [calls add_line] in Hok, Hout.
  rewrite <- Hok, <- Hout. as_extension. destruct (AwsMetrics.success r); reflexivity.
Qed.

(** X17. In a world that raises nothing unhandled, [list_resources]
    returns normally after one invocation for "ec2", "ecs" and "rds", and
    does nothing at all for any other resource type.  When the listing
    exits with code 0, "ec2" and "rds" print its output as it is and "ecs"
    prints, for each whitespace-separated ARN of the output, what follows
    its last "/"; when the listing fails, only the heading is printed: no
    error is reported. *)
Theorem list_resources_is_silent_on_failure (w : World) (s : State) :
  handled w ->
  (forall resource_type,
     resource_type <> "ec2" -> resource_type <> "ecs" -> resource_type <> "rds" ->
     AwsMetrics.list_resources resource_type w s = (inr tt, s))
  /\ AwsMetrics.list_resources "ec2" w s =
     (inr tt,
      extend [("aws" :: running_instances_query, 60)]
        (Plain "Running instances:"
         :: if exit_zero (outcome w s running_instances_query 60)
            then [Plain (output_of (outcome w s running_instances_query 60))]
            else [])
        s)
  /\ AwsMetrics.list_resources "ecs" w s =
     (inr tt,
      extend [("aws" :: cluster_names_query, 60)]
        (Plain "Available clusters:"
         :: if exit_zero (outcome w s cluster_names_query 60)
            then map (fun arn => Plain ("  " +:+ arn_name arn))
                   (PyStr.split_ws (PyStr.strip (output_of (outcome w s cluster_names_query 60))))
            else [])
        s)
  /\ AwsMetrics.list_resources "rds" w s =
     (inr tt,
      extend [("aws" :: db_instances_query, 60)]
        (Plain "RDS instances:"
         :: if exit_zero (outcome w s db_instances_query 60)
            then [Plain (output_of (outcome w s db_instances_query 60))]
            else [])
        s).
Proof.
  intros Hw. split; [| split; [| split]].
  - intros rt H1 H2 H3. unfold AwsMetrics.list_resources.
    apply String.eqb_neq in H1, H2, H3. now rewrite H1, H2, H3.
  - unfold AwsMetrics.list_resources, AwsMetrics.DEFAULT_TIMEOUT. cbn [String.eqb Ascii.eqb Bool.eqb].
    rewrite (resource_listing w Hw _ _ (fun out => print out)).
    unfold running_instances_query.
    destruct (exit_zero _); [| reflexivity].
    unfold print, emit. as_extension. reflexivity.
  - unfold AwsMetrics.list_resources, AwsMetrics.DEFAULT_TIMEOUT. cbn [String.eqb Ascii.eqb Bool.eqb].
    rewrite (resource_listing w Hw _ _
               (fun out => for_each (PyStr.split_ws (PyStr.strip out))
                             (fun arn => print ("  " +:+ PyStr.last_field (PyStr.split "/" arn))))).
    unfold cluster_names_query.
    destruct (exit_zero _); [| reflexivity].
    rewrite (for_each_effects _ (fun _ => []) (fun arn => [Plain ("  " +:+ arn_name arn)]))
      by (intros x s0; unfold print, emit; as_extension; reflexivity).
    as_extension. f_equal. f_equal.
    + f_equal. generalize (PyStr.split_ws (PyStr.strip (output_of (outcome w s
        ["ecs"; "list-clusters"; "--query"; "clusterArns[*]"; "--output"; "text"] 60)))).
      intros l. induction l; [reflexivity | cbn; now rewrite IHl].
    + f_equal. clear. generalize (PyStr.split_ws (PyStr.strip (output_of (outcome w s
        ["ecs"; "list-clusters"; "--query"; "clusterArns[*]"; "--output"; "text"] 60)))).
      intros l. induction l; [reflexivity | cbn; now rewrite IHl].
  - unfold AwsMetrics.list_resources, AwsMetrics.DEFAULT_TIMEOUT. cbn [String.eqb Ascii.eqb Bool.eqb].
    rewrite (resource_listing w Hw _ _ (fun out => print out)).
    unfold db_instances_query.
    destruct (exit_zero _); [| reflexivity].
    unfold print, emit. as_extension. reflexivity.
Qed.

Lemma stocked_handled : handled Account.stocked.
Proof. intros h argv t e H. discriminate. Qed.

Lemma list_resources_is_silent_on_failure_witness :
  handled Account.stocked
  /\ AwsMetrics.list_resources "ecs" Account.stocked Scenarios.initial =
     (inr tt,
      extend [("aws" :: cluster_names_query, 60)]
        [Plain "Available clusters:"; Plain "  main"; Plain "  batch"] Scenarios.initial)
  /\ AwsMetrics.list_resources "s3" Account.stocked Scenarios.initial
     = (inr tt, Scenarios.initial).
Proof.
  destruct (list_resources_is_silent_on_failure Account.stocked Scenarios.initial
              stocked_handled) as (Hother & _ & Hecs & _).
  split; [exact stocked_handled |]. split; [exact Hecs |].
  apply Hother; discriminate.
Defined.

(** ** [discover_services], listing by listing *)

Lemma bind_ext {A B} (c : M A) (k k' : A -> M B) w s :
  (forall a s', k a w s' = k' a w s') -> bind c k w s = bind c k' w s.
Proof.
  intros H. unfold bind. destruct (c w s) as [[e | a] s']; [reflexivity | apply H].
Qed.

Lemma listing_then {R B} (heading : M unit) (run : M R) (body : R -> M unit)
    (k : unit -> M B) w s :
  bind (bind heading (fun _ => bind run body)) k w s
  = bind heading (fun _ => bind run (fun r => bind (body r) k)) w s.
Proof.
  unfold bind. destruct (heading w s) as [[e | []] s1]; [reflexivity |].
  destruct (run w s1) as [[e | r] s2]; reflexivity.
Qed.

(** [discover_services] is its heading and its five listings, with an
    empty line between two listings. *)
Lemma discover_services_listings w s :
  AwsCheck.discover_services w s =
  (print_header "Service Discovery" ;;
   Discovery.ecs_clusters ;;
   print "" ;;
   Discovery.ec2_instances ;;
   print "" ;;
   Discovery.lambda_functions ;;
   print "" ;;
   Discovery.load_balancers ;;
   print "" ;;
   Discovery.rds_instances) w s.
Proof.
  unfold AwsCheck.discover_services. symmetry.
  apply bind_ext; intros _ s1.
  unfold Discovery.ecs_clusters.
  etransitivity; [apply listing_then |].
  apply bind_ext; intros _ s2. apply bind_ext; intros r2 s3.
  apply bind_ext; intros _ s4. apply bind_ext; intros _ s5.
  unfold Discovery.ec2_instances.
  etransitivity; [apply listing_then |].
  apply bind_ext; intros _ s6. apply bind_ext; intros r6 s7.
  apply bind_ext; intros _ s8. apply bind_ext; intros _ s9.
  unfold Discovery.lambda_functions.
  etransitivity; [apply listing_then |].
  apply bind_ext; intros _ s10. apply bind_ext; intros r10 s11.
  apply bind_ext; intros _ s12. apply bind_ext; intros _ s13.
  unfold Discovery.load_balancers.
  etransitivity; [apply listing_then |].
  apply bind_ext; intros _ s14. apply bind_ext; intros r14 s15.
  apply bind_ext; intros _ s16. apply bind_ext; intros _ s17.
  reflexivity.
Qed.

Lemma try_except_returns {A} (body : M A) handler w s a s' :
  body w s = (inr a, s') -> try_except body handler w s = (inr a, s').
Proof. intros H. unfold try_except. now rewrite H. Qed.

(** The beginning of a listing whose query exits with code 0 and prints
    the JSON value [v]. *)
Lemma listing_parsed w heading query (body : json -> M unit) parse_message fail_message s v :
  exit_zero (outcome w s query 30) = true ->
  json_loads w (output_of (outcome w s query 30)) = Some v ->
  bind (print heading)
    (fun _ =>
       bind (AwsCheck.run_aws_command query 30)
         (fun result =>
            if AwsCheck.success result
            then try_except (bind (loads (AwsCheck.stdout result)) body)
                   (AwsCheck.on_decode_error parse_message)
            else print_error fail_message)) w s
  = try_except (body v) (AwsCheck.on_decode_error parse_message) w
      (extend [("aws" :: query, 30)] [Plain heading] s).
Proof.
  unfold print at 1. rewrite bind_emit. unfold bind at 1.
  rewrite check_run_aws_command. unfold outcome. cbn [calls add_line].
  destruct (subprocess_run w (calls s) ("aws" :: query) 30) as [e | p]; [discriminate |].
  cbn [exit_zero output_of AwsCheck.classify AwsCheck.success AwsCheck.stdout].
  intros -> Hloads. as_extension.
  unfold try_except, bind, loads. rewrite Hloads. reflexivity.
Qed.

Lemma fmt_then {B} v (k : string -> M B) w s : bind (fmt v) k w s = k (shown w v) w s.
Proof. reflexivity. Qed.

(** The rows of the Lambda listing. *)
Lemma function_rows w functions :
  forall s,
    for_each (map pair_row functions)
      (fun func =>
         bind (lift (unpack 2 func))
           (fun fields =>
              match fields with
              | [name; runtime] =>
                  bind (fmt name)
                    (fun name =>
                       bind (fmt runtime)
                         (fun runtime => print_info (name +:+ " (" +:+ runtime +:+ ")")))
              | _ => raise ValueError
              end)) w s
    = (inr tt, extend [] (map (function_line w) functions) s).
Proof.
  induction functions as [| [a b] rest IH]; intros s.
  - cbn. unfold ret. now rewrite extend_nothing.
  - cbn [map]. rewrite for_each_cons.
    eapply bind_then; [reflexivity |]. rewrite IH. as_extension. reflexivity.
Qed.

(** The rows of the load balancer and the RDS listing. *)
Lemma three_column_rows w rows :
  forall s,
    for_each (map triple_row rows) AwsCheck.print_row3 w s
    = (inr tt, extend [] (map (row3_line w) rows) s).
Proof.
  induction rows as [| [[a b] c] rest IH]; intros s.
  - cbn. unfold ret. now rewrite extend_nothing.
  - cbn [map]. rewrite for_each_cons.
    eapply bind_then; [reflexivity |]. rewrite IH. as_extension. reflexivity.
Qed.

(** The rows of the EC2 listing. *)
Lemma instance_rows w rows :
  forall s,
    for_each (map triple_row rows)
      (fun inst =>
         bind (lift (unpack 3 inst))
           (fun fields =>
              match fields with
              | [instance_id; name; instance_type] =>
                  let name := if truthy name then name else JStr "unnamed" in
                  bind (fmt instance_id)
                    (fun instance_id =>
                       bind (fmt name)
                         (fun name =>
                            bind (fmt instance_type)
                              (fun instance_type =>
                                 print_info (instance_id +:+ " - " +:+ name +:+ " ("
                                             +:+ instance_type +:+ ")"))))
              | _ => raise ValueError
              end)) w s
    = (inr tt, extend [] (map (instance_line w) rows) s).
Proof.
  induction rows as [| [[a b] c] rest IH]; intros s.
  - cbn. unfold ret. now rewrite extend_nothing.
  - cbn [map]. rewrite for_each_cons.
    eapply bind_then; [reflexivity |]. rewrite IH. as_extension. reflexivity.
Qed.

Lemma flatten_rows (reservations : list (list (json * json * json))) :
  AwsCheck.flatten (map (fun r => JArr (map triple_row r)) reservations)
  = inr (map triple_row (concat reservations)).
Proof.
  induction reservations as [| r rest IH]; [reflexivity |].
  cbn [map AwsCheck.flatten iterate concat]. rewrite IH, map_app. reflexivity.
Qed.

(** X18. When the Lambda listing exits with code 0 and prints a JSON
    array of rows of two columns, the listing shows the first ten rows, in
    order, as "name (runtime)"; beyond ten rows, one more line tells how
    many rows are not shown; without any row, a warning is printed. *)
Theorem lambda_functions_shows_first_ten
    (w : World) (s : State) (functions : list (json * json)) :
  exit_zero (outcome w s functions_query 30) = true ->
  json_loads w (output_of (outcome w s functions_query 30))
  = Some (JArr (map pair_row functions)) ->
  Discovery.lambda_functions w s =
  (inr tt,
   extend [("aws" :: functions_query, 30)]
     (Plain "Lambda Functions:"
      :: rows_or_warning (firstn 10 functions) (function_line w) "No Lambda functions found"
      ++ more_functions (Z.of_nat (length functions)))
     s).
Proof.
  intros Hok Hloads. unfold Discovery.lambda_functions, AwsCheck.DEFAULT_TIMEOUT.
  etransitivity; [apply (listing_parsed w _ functions_query _ _ _ s _ Hok Hloads) |].
  apply try_except_returns.
  destruct functions as [| f rest].
  - cbn [map truthy]. unfold print_warning, emit. as_extension. reflexivity.
  - cbn [map truthy]. eapply bind_then; [reflexivity |].
    eapply bind_then; [reflexivity |].
    eapply bind_then.
    { change (firstn 10 (pair_row f :: map pair_row rest))
        with (firstn 10 (map pair_row (f :: rest))).
      rewrite firstn_map. apply function_rows. }
    eapply bind_then; [reflexivity |].
    change (length (pair_row f :: map pair_row rest))
      with (length (map pair_row (f :: rest))).
    rewrite length_map. unfold more_functions, rows_or_warning.
    destruct (10 <? Z.of_nat (length (f :: rest))).
    + unfold print, emit. as_extension. reflexivity.
    + unfold ret. as_extension. rewrite ?app_nil_r. reflexivity.
Qed.

Lemma lambda_functions_shows_first_ten_witness :
  Discovery.lambda_functions Account.stocked Scenarios.initial =
  (inr tt,
   extend [("aws" :: functions_query, 30)]
     [Plain "Lambda Functions:";
      Info "resize (python3.12)"; Info "thumbnail (python3.12)"; Info "ingest (nodejs20.x)";
      Info "notify (nodejs20.x)"; Info "billing (java21)"; Info "export (python3.12)";
      Info "cleanup (python3.12)"; Info "audit (go1.x)"; Info "login (nodejs20.x)";
      Info "signup (nodejs20.x)";
      Plain "    ... and 2 more"]
     Scenarios.initial).
Proof.
  apply (lambda_functions_shows_first_ten Account.stocked Scenarios.initial
           (map (fun f => (JStr (fst f), JStr (snd f))) Account.functions));
    reflexivity.
Defined.

(** X19. When the EC2 listing exits with code 0 and prints a JSON array
    of reservations, each an array of rows of three columns, the listing
    shows the rows of all reservations, in order, as "id - name (type)",
    where a name that is null or empty is shown as "unnamed"; without any
    row, a warning is printed. *)
Theorem ec2_instances_shows_all_reservations
    (w : World) (s : State) (reservations : list (list (json * json * json))) :
  exit_zero (outcome w s instances_query 30) = true ->
  json_loads w (output_of (outcome w s instances_query 30))
  = Some (JArr (map (fun r => JArr (map triple_row r)) reservations)) ->
  Discovery.ec2_instances w s =
  (inr tt,
   extend [("aws" :: instances_query, 30)]
     (Plain "EC2 Instances (running):"
      :: rows_or_warning (concat reservations) (instance_line w)
           "No running EC2 instances found")
     s).
Proof.
  intros Hok Hloads. unfold Discovery.ec2_instances, AwsCheck.DEFAULT_TIMEOUT.
  etransitivity; [apply (listing_parsed w _ instances_query _ _ _ s _ Hok Hloads) |].
  apply try_except_returns.
  eapply bind_then; [reflexivity |].
  eapply bind_then; [unfold lift; rewrite flatten_rows; reflexivity |].
  unfold rows_or_warning.
  destruct (concat reservations) as [| row rows] eqn:E.
  - cbn [map]. unfold print_warning, emit. as_extension. reflexivity.
  - change (map triple_row (row :: rows)) with (triple_row row :: map triple_row rows).
    cbv beta iota.
    change (triple_row row :: map triple_row rows) with (map triple_row (row :: rows)).
    rewrite instance_rows. as_extension. reflexivity.
Qed.

Lemma ec2_instances_shows_all_reservations_witness :
  Discovery.ec2_instances Account.stocked Scenarios.initial =
  (inr tt,
   extend [("aws" :: instances_query, 30)]
     [Plain "EC2 Instances (running):";
      Info "i-0a1b - web-1 (t3.micro)";
      Info "i-0c2d - unnamed (t3.small)"]
     Scenarios.initial).
Proof.
  apply (ec2_instances_shows_all_reservations Account.stocked Scenarios.initial
           [[(JStr "i-0a1b", JStr "web-1", JStr "t3.micro")];
            [(JStr "i-0c2d", JNull, JStr "t3.small")]]);
    reflexivity.
Defined.

(** X20. When the load balancer listing, or the RDS listing, exits with
    code 0 and prints a JSON array of rows of three columns, it shows
    every row, in order, as "a (b) - c", however many there are; without
    any row, a warning is printed. *)
Theorem three_column_listings_show_every_row
    (w : World) (s : State) (rows : list (json * json * json)) :
  (exit_zero (outcome w s balancers_query 30) = true ->
   json_loads w (output_of (outcome w s balancers_query 30))
   = Some (JArr (map triple_row rows)) ->
   Discovery.load_balancers w s =
   (inr tt,
    extend [("aws" :: balancers_query, 30)]
      (Plain "Load Balancers:" :: rows_or_warning rows (row3_line w) "No load balancers found")
      s))
  /\ (exit_zero (outcome w s databases_query 30) = true ->
      json_loads w (output_of (outcome w s databases_query 30))
      = Some (JArr (map triple_row rows)) ->
      Discovery.rds_instances w s =
      (inr tt,
       extend [("aws" :: databases_query, 30)]
         (Plain "RDS Instances:" :: rows_or_warning rows (row3_line w) "No RDS instances found")
         s)).
Proof.
  split; intros Hok Hloads.
  - unfold Discovery.load_balancers, AwsCheck.DEFAULT_TIMEOUT.
    etransitivity; [apply (listing_parsed w _ balancers_query _ _ _ s _ Hok Hloads) |].
    apply try_except_returns. unfold rows_or_warning.
    destruct rows as [| row rest].
    + cbn [map truthy]. unfold print_warning, emit. as_extension. reflexivity.
    + destruct row as [[a b] c]. cbn [map truthy triple_row].
      eapply bind_then; [reflexivity |].
      change (JArr [a; b; c] :: map triple_row rest) with (map triple_row ((a, b, c) :: rest)).
      rewrite three_column_rows. as_extension. reflexivity.
  - unfold Discovery.rds_instances, AwsCheck.DEFAULT_TIMEOUT.
    etransitivity; [apply (listing_parsed w _ databases_query _ _ _ s _ Hok Hloads) |].
    apply try_except_returns. unfold rows_or_warning.
    destruct rows as [| row rest].
    + cbn [map truthy]. unfold print_warning, emit. as_extension. reflexivity.
    + destruct row as [[a b] c]. cbn [map truthy triple_row].
      eapply bind_then; [reflexivity |].
      change (JArr [a; b; c] :: map triple_row rest) with (map triple_row ((a, b, c) :: rest)).
      rewrite three_column_rows. as_extension. reflexivity.
Qed.

Lemma three_column_listings_show_every_row_witness :
  Discovery.load_balancers Account.stocked Scenarios.initial =
  (inr tt,
   extend [("aws" :: balancers_query, 30)]
     [Plain "Load Balancers:"; Info "front (application) - active"] Scenarios.initial)
  /\ Discovery.rds_instances Account.stocked Scenarios.initial =
     (inr tt,
      extend [("aws" :: databases_query, 30)]
        [Plain "RDS Instances:"; Warning "No RDS instances found"] Scenarios.initial).
Proof.
  split.
  - apply (three_column_listings_show_every_row Account.stocked Scenarios.initial
             [(JStr "front", JStr "application", JStr "active")]); reflexivity.
  - apply (three_column_listings_show_every_row Account.stocked Scenarios.initial []);
      reflexivity.
Defined.

(** *** The ECS listing *)

Lemma strings_of_strings (l : list string) :
  omap (fun v => match v with JStr x => Some x | _ => None end) (map JStr l) = l.
Proof. induction l as [| x l IH]; [reflexivity |]. cbn. now rewrite IH. Qed.

(** The services of one cluster. *)
Lemma service_lines w services :
  forall s,
    for_each (map JStr services)
      (fun service_arn =>
         bind (lift (split_last service_arn))
           (fun service_name => print ("    - " +:+ service_name))) w s
    = (inr tt,
       extend [] (map (fun service => Plain ("    - " +:+ arn_name service)) services) s).
Proof.
  induction services as [| arn rest IH]; intros s.
  - cbn. unfold ret. now rewrite extend_nothing.
  - cbn [map]. rewrite for_each_cons.
    eapply bind_then; [reflexivity |]. rewrite IH. unfold arn_name. as_extension.
    reflexivity.
Qed.

(** One round of the loop over the clusters. *)
Lemma cluster_round w (Hw : handled w) arn s
    (Hs : forall p,
        subprocess_run w (calls s) ("aws" :: services_query arn) 30 = inr p ->
        cp_returncode p = 0 ->
        exists services, json_loads w (cp_stdout p) = Some (JArr (map JStr services))) :
  bind (print_info (PyStr.last_field (PyStr.split "/" arn)))
    (fun _ =>
       bind (AwsCheck.run_aws_command
               ["ecs"; "list-services"; "--cluster"; arn;
                "--query"; "serviceArns[*]"; "--output"; "json"] 30)
         (fun svc_result =>
            if AwsCheck.success svc_result
            then bind (loads (AwsCheck.stdout svc_result))
                   (fun services =>
                      bind (lift (iterate services))
                        (fun service_arns =>
                           for_each service_arns
                             (fun service_arn =>
                                bind (lift (split_last service_arn))
                                  (fun service_name => print ("    - " +:+ service_name)))))
            else ret tt)) w s
  = (inr tt,
     extend [("aws" :: services_query arn, 30)]
       (Info (arn_name arn)
        :: map (fun service => Plain ("    - " +:+ arn_name service))
             (listed_strings w (subprocess_run w (calls s) ("aws" :: services_query arn) 30)))
       s).
Proof.
  unfold print_info at 1. rewrite bind_emit. unfold bind at 1.
  rewrite check_run_aws_command. cbn [calls add_line].
  change ["ecs"; "list-services"; "--cluster"; arn;
          "--query"; "serviceArns[*]"; "--output"; "json"] with (services_query arn).
  unfold listed_strings.
  destruct (subprocess_run w (calls s) ("aws" :: services_query arn) 30) as [e | p] eqn:E.
  - destruct (Hw _ _ _ _ E) as [-> | ->];
      cbn [AwsCheck.classify AwsCheck.success exit_zero map]; unfold ret;
      as_extension; reflexivity.
  - cbn [AwsCheck.classify AwsCheck.success AwsCheck.stdout exit_zero output_of].
    destruct (Z.eqb_spec (cp_returncode p) 0) as [Hz | Hnz].
    + destruct (Hs _ eq_refl Hz) as (services & Hloads). rewrite Hloads.
      rewrite strings_of_strings.
      eapply bind_then; [unfold loads; rewrite Hloads; reflexivity |].
      eapply bind_then; [reflexivity |].
      rewrite service_lines. as_extension. reflexivity.
    + cbn [map]. unfold ret. as_extension. reflexivity.
Qed.

Lemma cluster_rounds w (Hw : handled w) arns :
  forall s,
    services_usable w (calls s) arns ->
    for_each (map JStr arns)
      (fun cluster_arn =>
         match cluster_arn with
         | JStr arn =>
             let cluster_name := PyStr.last_field (PyStr.split "/" arn) in
             bind (print_info cluster_name)
               (fun _ =>
                  bind (AwsCheck.run_aws_command
                          ["ecs"; "list-services"; "--cluster"; arn;
                           "--query"; "serviceArns[*]"; "--output"; "json"] 30)
                    (fun svc_result =>
                       if AwsCheck.success svc_result
                       then bind (loads (AwsCheck.stdout svc_result))
                              (fun services =>
                                 bind (lift (iterate services))
                                   (fun service_arns =>
                                      for_each service_arns
                                        (fun service_arn =>
                                           bind (lift (split_last service_arn))
                                             (fun service_name =>
                                                print ("    - " +:+ service_name)))))
                       else ret tt))
         | _ => raise AttributeError
         end) w s
    = (inr tt,
       extend (map (fun arn => ("aws" :: services_query arn, 30)) arns)
         (cluster_sections w (calls s) arns) s).
Proof.
  induction arns as [| arn rest IH]; intros s Hs.
  - cbn. unfold ret. now rewrite extend_nothing.
  - destruct Hs as (Hfirst & Hrest). cbn [map]. rewrite for_each_cons.
    eapply bind_then; [apply (cluster_round w Hw arn s Hfirst) |].
    rewrite IH by (now rewrite calls_extend).
    as_extension. rewrite calls_extend. cbn [cluster_sections].
    rewrite <- ?app_assoc. reflexivity.
Qed.

Lemma services_listed_usable w (Hs : services_listed w) arns :
  forall h, services_usable w h arns.
Proof.
  induction arns as [| arn rest IH]; intros h; [exact I |].
  split; [| apply IH]. intros p E Hz. exact (Hs _ _ _ E Hz).
Qed.

(** The loop over the clusters ends where a service listing cannot be
    parsed. *)
Lemma cluster_rounds_stop w (Hw : handled w) before arn others :
  forall s,
    services_usable w (calls s) before ->
    exit_zero (subprocess_run w
                 (calls s ++ map (fun a => ("aws" :: services_query a, 30)) before)
                 ("aws" :: services_query arn) 30) = true ->
    json_loads w
      (output_of (subprocess_run w
                    (calls s ++ map (fun a => ("aws" :: services_query a, 30)) before)
                    ("aws" :: services_query arn) 30)) = None ->
    for_each (map JStr before ++ JStr arn :: others)%list
      (fun cluster_arn =>
         match cluster_arn with
         | JStr arn =>
             let cluster_name := PyStr.last_field (PyStr.split "/" arn) in
             bind (print_info cluster_name)
               (fun _ =>
                  bind (AwsCheck.run_aws_command
                          ["ecs"; "list-services"; "--cluster"; arn;
                           "--query"; "serviceArns[*]"; "--output"; "json"] 30)
                    (fun svc_result =>
                       if AwsCheck.success svc_result
                       then bind (loads (AwsCheck.stdout svc_result))
                              (fun services =>
                                 bind (lift (iterate services))
                                   (fun service_arns =>
                                      for_each service_arns
                                        (fun service_arn =>
                                           bind (lift (split_last service_arn))
                                             (fun service_name =>
                                                print ("    - " +:+ service_name)))))
                       else ret tt))
         | _ => raise AttributeError
         end) w s
    = (inl JSONDecodeError,
       extend (map (fun a => ("aws" :: services_query a, 30)) before
               ++ [("aws" :: services_query arn, 30)])
         (cluster_sections w (calls s) before ++ [Info (arn_name arn)]) s).
Proof.
  induction before as [| a rest IH]; intros s Hs Hok Hloads.
  - cbn [map app cluster_sections] in *. rewrite app_nil_r in Hok, Hloads.
    rewrite for_each_cons. apply bind_raises. cbv zeta.
    unfold print_info at 1. rewrite bind_emit. unfold bind at 1.
    rewrite check_run_aws_command. cbn [calls add_line].
    change ["ecs"; "list-services"; "--cluster"; arn;
            "--query"; "serviceArns[*]"; "--output"; "json"] with (services_query arn).
    destruct (subprocess_run w (calls s) ("aws" :: services_query arn) 30) as [e | p];
      [discriminate |].
    cbn [exit_zero output_of] in Hok, Hloads.
    cbn [AwsCheck.classify AwsCheck.success AwsCheck.stdout]. rewrite Hok.
    apply bind_raises. unfold loads. rewrite Hloads. unfold arn_name.
    as_extension. reflexivity.
  - destruct Hs as (Hfirst & Hrest). cbn [map app]. rewrite for_each_cons.
    eapply bind_then; [apply (cluster_round w Hw a s Hfirst) |].
    rewrite IH.
    + as_extension. rewrite calls_extend. cbn [cluster_sections].
      rewrite <- ?app_assoc. reflexivity.
    + now rewrite calls_extend.
    + rewrite calls_extend, <- app_assoc. exact Hok.
    + rewrite calls_extend, <- app_assoc. exact Hloads.
Qed.

(** The ECS listing when the services of the cluster [arn], which follows
    the clusters [before], are printed as text that is not JSON. *)
Lemma ecs_clusters_unparsable_services w s before arn others :
  handled w ->
  exit_zero (outcome w s clusters_query 30) = true ->
  json_loads w (output_of (outcome w s clusters_query 30))
  = Some (JArr (map JStr before ++ JStr arn :: others)) ->
  services_usable w (calls s ++ [("aws" :: clusters_query, 30)]) before ->
  exit_zero (subprocess_run w
               (calls s ++ ("aws" :: clusters_query, 30)
                             :: map (fun a => ("aws" :: services_query a, 30)) before)
               ("aws" :: services_query arn) 30) = true ->
  json_loads w
    (output_of (subprocess_run w
                  (calls s ++ ("aws" :: clusters_query, 30)
                                :: map (fun a => ("aws" :: services_query a, 30)) before)
                  ("aws" :: services_query arn) 30)) = None ->
  Discovery.ecs_clusters w s =
  (inr tt,
   extend
     (("aws" :: clusters_query, 30)
      :: map (fun a => ("aws" :: services_query a, 30)) before
      ++ [("aws" :: services_query arn, 30)])
     (Plain "ECS Clusters:"
      :: cluster_sections w (calls s ++ [("aws" :: clusters_query, 30)]) before
      ++ [Info (arn_name arn); Error "Failed to parse ECS clusters response"])
     s).
Proof.
  intros Hw Hok Hloads Hs Hok' Hloads'.
  unfold Discovery.ecs_clusters, AwsCheck.DEFAULT_TIMEOUT.
  etransitivity; [apply (listing_parsed w _ clusters_query _ _ _ s _ Hok Hloads) |].
  unfold try_except.
  match goal with
  | |- match ?body w ?s1 with _ => _ end = _ =>
      assert (E : body w s1 =
                  (inl JSONDecodeError,
                   extend
                     (("aws" :: clusters_query, 30)
                      :: map (fun a => ("aws" :: services_query a, 30)) before
                      ++ [("aws" :: services_query arn, 30)])
                     (Plain "ECS Clusters:"
                      :: cluster_sections w (calls s ++ [("aws" :: clusters_query, 30)]) before
                      ++ [Info (arn_name arn)]) s))
  end.
  { assert (Ht : truthy (JArr (map JStr before ++ JStr arn :: others)) = true)
      by (destruct before; reflexivity).
    rewrite Ht. eapply bind_then; [reflexivity |].
    rewrite (cluster_rounds_stop w Hw before arn others).
    - as_extension. rewrite calls_extend. reflexivity.
    - now rewrite calls_extend.
    - rewrite calls_extend, <- app_assoc. exact Hok'.
    - rewrite calls_extend, <- app_assoc. exact Hloads'. }
  rewrite E. cbn [AwsCheck.on_decode_error]. unfold print_error, emit. as_extension.
  rewrite <- ?app_assoc. reflexivity.
Qed.

(** X21. In a world that raises nothing unhandled and whose successful
    service listings print JSON arrays of strings: when the cluster
    listing exits with code 0 and prints a JSON array of ARNs, the ECS
    listing queries the services of every cluster, in order, passing the
    whole ARN of the cluster, and returns normally.  Each cluster is shown
    by what follows the last "/" of its ARN, with the names of its
    services below it; a cluster whose services cannot be listed is shown
    without services and without an error. *)
Theorem ecs_clusters_queries_every_cluster (w : World) (s : State) (arns : list string) :
  handled w ->
  services_listed w ->
  exit_zero (outcome w s clusters_query 30) = true ->
  json_loads w (output_of (outcome w s clusters_query 30)) = Some (JArr (map JStr arns)) ->
  Discovery.ecs_clusters w s =
  (inr tt,
   extend
     (("aws" :: clusters_query, 30) :: map (fun arn => ("aws" :: services_query arn, 30)) arns)
     (Plain "ECS Clusters:"
      :: match arns with
         | [] => [Warning "No ECS clusters found"]
         | _ => cluster_sections w (calls s ++ [("aws" :: clusters_query, 30)]) arns
         end)
     s).
Proof.
  intros Hw Hs Hok Hloads. unfold Discovery.ecs_clusters, AwsCheck.DEFAULT_TIMEOUT.
  etransitivity; [apply (listing_parsed w _ clusters_query _ _ _ s _ Hok Hloads) |].
  apply try_except_returns.
  destruct arns as [| arn rest].
  - cbn [map truthy]. unfold print_warning, emit. as_extension. reflexivity.
  - cbn [map truthy]. eapply bind_then; [reflexivity |].
    change (JStr arn :: map JStr rest) with (map JStr (arn :: rest)).
    rewrite (cluster_rounds w Hw) by apply (services_listed_usable w Hs).
    as_extension. rewrite calls_extend. reflexivity.
Qed.

Lemma stocked_services_listed : services_listed Account.stocked.
Proof.
  intros h cluster p. cbn [subprocess_run Account.stocked].
  unfold Account.answer, services_query.
  destruct (String.eqb cluster Account.main_cluster); intros [= <-]; [| discriminate].
  intros _. exists [Account.web_service; Account.api_service]. reflexivity.
Qed.

Lemma ecs_clusters_queries_every_cluster_witness :
  Discovery.ecs_clusters Account.stocked Scenarios.initial =
  (inr tt,
   extend
     [("aws" :: clusters_query, 30);
      ("aws" :: services_query Account.main_cluster, 30);
      ("aws" :: services_query Account.batch_cluster, 30)]
     [Plain "ECS Clusters:";
      Info "main"; Plain "    - web"; Plain "    - api";
      Info "batch"]
     Scenarios.initial).
Proof.
  apply (ecs_clusters_queries_every_cluster Account.stocked Scenarios.initial
           [Account.main_cluster; Account.batch_cluster]
           stocked_handled stocked_services_listed);
    reflexivity.
Defined.

(** X22. In a world that raises nothing unhandled: when the services
    of a cluster are printed with exit code 0 as text that is not JSON,
    the service listings of the clusters before it being usable, the ECS
    listing stops at that cluster.  It has shown the clusters before it
    with their services; it reports that the response of the cluster
    listing could not be parsed, returns normally, and queries none of the
    clusters that follow. *)
Theorem unparsable_services_end_the_ecs_listing
    (w : World) (s : State) (before : list string) (arn : string) (others : list json) :
  handled w ->
  exit_zero (outcome w s clusters_query 30) = true ->
  json_loads w (output_of (outcome w s clusters_query 30))
  = Some (JArr (map JStr before ++ JStr arn :: others)) ->
  services_usable w (calls s ++ [("aws" :: clusters_query, 30)]) before ->
  exit_zero (subprocess_run w
               (calls s ++ ("aws" :: clusters_query, 30)
                             :: map (fun a => ("aws" :: services_query a, 30)) before)
               ("aws" :: services_query arn) 30) = true ->
  json_loads w
    (output_of (subprocess_run w
                  (calls s ++ ("aws" :: clusters_query, 30)
                                :: map (fun a => ("aws" :: services_query a, 30)) before)
                  ("aws" :: services_query arn) 30)) = None ->
  Discovery.ecs_clusters w s =
  (inr tt,
   extend
     (("aws" :: clusters_query, 30)
      :: map (fun a => ("aws" :: services_query a, 30)) before
      ++ [("aws" :: services_query arn, 30)])
     (Plain "ECS Clusters:"
      :: cluster_sections w (calls s ++ [("aws" :: clusters_query, 30)]) before
      ++ [Info (arn_name arn); Error "Failed to parse ECS clusters response"])
     s).
Proof.
  intros Hw Hok Hloads Hs Hok' Hloads'.
  exact (ecs_clusters_unparsable_services w s before arn others Hw Hok Hloads Hs Hok' Hloads').
Qed.

Lemma muddled_handled : handled Account.muddled.
Proof. intros h argv t e H. discriminate. Qed.

Lemma unparsable_services_end_the_ecs_listing_witness :
  Discovery.ecs_clusters Account.muddled Scenarios.initial =
  (inr tt,
   extend
     [("aws" :: clusters_query, 30);
      ("aws" :: services_query Account.main_cluster, 30);
      ("aws" :: services_query Account.batch_cluster, 30)]
     [Plain "ECS Clusters:";
      Info "main"; Plain "    - web"; Plain "    - api";
      Info "batch";
      Error "Failed to parse ECS clusters response"]
     Scenarios.initial).
Proof.
  apply (unparsable_services_end_the_ecs_listing Account.muddled Scenarios.initial
           [Account.main_cluster] Account.batch_cluster [JStr Account.spare_cluster]
           muddled_handled); try reflexivity.
  split; [| exact I]. intros p [= <-] _.
  exists [Account.web_service; Account.api_service]. reflexivity.
Defined.

(** *** An account without resources *)

(** One listing of [discover_services] in a world whose successful output
    is always the empty array. *)
Lemma hollow_listing {B} w (Hw : handled w) (Hh : hollow w)
    query (rest : json -> M unit) parse_message fail_message warning (k : unit -> M B) s :
  (forall s', rest (JArr []) w s' = (inr tt, add_line (Warning warning) s')) ->
  bind (AwsCheck.run_aws_command query 30)
    (fun result =>
       bind (if AwsCheck.success result
             then try_except (bind (loads (AwsCheck.stdout result)) rest)
                    (AwsCheck.on_decode_error parse_message)
             else print_error fail_message) k) w s
  = k tt w (add_line (if exit_zero (outcome w s query 30)
                      then Warning warning else Error fail_message)
              (add_call ("aws" :: query, 30) s)).
Proof.
  intros Hrest. unfold bind at 1. rewrite check_run_aws_command. unfold outcome.
  destruct (subprocess_run w (calls s) ("aws" :: query) 30) as [e | p] eqn:E.
  - destruct (Hw _ _ _ _ E) as [-> | ->]; reflexivity.
  - cbn [AwsCheck.classify AwsCheck.success exit_zero AwsCheck.stdout].
    destruct (Z.eqb_spec (cp_returncode p) 0) as [Hz | Hnz]; [| reflexivity].
    unfold bind at 1. unfold try_except, bind at 1, loads.
    rewrite (Hh _ _ _ _ E Hz), Hrest. reflexivity.
Qed.

Lemma hollow_last_listing w (Hw : handled w) (Hh : hollow w)
    query (rest : json -> M unit) parse_message fail_message warning s :
  (forall s', rest (JArr []) w s' = (inr tt, add_line (Warning warning) s')) ->
  bind (AwsCheck.run_aws_command query 30)
    (fun result =>
       if AwsCheck.success result
       then try_except (bind (loads (AwsCheck.stdout result)) rest)
              (AwsCheck.on_decode_error parse_message)
       else print_error fail_message) w s
  = (inr tt, add_line (if exit_zero (outcome w s query 30)
                       then Warning warning else Error fail_message)
               (add_call ("aws" :: query, 30) s)).
Proof.
  intros Hrest. unfold bind at 1. rewrite check_run_aws_command. unfold outcome.
  destruct (subprocess_run w (calls s) ("aws" :: query) 30) as [e | p] eqn:E.
  - destruct (Hw _ _ _ _ E) as [-> | ->]; reflexivity.
  - cbn [AwsCheck.classify AwsCheck.success exit_zero AwsCheck.stdout].
    destruct (Z.eqb_spec (cp_returncode p) 0) as [Hz | Hnz]; [| reflexivity].
    unfold try_except, bind at 1, loads.
    rewrite (Hh _ _ _ _ E Hz), Hrest. reflexivity.
Qed.

(** X23. In a world that raises nothing unhandled and whose successful
    invocations all print the empty JSON array, [discover_services]
    returns normally after its five queries and prints, for each listing,
    the warning that nothing was found when the query exited with code 0
    and the error of the listing when it failed. *)
Theorem discover_services_of_an_empty_account (w : World) (s : State) :
  handled w ->
  hollow w ->
  AwsCheck.discover_services w s =
  (inr tt,
   extend (map (fun q => ("aws" :: q, 30)) discovery_queries)
     (discovery_of_nothing (probes w (calls s) 30 discovery_queries))
     s).
Proof.
  intros Hw Hh. unfold AwsCheck.discover_services, AwsCheck.DEFAULT_TIMEOUT.
  unfold print_header at 1. rewrite bind_emit.
  unfold print at 1. rewrite bind_emit.
  rewrite (hollow_listing w Hw Hh _ _ _ _ "No ECS clusters found") by reflexivity.
  unfold print at 1. rewrite bind_emit. unfold print at 1. rewrite bind_emit.
  rewrite (hollow_listing w Hw Hh _ _ _ _ "No running EC2 instances found") by reflexivity.
  unfold print at 1. rewrite bind_emit. unfold print at 1. rewrite bind_emit.
  rewrite (hollow_listing w Hw Hh _ _ _ _ "No Lambda functions found") by reflexivity.
  unfold print at 1. rewrite bind_emit. unfold print at 1. rewrite bind_emit.
  rewrite (hollow_listing w Hw Hh _ _ _ _ "No load balancers found") by reflexivity.
  unfold print at 1. rewrite bind_emit. unfold print at 1. rewrite bind_emit.
  rewrite (hollow_last_listing w Hw Hh _ _ _ _ "No RDS instances found") by reflexivity.
  f_equal. unfold outcome. apply state_eq;
    cbn [printed calls files add_line add_call extend probes discovery_queries
           discovery_of_nothing map];
    rewrite <- ?app_assoc; reflexivity.
Qed.

Lemma empty_lists_handled : handled MoreScenarios.empty_lists.
Proof. intros h argv t e H. discriminate. Qed.

Lemma empty_lists_hollow : hollow MoreScenarios.empty_lists.
Proof. intros h argv t p [= <-] _. reflexivity. Qed.

Lemma discover_services_of_an_empty_account_witness :
  AwsCheck.discover_services MoreScenarios.empty_lists Scenarios.initial =
  (inr tt,
   extend (map (fun q => ("aws" :: q, 30)) discovery_queries)
     (discovery_of_nothing [true; true; true; true; true])
     Scenarios.initial).
Proof.
  apply (discover_services_of_an_empty_account MoreScenarios.empty_lists Scenarios.initial
           empty_lists_handled empty_lists_hollow).
Defined.

(** ** Output that is not JSON *)

(** A listing whose query exits with code 0 and prints text that is not
    JSON prints its parse error and returns. *)
Lemma listing_unparsable w heading query (body : json -> M unit)
    parse_message fail_message s :
  exit_zero (outcome w s query 30) = true ->
  json_loads w (output_of (outcome w s query 30)) = None ->
  bind (print heading)
    (fun _ =>
       bind (AwsCheck.run_aws_command query 30)
         (fun result =>
            if AwsCheck.success result
            then try_except (bind (loads (AwsCheck.stdout result)) body)
                   (AwsCheck.on_decode_error parse_message)
            else print_error fail_message)) w s
  = (inr tt, extend [("aws" :: query, 30)] [Plain heading; Error parse_message] s).
Proof.
  unfold print at 1. rewrite bind_emit. unfold bind at 1.
  rewrite check_run_aws_command. unfold outcome. cbn [calls add_line].
  destruct (subprocess_run w (calls s) ("aws" :: query) 30) as [e | p]; [discriminate |].
  cbn [exit_zero output_of AwsCheck.classify AwsCheck.success AwsCheck.stdout].
  intros -> Hloads.
  unfold try_except, bind, loads. rewrite Hloads.
  cbn [AwsCheck.on_decode_error]. unfold print_error, emit. as_extension. reflexivity.
Qed.

(** C6. In a world that raises nothing [run_aws_command] does not handle,
    no [JSONDecodeError] leaves [check_identity], [discover_services] or
    [get_ecs_metrics], and at each place where one of them parses the
    output of a query that exited with code 0, output that is not JSON is
    turned into a printed error.  [check_identity] prints the error and
    returns false.  [discover_services] is the sequence of its five
    listings; each listing whose output is not JSON prints its parse error
    and returns, so that the next listing runs; when the services of a
    cluster are not JSON, the ECS listing prints the parse error of the
    cluster listing and returns; when none of the five listings can be
    used, [discover_services] returns after its five queries with one error
    per listing.  [get_ecs_metrics], asked for the services of a cluster,
    prints the error, then the usage hint, and returns 0. *)
Theorem json_decode_error_is_caught (w : World) :
  handled w ->
  contained w AwsCheck.check_identity
  /\ contained w AwsCheck.discover_services
  /\ (forall cluster service hours,
        contained w (AwsMetrics.get_ecs_metrics cluster service hours))
  /\ (forall s,
        exit_zero (outcome w s identity_query 30) = true ->
        json_loads w (output_of (outcome w s identity_query 30)) = None ->
        exists s',
          AwsCheck.check_identity w s = (inr false, s')
          /\ printed s' = (printed s ++ [Header "AWS Identity";
                                         Error "Invalid JSON response from AWS CLI"])%list
          /\ calls s' = (calls s ++ [("aws" :: identity_query, 30)])%list)
  /\ (forall s,
        AwsCheck.discover_services w s =
        (print_header "Service Discovery" ;;
         Discovery.ecs_clusters ;;
         print "" ;;
         Discovery.ec2_instances ;;
         print "" ;;
         Discovery.lambda_functions ;;
         print "" ;;
         Discovery.load_balancers ;;
         print "" ;;
         Discovery.rds_instances) w s)
  /\ (forall s,
        exit_zero (outcome w s clusters_query 30) = true ->
        json_loads w (output_of (outcome w s clusters_query 30)) = None ->
        Discovery.ecs_clusters w s =
        (inr tt,
         extend [("aws" :: clusters_query, 30)]
           [Plain "ECS Clusters:"; Error "Failed to parse ECS clusters response"] s))
  /\ (forall s before arn others,
        exit_zero (outcome w s clusters_query 30) = true ->
        json_loads w (output_of (outcome w s clusters_query 30))
        = Some (JArr (map JStr before ++ JStr arn :: others)) ->
        services_usable w (calls s ++ [("aws" :: clusters_query, 30)]) before ->
        exit_zero (subprocess_run w
                     (calls s ++ ("aws" :: clusters_query, 30)
                                   :: map (fun a => ("aws" :: services_query a, 30)) before)
                     ("aws" :: services_query arn) 30) = true ->
        json_loads w
          (output_of (subprocess_run w
                        (calls s ++ ("aws" :: clusters_query, 30)
                                      :: map (fun a => ("aws" :: services_query a, 30)) before)
                        ("aws" :: services_query arn) 30)) = None ->
        Discovery.ecs_clusters w s =
        (inr tt,
         extend
           (("aws" :: clusters_query, 30)
            :: map (fun a => ("aws" :: services_query a, 30)) before
            ++ [("aws" :: services_query arn, 30)])
           (Plain "ECS Clusters:"
            :: cluster_sections w (calls s ++ [("aws" :: clusters_query, 30)]) before
            ++ [Info (arn_name arn); Error "Failed to parse ECS clusters response"])
           s))
  /\ (forall s,
        exit_zero (outcome w s instances_query 30) = true ->
        json_loads w (output_of (outcome w s instances_query 30)) = None ->
        Discovery.ec2_instances w s =
        (inr tt,
         extend [("aws" :: instances_query, 30)]
           [Plain "EC2 Instances (running):"; Error "Failed to parse EC2 instances response"]
           s))
  /\ (forall s,
        exit_zero (outcome w s functions_query 30) = true ->
        json_loads w (output_of (outcome w s functions_query 30)) = None ->
        Discovery.lambda_functions w s =
        (inr tt,
         extend [("aws" :: functions_query, 30)]
           [Plain "Lambda Functions:"; Error "Failed to parse Lambda functions response"] s))
  /\ (forall s,
        exit_zero (outcome w s balancers_query 30) = true ->
        json_loads w (output_of (outcome w s balancers_query 30)) = None ->
        Discovery.load_balancers w s =
        (inr tt,
         extend [("aws" :: balancers_query, 30)]
           [Plain "Load Balancers:"; Error "Failed to parse load balancers response"] s))
  /\ (forall s,
        exit_zero (outcome w s databases_query 30) = true ->
        json_loads w (output_of (outcome w s databases_query 30)) = None ->
        Discovery.rds_instances w s =
        (inr tt,
         extend [("aws" :: databases_query, 30)]
           [Plain "RDS Instances:"; Error "Failed to parse RDS instances response"] s))
  /\ (unlisted w ->
      forall s, exists s',
        AwsCheck.discover_services w s = (inr tt, s')
        /\ printed s'
           = (printed s ++ discovery_errors (probes w (calls s) 30 discovery_queries))%list
        /\ calls s' = (calls s ++ map (fun q => ("aws" :: q, 30)) discovery_queries)%list)
  /\ (forall s cluster service hours,
        service = None \/ service = Some "" ->
        representable w hours = true ->
        exit_zero (outcome w s (services_query cluster) 60) = true ->
        json_loads w (output_of (outcome w s (services_query cluster) 60)) = None ->
        AwsMetrics.get_ecs_metrics cluster service hours w s =
        (inr 0,
         extend [("aws" :: services_query cluster, 60)]
           [Header ("ECS Metrics: " +:+ cluster);
            Plain "Services in cluster:";
            Error "Failed to parse services response";
            Plain "";
            Plain ("Usage: aws_metrics.py ecs " +:+ cluster +:+ " <service-name>")]
           s)).
Proof.
  intros Hw.
  split; [apply contained_check_identity, Hw |].
  split; [apply contained_discover_services, Hw |].
  split; [intros; apply contained_get_ecs_metrics, Hw |].
  split; [| split; [| split; [| split; [| split; [| split; [| split; [| split; [| split]]]]]]]].
  - intros s Hok Hloads.
    destruct (AwsCheck.check_identity w s) as [res s'] eqn:E.
    destruct (check_identity_eq w s res s' Hw E) as (_ & H).
    rewrite Hok, Hloads in H. destruct H as (-> & Hp & Hc). eauto.
  - intros s. apply discover_services_listings.
  - intros s Hok Hloads. unfold Discovery.ecs_clusters, AwsCheck.DEFAULT_TIMEOUT.
    now apply listing_unparsable.
  - intros s before arn others. now apply ecs_clusters_unparsable_services.
  - intros s Hok Hloads. unfold Discovery.ec2_instances, AwsCheck.DEFAULT_TIMEOUT.
    now apply listing_unparsable.
  - intros s Hok Hloads. unfold Discovery.lambda_functions, AwsCheck.DEFAULT_TIMEOUT.
    now apply listing_unparsable.
  - intros s Hok Hloads. unfold Discovery.load_balancers, AwsCheck.DEFAULT_TIMEOUT.
    now apply listing_unparsable.
  - intros s Hok Hloads. unfold Discovery.rds_instances, AwsCheck.DEFAULT_TIMEOUT.
    now apply listing_unparsable.
  - intros Hu s. destruct (discover_services_unlisted w s Hw Hu) as (s' & E & Hp & Hc & _).
    eauto.
  - intros s cluster service hours Hsvc Hrep Hok Hloads.
    rewrite (get_ecs_metrics_listing w s cluster service hours Hsvc Hrep Hok).
    eapply bind_then.
    { unfold try_except. unfold bind at 1, loads at 1. rewrite Hloads. reflexivity. }
    unfold print, print_error. rewrite !bind_emit. unfold ret. as_extension. reflexivity.
Qed.

Lemma json_decode_error_is_caught_witness :
  handled Scenarios.chatty
  /\ handled Account.muddled
  /\ (exists s',
        AwsCheck.check_identity Scenarios.chatty Scenarios.initial = (inr false, s')
        /\ printed s' = [Header "AWS Identity"; Error "Invalid JSON response from AWS CLI"])
  /\ Discovery.ec2_instances Scenarios.chatty Scenarios.initial =
     (inr tt,
      extend [("aws" :: instances_query, 30)]
        [Plain "EC2 Instances (running):"; Error "Failed to parse EC2 instances response"]
        Scenarios.initial)
  /\ Discovery.ecs_clusters Account.muddled Scenarios.initial =
     (inr tt,
      extend
        [("aws" :: clusters_query, 30);
         ("aws" :: services_query Account.main_cluster, 30);
         ("aws" :: services_query Account.batch_cluster, 30)]
        [Plain "ECS Clusters:";
         Info "main"; Plain "    - web"; Plain "    - api";
         Info "batch";
         Error "Failed to parse ECS clusters response"]
        Scenarios.initial).
Proof.
  split; [exact chatty_handled |]. split; [exact muddled_handled |].
  destruct (json_decode_error_is_caught Scenarios.chatty chatty_handled)
    as (_ & _ & _ & Hid & _ & _ & _ & Hec2 & _).
  destruct (json_decode_error_is_caught Account.muddled muddled_handled)
    as (_ & _ & _ & _ & _ & _ & Hecs & _).
  split; [| split].
  - destruct (Hid Scenarios.initial) as (s' & E & Hp & _); [reflexivity | reflexivity |].
    exists s'. auto.
  - apply Hec2; reflexivity.
  - apply (Hecs Scenarios.initial [Account.main_cluster] Account.batch_cluster
             [JStr Account.spare_cluster]); try reflexivity.
    split; [| exact I]. intros p [= <-] _.
    exists [Account.web_service; Account.api_service]. reflexivity.
Defined.
